(** * CogBotFramework-Composer: the OpenCog services

    A shallow embedding of
    [Composer/packages/server/src/services/opencog/cognitiveOrchestrator.ts]
    (module [CO]) and
    [Composer/packages/server/src/services/opencog/synergyArchitecture.ts]
    (module [SA]), and the properties of the two services.  Of the synergy
    architecture the seed, the monitoring cycle, the evolution cycle, the
    emergence cycle, the public methods, and of the cycle of the autonomous
    agents [executeAutonomousAgents] and [coordinateAgentActivities] are
    embedded; [updateAgentKnowledge] is not.

    Conventions of the embedding.
    - A JavaScript [number] is an exact rational ([Q]); [Math.min] and
      [Math.max] are [Qmin] and [Qmax].  Rounding of IEEE doubles and [NaN]
      are not modelled.
    - A JavaScript [Map<string, V>] is an association list in insertion order
      with pairwise different keys ([jsmap]); a [Set<string>] is a duplicate
      free list in insertion order.
    - A parameter is taken at its declared type; the [input: any] of
      [processInput] is a JSON value, of which the fields that the class
      reads are kept.
    - A method of a class is a function on the state of the class; [emit]
      appends to an event log kept in the state, whether or not a listener
      is subscribed.
    - [Date.now()] and [Math.random()] are read from an environment that is
      an argument of the method; so is the lower-case form that
      [String.prototype.toLowerCase] gives to a text with characters outside
      of ASCII.
    - A string is a sequence of bytes (the UTF-8 form of the text).
    - A call of the asynchronous [processInput] runs to its end before the
      next call or timer callback starts. *)

From Stdlib Require Import QArith Qminmax Qround Qabs Lqa ZArith List String Ascii Bool Lia.
From Stdlib Require Import DecimalString.
From Stdlib Require Import Sorted Permutation.
Import ListNotations.

Local Open Scope string_scope.
Local Open Scope list_scope.
Local Open Scope Q_scope.

(** ** JavaScript helpers *)

(** [a < b] and [a > b] on numbers, as booleans. *)
Definition Qltb (a b : Q) : bool :=
  match a ?= b with Lt => true | _ => false end.

Definition Qgtb (a b : Q) : bool := Qltb b a.

(** [Map<string, V>]: [get], [set] (an existing key keeps its position),
    [delete], [has], [keys], [values]. *)
Definition jsmap (V : Type) : Type := list (string * V).

Fixpoint map_get {V : Type} (k : string) (m : jsmap V) : option V :=
  match m with
  | [] => None
  | (k', v) :: m' => if String.eqb k k' then Some v else map_get k m'
  end.

Fixpoint map_set {V : Type} (k : string) (v : V) (m : jsmap V) : jsmap V :=
  match m with
  | [] => [(k, v)]
  | (k', v') :: m' =>
      if String.eqb k k' then (k, v) :: m' else (k', v') :: map_set k v m'
  end.

Fixpoint map_delete {V : Type} (k : string) (m : jsmap V) : jsmap V :=
  match m with
  | [] => []
  | (k', v') :: m' =>
      if String.eqb k k' then map_delete k m' else (k', v') :: map_delete k m'
  end.

Definition map_has {V : Type} (k : string) (m : jsmap V) : bool :=
  match map_get k m with Some _ => true | None => false end.

Definition map_keys {V : Type} (m : jsmap V) : list string := map fst m.

Definition map_values {V : Type} (m : jsmap V) : list V := map snd m.

(** [Set<string>]: [has] and [add]. *)
Definition set_has (k : string) (s : list string) : bool :=
  existsb (String.eqb k) s.

Definition set_add (k : string) (s : list string) : list string :=
  if set_has k s then s else s ++ [k].

(** [array.slice(-n)]: the last [n] elements. *)
Definition slice_last {A : Type} (n : nat) (l : list A) : list A :=
  skipn (List.length l - n) l.

(** [array.slice(0, n)]. *)
Definition slice_first {A : Type} (n : nat) (l : list A) : list A :=
  firstn n l.

(** [s.includes(needle)]. *)
Fixpoint includes (s needle : string) : bool :=
  if String.prefix needle s then true
  else match s with
       | EmptyString => false
       | String _ s' => includes s' needle
       end.

(** The string holds ASCII characters only. *)
Definition isAscii (s : string) : bool :=
  forallb (fun c => (nat_of_ascii c <? 128)%nat) (list_ascii_of_string s).

(** [s.toLowerCase()] of an ASCII string: the letters [A] to [Z] are
    folded.  The method also folds the capitals outside of ASCII, which this
    function does not; a text with such characters is lower-cased by
    [CO.lowerCaseOf]. *)
Definition lower_ascii (c : ascii) : ascii :=
  let n := nat_of_ascii c in
  if (65 <=? n)%nat && (n <=? 90)%nat then ascii_of_nat (n + 32) else c.

Fixpoint toLowerCase (s : string) : string :=
  match s with
  | EmptyString => EmptyString
  | String c s' => String (lower_ascii c) (toLowerCase s')
  end.

(** Decimal digits of an integer. *)
Definition Z_to_string (z : Z) : string :=
  NilZero.string_of_int (Z.to_int z).

(** [x.toFixed(1)]: one digit after the point, the nearest tenth, the larger
    one on a tie, as the method is specified on the exact value of the
    number; the double that the source holds may lie on the other side of a
    tie, and the digit then differs. *)
Definition toFixed1 (x : Q) : string :=
  let n := Qfloor (Qabs x * 10 + (1 # 2)) in
  ((if Qltb x 0 then "-" else "")
     ++ Z_to_string (n / 10) ++ "." ++ Z_to_string (n mod 10))%string.

(** [Math.floor(Math.random() * n)] for a draw [r] of [Math.random()]. *)
Definition random_index (r : Q) (n : nat) : nat :=
  Z.to_nat (Qfloor (r * inject_Z (Z.of_nat n))).

(** A JavaScript count as a number. *)
Definition Qnat (n : nat) : Q := inject_Z (Z.of_nat n).

(** [array.sort(cmp)] with [cmp a b = key b - key a]: stable, by descending
    key. *)
Fixpoint insert_desc {A : Type} (key : A -> Q) (x : A) (l : list A) : list A :=
  match l with
  | [] => [x]
  | y :: l' =>
      if Qle_bool (key y) (key x) then x :: y :: l'
      else y :: insert_desc key x l'
  end.

Fixpoint sort_desc {A : Type} (key : A -> Q) (l : list A) : list A :=
  match l with
  | [] => []
  | x :: l' => insert_desc key x (sort_desc key l')
  end.

(** ** The cognitive orchestrator ([cognitiveOrchestrator.ts]) *)

Module CO.

Inductive NodeType : Type := concept | predicate | schema | procedure.

Inductive LinkType : Type :=
  inheritance | similarity | implication | evaluation | execution.

Record TruthValue : Type := {
  strength : Q;
  confidence : Q
}.

Record AttentionValue : Type := {
  shortTermImportance : Q;
  longTermImportance : Q;
  vlti : Q
}.

Record CognitiveLink : Type := {
  source : string;
  target : string;
  link_type : LinkType;
  link_truthValue : TruthValue;
  weight : Q
}.

Record CognitiveNode : Type := {
  node_id : string;
  node_type : NodeType;
  truthValue : TruthValue;
  attentionValue : AttentionValue;
  relationships : list CognitiveLink;
  node_timestamp : Z
}.

Record CognitivePattern : Type := {
  pattern_id : string;
  pattern_name : string;
  description : string;
  nodes : list CognitiveNode;
  links : list CognitiveLink;
  activationThreshold : Q;
  synergyScore : Q
}.

Record AdaptationRecord : Type := {
  timestamp : Z;
  trigger : string;
  adaptation : string;
  effectiveness : Q
}.

Record CognitiveState : Type := {
  activeNodes : list string;
  attentionalFocus : list string;
  emergentPatterns : list CognitivePattern;
  synergyLevel : Q;
  learningRate : Q;
  adaptationHistory : list AdaptationRecord
}.

(** The field [text] of an input: a string, or any other value, of which
    only the truthiness matters (an absent field is falsy).  The input is a
    JSON value, as the controller passes it on: a text that is not a string
    has no method [toLowerCase]. *)
Inductive Text : Type :=
| text_string (s : string)
| text_other (truthy : bool).

(** The field [type] of an input when it is a string, or a truthy value
    that is not a string.  Of the latter only the conversion to a string
    matters: [converted] is what the conversion yields, and [None] when it
    throws a [TypeError] (a symbol; an object whose [toString] and [valueOf]
    yield no primitive, such as [{toString: 1}]). *)
Inductive TypeField : Type :=
| type_string (s : string)
| type_other (converted : option string).

(** The [input: any] of [processInput], with the fields the class reads.
    [in_dialog] and [in_requiresResponse] are the truthiness of the fields;
    [in_type] is [None] when the field is absent or falsy and not a string;
    [in_dialogState] is the field when it holds a string, [in_turnCount]
    when it holds a number, and [None] when they are absent (no other value
    of these two fields changes the control flow). *)
Record Input : Type := {
  in_type : option TypeField;
  in_text : Text;
  in_dialog : bool;
  in_requiresResponse : bool;
  in_dialogState : option string;
  in_turnCount : option Q
}.

Record IntentReasoning : Type := {
  intent : string;
  intent_confidence : Q
}.

Record ContextReasoning : Type := {
  context : string;
  dialogState : option string;
  turnCount : option Q;
  context_confidence : Q
}.

Record ActionReasoning : Type := {
  action : string;
  responseType : option string;
  adaptationLevel : option Q;
  action_confidence : Q
}.

Record Reasoning : Type := {
  r_intent : IntentReasoning;
  r_context : ContextReasoning;
  r_action : ActionReasoning;
  r_confidence : Q
}.

Record Metadata : Type := {
  md_cognitiveState : CognitiveState;
  activePatterns : list string;
  processingPath : list string
}.

Record Response : Type := {
  resp_type : string;
  content : string;
  resp_confidence : Q;
  resp_synergyLevel : Q;
  adaptations : list string;
  metadata : Metadata
}.

(** The events of the orchestrator with their payloads. *)
Inductive Event : Type :=
| cognition (input : option Input) (response : Response)
            (cognitiveState : CognitiveState) (processingTime : Z)
| autonomy_change (autonomous : bool)
| learning_change (learning : bool)
| pattern_added (pattern : string)
| pattern_removed (pattern : string)
| cognitive_reset.

(** The fields of the class; [events] is the log of what [emit] was called
    with, oldest first. *)
Record State : Type := {
  cognitiveState : CognitiveState;
  atomSpace : jsmap CognitiveNode;
  patternMatchers : jsmap CognitivePattern;
  autonomousMode : bool;
  learningEnabled : bool;
  adaptationThreshold : Q;
  events : list Event
}.

(** What one call of [processInput] reads from the clock and from
    [Math.random]: [Date.now()] at entry, at the call of
    [learnFromInteraction], inside it for the record, and at [emit]; and
    [lowerCase], the lower-case form that [String.prototype.toLowerCase]
    gives to a text with characters outside of ASCII. *)
Record Env : Type := {
  startTime : Z;
  learnTime : Z;
  recordTime : Z;
  emitTime : Z;
  random : Q;
  lowerCase : string -> string
}.

Definition set_cognitiveState (cs : CognitiveState) (s : State) : State :=
  {| cognitiveState := cs;
     atomSpace := atomSpace s;
     patternMatchers := patternMatchers s;
     autonomousMode := autonomousMode s;
     learningEnabled := learningEnabled s;
     adaptationThreshold := adaptationThreshold s;
     events := events s |}.

Definition set_atomSpace (a : jsmap CognitiveNode) (s : State) : State :=
  {| cognitiveState := cognitiveState s;
     atomSpace := a;
     patternMatchers := patternMatchers s;
     autonomousMode := autonomousMode s;
     learningEnabled := learningEnabled s;
     adaptationThreshold := adaptationThreshold s;
     events := events s |}.

Definition set_patternMatchers (p : jsmap CognitivePattern) (s : State) : State :=
  {| cognitiveState := cognitiveState s;
     atomSpace := atomSpace s;
     patternMatchers := p;
     autonomousMode := autonomousMode s;
     learningEnabled := learningEnabled s;
     adaptationThreshold := adaptationThreshold s;
     events := events s |}.

Definition emit (e : Event) (s : State) : State :=
  {| cognitiveState := cognitiveState s;
     atomSpace := atomSpace s;
     patternMatchers := patternMatchers s;
     autonomousMode := autonomousMode s;
     learningEnabled := learningEnabled s;
     adaptationThreshold := adaptationThreshold s;
     events := events s ++ [e] |}.

Definition mkNode (i : string) (t : NodeType) (s c st lt vl : Q) (now : Z)
  : CognitiveNode :=
  {| node_id := i; node_type := t;
     truthValue := {| strength := s; confidence := c |};
     attentionValue :=
       {| shortTermImportance := st; longTermImportance := lt; vlti := vl |};
     relationships := [];
     node_timestamp := now |}.

Definition mkLink (s t : string) (k : LinkType) (st c w : Q) : CognitiveLink :=
  {| source := s; target := t; link_type := k;
     link_truthValue := {| strength := st; confidence := c |};
     weight := w |}.

Definition createIntentNodes (now : Z) : list CognitiveNode :=
  [ mkNode "user_input" concept 1.0 0.9 0.8 0.6 0.4 now;
    mkNode "intent_classifier" procedure 0.9 0.85 0.9 0.8 0.7 now;
    mkNode "context_analyzer" procedure 0.85 0.8 0.7 0.9 0.8 now ].

Definition createIntentLinks : list CognitiveLink :=
  [ mkLink "user_input" "intent_classifier" execution 0.9 0.85 0.8;
    mkLink "user_input" "context_analyzer" evaluation 0.85 0.8 0.75 ].

Definition createDialogNodes (now : Z) : list CognitiveNode :=
  [ mkNode "dialog_state" concept 1.0 0.95 0.95 0.85 0.7 now;
    mkNode "flow_controller" procedure 0.9 0.9 0.85 0.9 0.8 now ].

Definition createDialogLinks : list CognitiveLink :=
  [ mkLink "dialog_state" "flow_controller" execution 0.95 0.9 0.9 ].

Definition createResponseNodes (now : Z) : list CognitiveNode :=
  [ mkNode "response_generator" procedure 0.9 0.85 0.8 0.7 0.6 now;
    mkNode "contextual_adapter" procedure 0.85 0.8 0.75 0.85 0.9 now ].

Definition createResponseLinks : list CognitiveLink :=
  [ mkLink "response_generator" "contextual_adapter" execution 0.88 0.83 0.85 ].

Definition intentPattern (now : Z) : CognitivePattern :=
  {| pattern_id := "intent_recognition";
     pattern_name := "Intent Recognition Synergy";
     description :=
       "Cognitive pattern for autonomous intent recognition and classification";
     nodes := createIntentNodes now;
     links := createIntentLinks;
     activationThreshold := 0.6;
     synergyScore := 0.8 |}.

Definition dialogPattern (now : Z) : CognitivePattern :=
  {| pattern_id := "dialog_management";
     pattern_name := "Dialog Flow Synergy";
     description := "Cognitive pattern for autonomous dialog state management";
     nodes := createDialogNodes now;
     links := createDialogLinks;
     activationThreshold := 0.7;
     synergyScore := 0.75 |}.

Definition responsePattern (now : Z) : CognitivePattern :=
  {| pattern_id := "response_generation";
     pattern_name := "Response Generation Synergy";
     description :=
       "Cognitive pattern for contextually adaptive response generation";
     nodes := createResponseNodes now;
     links := createResponseLinks;
     activationThreshold := 0.65;
     synergyScore := 0.85 |}.

(** [initializeBasicPatterns]: the three seed patterns, set into an empty
    map. *)
Definition initializeBasicPatterns (now : Z) : jsmap CognitivePattern :=
  map_set (pattern_id (responsePattern now)) (responsePattern now)
    (map_set (pattern_id (dialogPattern now)) (dialogPattern now)
       (map_set (pattern_id (intentPattern now)) (intentPattern now) [])).

Definition initialCognitiveState : CognitiveState :=
  {| activeNodes := [];
     attentionalFocus := [];
     emergentPatterns := [];
     synergyLevel := 0.5;
     learningRate := 0.1;
     adaptationHistory := [] |}.

(** [initializeCognitiveSystem]: assigns [cognitiveState], [atomSpace] and
    [patternMatchers]. *)
Definition initializeCognitiveSystem (now : Z) (s : State) : State :=
  {| cognitiveState := initialCognitiveState;
     atomSpace := [];
     patternMatchers := initializeBasicPatterns now;
     autonomousMode := autonomousMode s;
     learningEnabled := learningEnabled s;
     adaptationThreshold := adaptationThreshold s;
     events := events s |}.

(** The constructor: the field initialisers, then
    [initializeCognitiveSystem]. *)
Definition new (now : Z) : State :=
  initializeCognitiveSystem now
    {| cognitiveState := initialCognitiveState;
       atomSpace := [];
       patternMatchers := [];
       autonomousMode := true;
       learningEnabled := true;
       adaptationThreshold := 0.7;
       events := [] |}.

(** *** Reading the input ([input?.field]) *)

Definition input_type (input : option Input) : option TypeField :=
  match input with Some i => in_type i | None => None end.

Definition input_text (input : option Input) : Text :=
  match input with Some i => in_text i | None => text_other false end.

Definition input_dialog (input : option Input) : bool :=
  match input with Some i => in_dialog i | None => false end.

Definition input_requiresResponse (input : option Input) : bool :=
  match input with Some i => in_requiresResponse i | None => false end.

Definition input_dialogState (input : option Input) : option string :=
  match input with Some i => in_dialogState i | None => None end.

Definition input_turnCount (input : option Input) : option Q :=
  match input with Some i => in_turnCount i | None => None end.

(** [x || d] on an optional string: the empty string is falsy. *)
Definition string_or (x : option string) (d : string) : string :=
  match x with
  | Some EmptyString => d
  | Some v => v
  | None => d
  end.

(** [x || d] on an optional number: [0] is falsy. *)
Definition number_or (x : option Q) (d : Q) : Q :=
  match x with
  | Some v => if Qeq_bool v 0 then d else v
  | None => d
  end.

(** *** Updating the cognitive state *)

Definition findRelevantNodes (input : option Input) : list string :=
  (match input_type input with
   | Some (type_string t) =>
       if String.eqb t "message"
       then ["user_input"; "intent_classifier"; "context_analyzer"]
       else []
   | _ => []
   end)
  ++ (if input_dialog input then ["dialog_state"; "flow_controller"] else [])
  ++ (if input_requiresResponse input
      then ["response_generator"; "contextual_adapter"] else []).

Definition set_shortTermImportance (v : Q) (n : CognitiveNode) : CognitiveNode :=
  {| node_id := node_id n; node_type := node_type n;
     truthValue := truthValue n;
     attentionValue :=
       {| shortTermImportance := v;
          longTermImportance := longTermImportance (attentionValue n);
          vlti := vlti (attentionValue n) |};
     relationships := relationships n;
     node_timestamp := node_timestamp n |}.

Definition set_activeNodes (a : list string) (cs : CognitiveState)
  : CognitiveState :=
  {| activeNodes := a;
     attentionalFocus := attentionalFocus cs;
     emergentPatterns := emergentPatterns cs;
     synergyLevel := synergyLevel cs;
     learningRate := learningRate cs;
     adaptationHistory := adaptationHistory cs |}.

(** The body of the [forEach] of [updateCognitiveState]. *)
Definition activateNode (s : State) (nodeId : string) : State :=
  let s1 :=
    set_cognitiveState
      (set_activeNodes (set_add nodeId (activeNodes (cognitiveState s)))
         (cognitiveState s)) s in
  match map_get nodeId (atomSpace s1) with
  | Some node =>
      set_atomSpace
        (map_set nodeId
           (set_shortTermImportance
              (Qmin 1.0 (shortTermImportance (attentionValue node) + 0.1))
              node)
           (atomSpace s1)) s1
  | None => s1
  end.

Definition importanceOf (s : State) (nodeId : string) : Q :=
  match map_get nodeId (atomSpace s) with
  | Some n => shortTermImportance (attentionValue n)
  | None => 0
  end.

Definition updateAttentionalFocus (s : State) : State :=
  let focusNodes :=
    map fst
      (slice_first 5
         (sort_desc snd
            (map (fun nodeId => (nodeId, importanceOf s nodeId))
               (activeNodes (cognitiveState s))))) in
  set_cognitiveState
    {| activeNodes := activeNodes (cognitiveState s);
       attentionalFocus := focusNodes;
       emergentPatterns := emergentPatterns (cognitiveState s);
       synergyLevel := synergyLevel (cognitiveState s);
       learningRate := learningRate (cognitiveState s);
       adaptationHistory := adaptationHistory (cognitiveState s) |} s.

(** The accumulators [activation] and [nodeCount] after the [forEach]. *)
Definition activationSum (active : list string) (ns : list CognitiveNode)
  : Q * nat :=
  fold_left
    (fun (acc : Q * nat) (node : CognitiveNode) =>
       if set_has (node_id node) active
       then (fst acc
             + strength (truthValue node) * confidence (truthValue node),
             S (snd acc))
       else acc)
    ns (0, 0%nat).

Definition calculatePatternActivation (cs : CognitiveState)
  (pattern : CognitivePattern) : Q :=
  let acc := activationSum (activeNodes cs) (nodes pattern) in
  if (0 <? snd acc)%nat then fst acc / Qnat (snd acc) else 0.

(** The accumulators [totalSynergy] and [activePatterns] after the
    [forEach]. *)
Definition synergySum (cs : CognitiveState) (ps : list CognitivePattern)
  : Q * nat :=
  fold_left
    (fun (acc : Q * nat) (pattern : CognitivePattern) =>
       let activation := calculatePatternActivation cs pattern in
       if Qgtb activation (activationThreshold pattern)
       then (fst acc + synergyScore pattern * activation, S (snd acc))
       else acc)
    ps (0, 0%nat).

Definition set_synergyLevel (v : Q) (cs : CognitiveState) : CognitiveState :=
  {| activeNodes := activeNodes cs;
     attentionalFocus := attentionalFocus cs;
     emergentPatterns := emergentPatterns cs;
     synergyLevel := v;
     learningRate := learningRate cs;
     adaptationHistory := adaptationHistory cs |}.

Definition calculateSynergyLevel (s : State) : State :=
  let acc := synergySum (cognitiveState s) (map_values (patternMatchers s)) in
  set_cognitiveState
    (set_synergyLevel
       (if (0 <? snd acc)%nat then fst acc / Qnat (snd acc) else 0.5)
       (cognitiveState s)) s.

Definition updateCognitiveState (input : option Input) (s : State) : State :=
  let relevantNodes := findRelevantNodes input in
  calculateSynergyLevel
    (updateAttentionalFocus (fold_left activateNode relevantNodes s)).

(** *** Reasoning *)

(** [t.toLowerCase()] for the text [t] of an input. *)
Definition lowerCaseOf (e : Env) (t : string) : string :=
  if isAscii t then toLowerCase t else lowerCase e t.

(** [None] is the [TypeError] of [input.text.toLowerCase()] on a truthy
    [text] that is not a string. *)
Definition reasonAboutIntent (e : Env) (input : option Input) (s : State)
  : option IntentReasoning :=
  match map_get "intent_recognition" (patternMatchers s) with
  | None => Some {| intent := "unknown"; intent_confidence := 0.5 |}
  | Some intentPattern =>
      let activation :=
        calculatePatternActivation (cognitiveState s) intentPattern in
      match input_text input with
      | text_other false | text_string EmptyString =>
          Some {| intent := "general"; intent_confidence := activation |}
      | text_other true => None
      | text_string t =>
          let text := lowerCaseOf e t in
          if includes text "help" || includes text "assist" then
            Some {| intent := "help_request";
                    intent_confidence := Qmin 1.0 (activation + 0.2) |}
          else if includes text "bye" || includes text "goodbye" then
            Some {| intent := "farewell";
                    intent_confidence := Qmin 1.0 (activation + 0.15) |}
          else if includes text "hello" || includes text "hi" then
            Some {| intent := "greeting";
                    intent_confidence := Qmin 1.0 (activation + 0.15) |}
          else Some {| intent := "general"; intent_confidence := activation |}
      end
  end.

Definition reasonAboutContext (input : option Input) (s : State)
  : ContextReasoning :=
  match map_get "dialog_management" (patternMatchers s) with
  | None =>
      {| context := "unknown"; dialogState := None; turnCount := None;
         context_confidence := 0.5 |}
  | Some contextPattern =>
      let activation :=
        calculatePatternActivation (cognitiveState s) contextPattern in
      {| context := "conversational";
         dialogState := Some (string_or (input_dialogState input) "active");
         turnCount := Some (number_or (input_turnCount input) 1);
         context_confidence := activation |}
  end.

Definition reasonAboutAction (input : option Input) (s : State)
  : ActionReasoning :=
  match map_get "response_generation" (patternMatchers s) with
  | None =>
      {| action := "respond"; responseType := None; adaptationLevel := None;
         action_confidence := 0.5 |}
  | Some responsePattern =>
      let activation :=
        calculatePatternActivation (cognitiveState s) responsePattern in
      {| action := "respond";
         responseType := Some "contextual";
         adaptationLevel := Some (synergyLevel (cognitiveState s));
         action_confidence := activation |}
  end.

(** [None] when [reasonAboutIntent] throws. *)
Definition applyCognitiveReasoning (e : Env) (input : option Input)
  (s : State) : option Reasoning :=
  match reasonAboutIntent e input s with
  | None => None
  | Some i =>
      let c := reasonAboutContext input s in
      let a := reasonAboutAction input s in
      Some {| r_intent := i; r_context := c; r_action := a;
              r_confidence :=
                (intent_confidence i + context_confidence c
                 + action_confidence a) / 3 |}
  end.

(** *** Response generation *)

Definition greetings : list string :=
  [ "Hello! I'm here to help you with cognitive assistance.";
    "Hi there! Ready to explore some intelligent solutions together?";
    "Greetings! Let's engage in some productive cognitive synergy." ].

(** [greetings[Math.floor(Math.random() * greetings.length)]]; a draw of
    [Math.random()] is in [0, 1), outside of it the index reads
    [undefined]. *)
Definition generateGreeting (r : Q) : string :=
  nth (random_index r (List.length greetings)) greetings "undefined".

Definition generateHelpResponse : string :=
  ("I can assist you with cognitive reasoning, pattern recognition, and adaptive responses. "
   ++ "My cognitive architecture allows me to learn and adapt to provide better assistance over time. "
   ++ "What would you like help with?")%string.

Definition generateFarewell : string :=
  ("Goodbye! Our cognitive interaction has been valuable for my learning and adaptation. "
   ++ "Feel free to return anytime for more intelligent assistance.")%string.

Definition generateGeneralResponse (reasoning : Reasoning) (s : State)
  : string :=
  ("I understand you're looking for assistance. Based on my cognitive analysis "
   ++ "(confidence: " ++ toFixed1 (r_confidence reasoning * 100)
   ++ "%), I'm ready to help. "
   ++ "My current synergy level is "
   ++ toFixed1 (synergyLevel (cognitiveState s) * 100) ++ "%, "
   ++ "which means I'm operating with good cognitive coherence.")%string.

Definition applyCognitiveAdaptation (content : string) (s : State) : string :=
  let synergyLevel := synergyLevel (cognitiveState s) in
  if Qgtb synergyLevel 0.8 then
    (content
     ++ " [Cognitive enhancement: High synergy detected - responses optimized for maximum effectiveness]")%string
  else if Qltb synergyLevel 0.4 then
    (content
     ++ " [Cognitive adaptation: Adjusting response patterns to improve synergy]")%string
  else content.

Definition generateResponseContent (r : Q) (reasoning : Reasoning)
  (s : State) : string :=
  let i := intent (r_intent reasoning) in
  let content :=
    if String.eqb i "greeting" then generateGreeting r
    else if String.eqb i "help_request" then generateHelpResponse
    else if String.eqb i "farewell" then generateFarewell
    else generateGeneralResponse reasoning s in
  applyCognitiveAdaptation content s.

Definition generateAdaptations (reasoning : Reasoning) (s : State)
  : list string :=
  (if Qltb (r_confidence reasoning) 0.6
   then ["Increase pattern matching sensitivity";
         "Enhance context analysis depth"]
   else [])
  ++ (if Qltb (synergyLevel (cognitiveState s)) 0.5
      then ["Strengthen cognitive node connections";
            "Optimize attention allocation"]
      else []).

Definition getActivePatterns (s : State) : list string :=
  map fst
    (filter
       (fun kv : string * CognitivePattern =>
          Qgtb (calculatePatternActivation (cognitiveState s) (snd kv))
            (activationThreshold (snd kv)))
       (patternMatchers s)).

Definition getProcessingPath : list string :=
  [ "Input processing";
    "Cognitive state update";
    "Pattern activation";
    "Reasoning application";
    "Synergy calculation";
    "Response generation";
    "Adaptation planning" ].

(** [metadata.cognitiveState] is the object held by the class; the value
    recorded here is its content when the response is built, and
    [processInput] brings it up to date ([liveResponse]). *)
Definition generateSynergyResponse (r : Q) (reasoning : Reasoning)
  (s : State) : Response :=
  {| resp_type := "cognitive_response";
     content := generateResponseContent r reasoning s;
     resp_confidence := r_confidence reasoning;
     resp_synergyLevel := synergyLevel (cognitiveState s);
     adaptations := generateAdaptations reasoning s;
     metadata :=
       {| md_cognitiveState := cognitiveState s;
          activePatterns := getActivePatterns s;
          processingPath := getProcessingPath |} |}.

(** *** Learning *)

Definition calculateEffectiveness (response : Response) (processingTime : Z)
  (s : State) : Q :=
  let effectiveness := resp_confidence response in
  let timeEfficiency := Qmax 0 (1 - inject_Z processingTime / 5000) in
  let effectiveness := (effectiveness + timeEfficiency) / 2 in
  let effectiveness :=
    (effectiveness + synergyLevel (cognitiveState s)) / 2 in
  Qmax 0 (Qmin 1 effectiveness).

(** The body of the [forEach] of [updateNodesFromLearning], on a node of the
    atom space. *)
Definition learnNode (effectiveness adjustment : Q) (node : CognitiveNode)
  : CognitiveNode :=
  {| node_id := node_id node; node_type := node_type node;
     truthValue :=
       {| strength :=
            Qmax 0 (Qmin 1 (strength (truthValue node) + adjustment));
          confidence :=
            Qmax 0
              (Qmin 1 (confidence (truthValue node) + adjustment * 0.5)) |};
     attentionValue :=
       {| shortTermImportance := shortTermImportance (attentionValue node);
          longTermImportance :=
            if Qgtb effectiveness 0.7
            then Qmin 1.0 (longTermImportance (attentionValue node) + 0.05)
            else longTermImportance (attentionValue node);
          vlti := vlti (attentionValue node) |};
     relationships := relationships node;
     node_timestamp := node_timestamp node |}.

Definition updateNodesFromLearning (effectiveness : Q) (s : State) : State :=
  let learningRate := learningRate (cognitiveState s) in
  let adjustment := (effectiveness - 0.5) * learningRate in
  set_atomSpace
    (fold_left
       (fun (a : jsmap CognitiveNode) (nodeId : string) =>
          match map_get nodeId a with
          | Some node =>
              map_set nodeId (learnNode effectiveness adjustment node) a
          | None => a
          end)
       (activeNodes (cognitiveState s)) (atomSpace s)) s.

(** The text of [input?.type || 'unknown'] in the template literal of
    [learnFromInteraction]; [None] is the [TypeError] of the conversion of a
    truthy [type] that has no string form. *)
Definition typeText (input : option Input) : option string :=
  match input_type input with
  | None | Some (type_string EmptyString) => Some "unknown"
  | Some (type_string t) => Some t
  | Some (type_other converted) => converted
  end.

(** The record that [learnFromInteraction] pushes; [None] when building its
    [trigger] throws. *)
Definition adaptationRecord (now : Z) (input : option Input)
  (response : Response) (effectiveness : Q) : option AdaptationRecord :=
  match typeText input with
  | None => None
  | Some t =>
      Some {| timestamp := now;
              trigger := ("Input type: " ++ t)%string;
              adaptation :=
                ("Response generated with "
                 ++ toFixed1 (resp_confidence response * 100)
                 ++ "% confidence")%string;
              effectiveness := effectiveness |}
  end.

(** [push], then the trim to the last 100. *)
Definition recordAdaptation (adaptation : AdaptationRecord)
  (history : list AdaptationRecord) : list AdaptationRecord :=
  let history := history ++ [adaptation] in
  if (100 <? List.length history)%nat then slice_last 100 history else history.

Definition adjustLearningRate (effectiveness learningRate : Q) : Q :=
  if Qgtb effectiveness 0.8 then Qmin 0.2 (learningRate + 0.01)
  else if Qltb effectiveness 0.4 then Qmax 0.05 (learningRate - 0.01)
  else learningRate.

(** [None] when the record cannot be built: the method then throws before
    it has changed anything. *)
Definition learnFromInteraction (now : Z) (input : option Input)
  (response : Response) (processingTime : Z) (s : State) : option State :=
  let effectiveness := calculateEffectiveness response processingTime s in
  match adaptationRecord now input response effectiveness with
  | None => None
  | Some adaptation =>
      let cs := cognitiveState s in
      let s1 :=
        set_cognitiveState
          {| activeNodes := activeNodes cs;
             attentionalFocus := attentionalFocus cs;
             emergentPatterns := emergentPatterns cs;
             synergyLevel := synergyLevel cs;
             learningRate :=
               adjustLearningRate effectiveness (learningRate cs);
             adaptationHistory :=
               recordAdaptation adaptation (adaptationHistory cs) |} s in
      Some (updateNodesFromLearning effectiveness s1)
  end.

(** The response as its reader finds it: [metadata.cognitiveState] is the
    object held by the class, not a copy, and shows what the class holds
    when the response is read. *)
Definition liveResponse (s : State) (response : Response) : Response :=
  {| resp_type := resp_type response;
     content := content response;
     resp_confidence := resp_confidence response;
     resp_synergyLevel := resp_synergyLevel response;
     adaptations := adaptations response;
     metadata :=
       {| md_cognitiveState := cognitiveState s;
          activePatterns := activePatterns (metadata response);
          processingPath := processingPath (metadata response) |} |}.

(** *** The public methods *)

(** The result is the response that the promise resolves to, or [None] when
    the call throws (the promise is rejected); what the call did to the
    state before it threw stays done. *)
Definition processInput (e : Env) (input : option Input) (s : State)
  : option Response * State :=
  let s1 := updateCognitiveState input s in
  match applyCognitiveReasoning e input s1 with
  | None => (None, s1)
  | Some reasoning =>
      let response := generateSynergyResponse (random e) reasoning s1 in
      let learned :=
        if learningEnabled s1
        then learnFromInteraction (recordTime e) input response
               (learnTime e - startTime e) s1
        else Some s1 in
      match learned with
      | None => (None, s1)
      | Some s2 =>
          let response := liveResponse s2 response in
          (Some response,
           emit (cognition input response (cognitiveState s2)
                   (emitTime e - startTime e)) s2)
      end
  end.

Definition getCognitiveState (s : State) : CognitiveState := cognitiveState s.

Definition calculateAverageEffectiveness (s : State) : Q :=
  let history := adaptationHistory (cognitiveState s) in
  if (List.length history =? 0)%nat then 0.5
  else
    let recentAdaptations := slice_last 20 history in
    let totalEffectiveness :=
      fold_left (fun (sum : Q) (record : AdaptationRecord) =>
                   sum + effectiveness record)
        recentAdaptations 0 in
    totalEffectiveness / Qnat (List.length recentAdaptations).

Record Statistics : Type := {
  stat_totalNodes : nat;
  stat_activeNodes : nat;
  stat_totalPatterns : nat;
  stat_activePatterns : nat;
  stat_synergyLevel : Q;
  stat_learningRate : Q;
  stat_adaptationCount : nat;
  stat_averageEffectiveness : Q
}.

Definition getCognitiveStatistics (s : State) : Statistics :=
  {| stat_totalNodes := List.length (atomSpace s);
     stat_activeNodes := List.length (activeNodes (cognitiveState s));
     stat_totalPatterns := List.length (patternMatchers s);
     stat_activePatterns := List.length (getActivePatterns s);
     stat_synergyLevel := synergyLevel (cognitiveState s);
     stat_learningRate := learningRate (cognitiveState s);
     stat_adaptationCount :=
       List.length (adaptationHistory (cognitiveState s));
     stat_averageEffectiveness := calculateAverageEffectiveness s |}.

Definition setAutonomousMode (enabled : bool) (s : State) : State :=
  emit (autonomy_change enabled)
    {| cognitiveState := cognitiveState s;
       atomSpace := atomSpace s;
       patternMatchers := patternMatchers s;
       autonomousMode := enabled;
       learningEnabled := learningEnabled s;
       adaptationThreshold := adaptationThreshold s;
       events := events s |}.

Definition setLearningEnabled (enabled : bool) (s : State) : State :=
  emit (learning_change enabled)
    {| cognitiveState := cognitiveState s;
       atomSpace := atomSpace s;
       patternMatchers := patternMatchers s;
       autonomousMode := autonomousMode s;
       learningEnabled := enabled;
       adaptationThreshold := adaptationThreshold s;
       events := events s |}.

Definition setAdaptationThreshold (threshold : Q) (s : State) : State :=
  {| cognitiveState := cognitiveState s;
     atomSpace := atomSpace s;
     patternMatchers := patternMatchers s;
     autonomousMode := autonomousMode s;
     learningEnabled := learningEnabled s;
     adaptationThreshold := Qmax 0 (Qmin 1 threshold);
     events := events s |}.

Definition addCognitivePattern (pattern : CognitivePattern) (s : State)
  : State :=
  emit (pattern_added (pattern_id pattern))
    (set_patternMatchers
       (map_set (pattern_id pattern) pattern (patternMatchers s)) s).

Definition removeCognitivePattern (patternId : string) (s : State) : State :=
  emit (pattern_removed patternId)
    (set_patternMatchers (map_delete patternId (patternMatchers s)) s).

Definition reset (now : Z) (s : State) : State :=
  emit cognitive_reset (initializeCognitiveSystem now s).

(** A call of a public method, with what it reads from its environment. *)
Inductive Op : Type :=
| OpProcessInput (e : Env) (input : option Input)
| OpGetCognitiveState
| OpGetCognitiveStatistics
| OpSetAutonomousMode (enabled : bool)
| OpSetLearningEnabled (enabled : bool)
| OpSetAdaptationThreshold (threshold : Q)
| OpAddCognitivePattern (pattern : CognitivePattern)
| OpRemoveCognitivePattern (patternId : string)
| OpReset (now : Z).

Definition step (s : State) (o : Op) : State :=
  match o with
  | OpProcessInput e input => snd (processInput e input s)
  | OpGetCognitiveState => s
  | OpGetCognitiveStatistics => s
  | OpSetAutonomousMode b => setAutonomousMode b s
  | OpSetLearningEnabled b => setLearningEnabled b s
  | OpSetAdaptationThreshold t => setAdaptationThreshold t s
  | OpAddCognitivePattern p => addCognitivePattern p s
  | OpRemoveCognitivePattern i => removeCognitivePattern i s
  | OpReset now => reset now s
  end.

(** The state after a sequence of calls. *)
Definition run (s : State) (ops : list Op) : State := fold_left step ops s.

End CO.

(** ** The synergy architecture ([synergyArchitecture.ts]) *)

Module SA.

Inductive ComponentType : Type := cognitive | behavioral | adaptive | emergent.

Inductive ConnectionType : Type :=
  data_flow | control_flow | feedback | reinforcement.

(** The topology ['emergent'] is [emergent_topology]. *)
Inductive Topology : Type :=
  hierarchical | networked | distributed | emergent_topology.

Inductive Role : Type := orchestrator | analyzer | optimizer | learner | adapter.

Record SynergyConnection : Type := {
  targetId : string;
  connectionType : ConnectionType;
  strength : Q;
  bandwidth : Q;
  latency : Q;
  reliability : Q
}.

Record ComponentState : Type := {
  active : bool;
  load : Q;
  efficiency : Q;
  adaptationRate : Q;
  lastUpdate : Z;
  errorCount : Z
}.

Record ComponentMetrics : Type := {
  throughput : Q;
  responseTime : Q;
  accuracy : Q;
  resourceUsage : Q;
  synergyContribution : Q;
  emergentProperties : Q
}.

Record SynergyComponent : Type := {
  id : string;
  name : string;
  type : ComponentType;
  capabilities : list string;
  connections : list SynergyConnection;
  state : ComponentState;
  metrics : ComponentMetrics
}.

(** [pattern_components] holds the component objects of the registry; they
    are recorded by their ids. *)
Record ArchitecturalPattern : Type := {
  pattern_id : string;
  pattern_name : string;
  pattern_description : string;
  pattern_components : list string;
  topology : Topology;
  scalability : Q;
  resilience : Q;
  adaptability : Q
}.

Record EmergentBehavior : Type := {
  behavior_id : string;
  behavior_name : string;
  behavior_description : string;
  manifestation : string;
  behavior_strength : Q;
  stability : Q;
  novelty : Q;
  utility : Q;
  behavior_components : list string;
  triggers : list string
}.

(** The values found in a [knowledge: Map<string, any>]. *)
Inductive KValue : Type :=
| KString (s : string)
| KNumber (q : Q)
| KArray (l : list string).

Record AgentState : Type := {
  agent_active : bool;
  currentGoal : string;
  progress : Q;
  resources : jsmap Q;
  knowledge : jsmap KValue;
  experience : Q
}.

Record AgentPerformance : Type := {
  taskCompletion : Q;
  goalAchievement : Q;
  resourceEfficiency : Q;
  agent_learningRate : Q;
  adaptationSpeed : Q;
  collaborationScore : Q
}.

Record AutonomousAgent : Type := {
  agent_id : string;
  agent_name : string;
  role : Role;
  agent_capabilities : list string;
  goals : list string;
  agent_state : AgentState;
  performance : AgentPerformance
}.

Record ArchitecturalState : Type := {
  totalComponents : nat;
  activeComponents : nat;
  emergentBehaviorCount : nat;
  synergyLevel : Q;
  arch_adaptationRate : Q;
  autonomyLevel : Q;
  coherence : Q;
  arch_resilience : Q;
  lastEvolution : Z;
  evolutionCount : nat
}.

Inductive EvolutionType : Type :=
  optimization | synergy_improvement | coherence_improvement.

(** The plan built by [planArchitecturalEvolution]. *)
Record Evolution : Type := {
  shouldEvolve : bool;
  evolution_type : EvolutionType;
  changes : list string;
  expectedImprovement : Q
}.

Inductive Event : Type :=
| component_health (componentId : string) (health : Q)
                   (st : ComponentState) (m : ComponentMetrics)
| performance_anomaly (anomalies : list string) (timestamp : Z)
| architecture_evolution (evolution : Evolution) (newState : ArchitecturalState)
| emergent_behavior_detected (behavior : EmergentBehavior) (timestamp : Z)
| emergent_behavior_removed (behaviorId : string)
| pattern_promoted (pattern : ArchitecturalPattern)
                   (originalBehavior : EmergentBehavior)
| autogenesis_change (enabled : bool)
| component_added (component : SynergyComponent)
| component_removed (componentId : string).

Record State : Type := {
  components : jsmap SynergyComponent;
  patterns : jsmap ArchitecturalPattern;
  emergentBehaviors : jsmap EmergentBehavior;
  autonomousAgents : jsmap AutonomousAgent;
  architecturalState : ArchitecturalState;
  autogenesisEnabled : bool;
  synergyThreshold : Q;
  events : list Event
}.

Definition set_components (c : jsmap SynergyComponent) (s : State) : State :=
  {| components := c;
     patterns := patterns s;
     emergentBehaviors := emergentBehaviors s;
     autonomousAgents := autonomousAgents s;
     architecturalState := architecturalState s;
     autogenesisEnabled := autogenesisEnabled s;
     synergyThreshold := synergyThreshold s;
     events := events s |}.

Definition set_patterns (p : jsmap ArchitecturalPattern) (s : State) : State :=
  {| components := components s;
     patterns := p;
     emergentBehaviors := emergentBehaviors s;
     autonomousAgents := autonomousAgents s;
     architecturalState := architecturalState s;
     autogenesisEnabled := autogenesisEnabled s;
     synergyThreshold := synergyThreshold s;
     events := events s |}.

Definition set_emergentBehaviors (b : jsmap EmergentBehavior) (s : State)
  : State :=
  {| components := components s;
     patterns := patterns s;
     emergentBehaviors := b;
     autonomousAgents := autonomousAgents s;
     architecturalState := architecturalState s;
     autogenesisEnabled := autogenesisEnabled s;
     synergyThreshold := synergyThreshold s;
     events := events s |}.

Definition set_architecturalState (a : ArchitecturalState) (s : State)
  : State :=
  {| components := components s;
     patterns := patterns s;
     emergentBehaviors := emergentBehaviors s;
     autonomousAgents := autonomousAgents s;
     architecturalState := a;
     autogenesisEnabled := autogenesisEnabled s;
     synergyThreshold := synergyThreshold s;
     events := events s |}.

Definition emit (e : Event) (s : State) : State :=
  {| components := components s;
     patterns := patterns s;
     emergentBehaviors := emergentBehaviors s;
     autonomousAgents := autonomousAgents s;
     architecturalState := architecturalState s;
     autogenesisEnabled := autogenesisEnabled s;
     synergyThreshold := synergyThreshold s;
     events := events s ++ [e] |}.

Definition set_state (st : ComponentState) (c : SynergyComponent)
  : SynergyComponent :=
  {| id := id c; name := name c; type := type c;
     capabilities := capabilities c; connections := connections c;
     state := st; metrics := metrics c |}.

Definition set_metrics (m : ComponentMetrics) (c : SynergyComponent)
  : SynergyComponent :=
  {| id := id c; name := name c; type := type c;
     capabilities := capabilities c; connections := connections c;
     state := state c; metrics := m |}.

Definition set_connections (l : list SynergyConnection) (c : SynergyComponent)
  : SynergyComponent :=
  {| id := id c; name := name c; type := type c;
     capabilities := capabilities c; connections := l;
     state := state c; metrics := metrics c |}.

(** [map.forEach(v => ...)] where the body only mutates the value [v]. *)
Definition forEach_value {V : Type} (f : V -> V) (m : jsmap V) : jsmap V :=
  map (fun kv : string * V => (fst kv, f (snd kv))) m.

(** *** The seed *)

Definition mkConnection (t : string) (k : ConnectionType) (s b l r : Q)
  : SynergyConnection :=
  {| targetId := t; connectionType := k; strength := s; bandwidth := b;
     latency := l; reliability := r |}.

Definition mkComponent (i n : string) (t : ComponentType) (caps : list string)
  (ld ef ar : Q) (now : Z) (tp rt ac ru sc ep : Q) : SynergyComponent :=
  {| id := i; name := n; type := t; capabilities := caps;
     connections := [];
     state := {| active := true; load := ld; efficiency := ef;
                 adaptationRate := ar; lastUpdate := now; errorCount := 0 |};
     metrics := {| throughput := tp; responseTime := rt; accuracy := ac;
                   resourceUsage := ru; synergyContribution := sc;
                   emergentProperties := ep |} |}.

Definition cognitiveProcessor (now : Z) : SynergyComponent :=
  mkComponent "cognitive_processor" "Cognitive Processing Engine" cognitive
    ["reasoning"; "inference"; "pattern_matching"; "decision_making"]
    0.3 0.85 0.1 now 100 50 0.9 0.4 0.8 0.6.

Definition behavioralAdapter (now : Z) : SynergyComponent :=
  mkComponent "behavioral_adapter" "Behavioral Adaptation Engine" behavioral
    ["behavior_modeling"; "adaptation"; "learning"; "optimization"]
    0.25 0.88 0.15 now 80 75 0.85 0.35 0.75 0.7.

Definition adaptiveLearner (now : Z) : SynergyComponent :=
  mkComponent "adaptive_learner" "Adaptive Learning System" adaptive
    ["machine_learning"; "pattern_discovery"; "knowledge_extraction";
     "generalization"]
    0.4 0.82 0.2 now 120 60 0.88 0.45 0.85 0.8.

Definition emergentIntelligence (now : Z) : SynergyComponent :=
  mkComponent "emergent_intelligence" "Emergent Intelligence Controller"
    emergent
    ["emergence_detection"; "complexity_management"; "self_organization";
     "innovation"]
    0.2 0.9 0.25 now 60 100 0.92 0.3 0.95 0.95.

Definition cognitiveConnections : list SynergyConnection :=
  [ mkConnection "behavioral_adapter" data_flow 0.8 1000 10 0.95;
    mkConnection "adaptive_learner" control_flow 0.7 800 15 0.9;
    mkConnection "emergent_intelligence" feedback 0.9 600 20 0.98 ].

Definition behavioralConnections : list SynergyConnection :=
  [ mkConnection "cognitive_processor" feedback 0.75 900 12 0.92;
    mkConnection "adaptive_learner" reinforcement 0.85 1200 8 0.94 ].

Definition learnerConnections : list SynergyConnection :=
  [ mkConnection "cognitive_processor" data_flow 0.9 1500 5 0.96;
    mkConnection "emergent_intelligence" data_flow 0.8 700 18 0.93 ].

Definition emergentConnections : list SynergyConnection :=
  [ mkConnection "cognitive_processor" control_flow 0.95 500 25 0.99;
    mkConnection "behavioral_adapter" control_flow 0.85 600 22 0.97 ].

(** [if (c) c.connections = l] for [c = components.get(k)]. *)
Definition connect (k : string) (l : list SynergyConnection)
  (m : jsmap SynergyComponent) : jsmap SynergyComponent :=
  match map_get k m with
  | Some c => map_set k (set_connections l c) m
  | None => m
  end.

Definition establishComponentConnections (m : jsmap SynergyComponent)
  : jsmap SynergyComponent :=
  connect "emergent_intelligence" emergentConnections
    (connect "adaptive_learner" learnerConnections
       (connect "behavioral_adapter" behavioralConnections
          (connect "cognitive_processor" cognitiveConnections m))).

Definition initializeCoreComponents (now : Z) : jsmap SynergyComponent :=
  establishComponentConnections
    (map_set (id (emergentIntelligence now)) (emergentIntelligence now)
       (map_set (id (adaptiveLearner now)) (adaptiveLearner now)
          (map_set (id (behavioralAdapter now)) (behavioralAdapter now)
             (map_set (id (cognitiveProcessor now)) (cognitiveProcessor now)
                [])))).

Definition mkPattern (i n d : string) (cs : jsmap SynergyComponent)
  (t : Topology) (sc re ad : Q) : ArchitecturalPattern :=
  {| pattern_id := i; pattern_name := n; pattern_description := d;
     pattern_components := map_keys cs; topology := t;
     scalability := sc; resilience := re; adaptability := ad |}.

Definition initializeArchitecturalPatterns (cs : jsmap SynergyComponent)
  : jsmap ArchitecturalPattern :=
  let hierarchicalPattern :=
    mkPattern "hierarchical_cognitive" "Hierarchical Cognitive Architecture"
      "Multi-level cognitive processing with hierarchical control"
      cs hierarchical 0.8 0.7 0.75 in
  let networkedPattern :=
    mkPattern "networked_synergy" "Networked Synergy Architecture"
      "Highly interconnected cognitive components for maximum synergy"
      cs networked 0.9 0.85 0.9 in
  let distributedPattern :=
    mkPattern "distributed_intelligence" "Distributed Intelligence Architecture"
      "Distributed cognitive processing for scalability and resilience"
      cs distributed 0.95 0.9 0.8 in
  let emergentPattern :=
    mkPattern "emergent_behavior" "Emergent Behavior Architecture"
      "Self-organizing architecture that enables emergent intelligence"
      cs emergent_topology 0.85 0.95 0.95 in
  map_set (pattern_id emergentPattern) emergentPattern
    (map_set (pattern_id distributedPattern) distributedPattern
       (map_set (pattern_id networkedPattern) networkedPattern
          (map_set (pattern_id hierarchicalPattern) hierarchicalPattern []))).

Definition orchestratorAgent : AutonomousAgent :=
  {| agent_id := "orchestrator_agent";
     agent_name := "Architecture Orchestrator";
     role := orchestrator;
     agent_capabilities :=
       ["coordination"; "resource_allocation"; "task_scheduling";
        "conflict_resolution"];
     goals := ["optimize_performance"; "maintain_coherence"; "ensure_resilience"];
     agent_state :=
       {| agent_active := true;
          currentGoal := "optimize_performance";
          progress := 0.6;
          resources := [("cpu", 0.3); ("memory", 0.25); ("bandwidth", 0.4)];
          knowledge :=
            [("component_status", KString "good");
             ("synergy_level", KNumber 0.75);
             ("adaptation_needs", KString "minimal")];
          experience := 0.7 |};
     performance :=
       {| taskCompletion := 0.85; goalAchievement := 0.8;
          resourceEfficiency := 0.9; agent_learningRate := 0.15;
          adaptationSpeed := 0.8; collaborationScore := 0.85 |} |}.

Definition analyzerAgent : AutonomousAgent :=
  {| agent_id := "analyzer_agent";
     agent_name := "Performance Analyzer";
     role := analyzer;
     agent_capabilities :=
       ["performance_monitoring"; "bottleneck_detection"; "trend_analysis";
        "prediction"];
     goals := ["identify_issues"; "predict_problems"; "optimize_metrics"];
     agent_state :=
       {| agent_active := true;
          currentGoal := "identify_issues";
          progress := 0.8;
          resources := [("cpu", 0.2); ("memory", 0.3); ("storage", 0.15)];
          knowledge :=
            [("performance_history", KArray []);
             ("anomaly_patterns", KArray []);
             ("optimization_opportunities", KArray [])];
          experience := 0.65 |};
     performance :=
       {| taskCompletion := 0.9; goalAchievement := 0.85;
          resourceEfficiency := 0.85; agent_learningRate := 0.2;
          adaptationSpeed := 0.7; collaborationScore := 0.8 |} |}.

Definition learnerAgent : AutonomousAgent :=
  {| agent_id := "learner_agent";
     agent_name := "Continuous Learner";
     role := learner;
     agent_capabilities :=
       ["pattern_learning"; "knowledge_extraction"; "model_updating";
        "generalization"];
     goals := ["improve_accuracy"; "discover_patterns"; "update_models"];
     agent_state :=
       {| agent_active := true;
          currentGoal := "improve_accuracy";
          progress := 0.7;
          resources := [("cpu", 0.4); ("memory", 0.5); ("storage", 0.3)];
          knowledge :=
            [("learned_patterns", KArray []);
             ("model_updates", KArray []);
             ("accuracy_metrics", KArray [])];
          experience := 0.8 |};
     performance :=
       {| taskCompletion := 0.88; goalAchievement := 0.82;
          resourceEfficiency := 0.75; agent_learningRate := 0.25;
          adaptationSpeed := 0.85; collaborationScore := 0.9 |} |}.

Definition initializeAutonomousAgents : jsmap AutonomousAgent :=
  map_set (agent_id learnerAgent) learnerAgent
    (map_set (agent_id analyzerAgent) analyzerAgent
       (map_set (agent_id orchestratorAgent) orchestratorAgent [])).

(** The initialiser of the field [architecturalState]. *)
Definition initialArchitecturalState (now : Z) : ArchitecturalState :=
  {| totalComponents := 0;
     activeComponents := 0;
     emergentBehaviorCount := 0;
     synergyLevel := 0.5;
     arch_adaptationRate := 0.1;
     autonomyLevel := 0.8;
     coherence := 0.75;
     arch_resilience := 0.6;
     lastEvolution := now;
     evolutionCount := 0 |}.

(** The constructor: the field initialisers, then [initializeArchitecture]
    (the four timers it starts are the cycles below). *)
Definition new (now : Z) : State :=
  let cs := initializeCoreComponents now in
  {| components := cs;
     patterns := initializeArchitecturalPatterns cs;
     emergentBehaviors := [];
     autonomousAgents := initializeAutonomousAgents;
     architecturalState := initialArchitecturalState now;
     autogenesisEnabled := true;
     synergyThreshold := 0.7;
     events := [] |}.

(** *** The monitoring cycle (every 5 seconds) *)

(** What the visit of one component reads: the draws of [Math.random()] for
    the load, the efficiency and the emergent properties, and the clock. *)
Record Draw : Type := {
  loadDraw : Q;
  efficiencyDraw : Q;
  emergentDraw : Q;
  clock : Z
}.

Definition updateComponentMetrics (emergentDraw : Q) (c : SynergyComponent)
  : SynergyComponent :=
  let efficiency := efficiency (state c) in
  let load := load (state c) in
  set_metrics
    {| throughput := efficiency * (1 - load * 0.5) * 150;
       responseTime := 50 + load * 100;
       accuracy := Qmax 0.7 (efficiency * 0.95);
       resourceUsage := load * 0.8;
       synergyContribution := efficiency * 0.9;
       emergentProperties := efficiency * 0.8 + emergentDraw * 0.2 |} c.

Definition calculateComponentHealth (c : SynergyComponent) : Q :=
  let efficiency := efficiency (state c) in
  let loadFactor := 1 - Qmax 0 (load (state c) - 0.7) in
  let errorFactor := Qmax 0 (1 - inject_Z (errorCount (state c)) * 0.1) in
  (efficiency + loadFactor + errorFactor) / 3.

(** The body of the [forEach] of [monitorComponentHealth], on the component
    at key [k]. *)
Definition monitorComponent (d : Draw) (c : SynergyComponent)
  : SynergyComponent :=
  let st := state c in
  updateComponentMetrics (emergentDraw d)
    (set_state
       {| active := active st;
          load := Qmax 0 (Qmin 1 (load st + (loadDraw d - 0.5) * 0.1));
          efficiency :=
            Qmax 0.5
              (Qmin 1 (efficiency st + (efficiencyDraw d - 0.5) * 0.05));
          adaptationRate := adaptationRate st;
          lastUpdate := clock d;
          errorCount := errorCount st |} c).

Definition monitorStep (draws : string -> Draw) (s : State)
  (kv : string * SynergyComponent) : State :=
  let c := monitorComponent (draws (fst kv)) (snd kv) in
  emit (component_health (fst kv) (calculateComponentHealth c)
          (state c) (metrics c))
    (set_components (map_set (fst kv) c (components s)) s).

Definition monitorComponentHealth (draws : string -> Draw) (s : State)
  : State :=
  fold_left (monitorStep draws) (components s) s.

(** [list.reduce((sum, x) => sum + f(x), 0)]. *)
Definition sumOf {A : Type} (f : A -> Q) (l : list A) : Q :=
  fold_left (fun (sum : Q) (x : A) => sum + f x) l 0.

(** The quotients are by the size of the registry; the source yields [NaN]
    on an empty registry, which a rational does not represent (a quotient by
    zero is [0] in [Q]): what is stated of the architectural state after a
    monitoring cycle is stated for a registry that is not empty. *)
Definition updateArchitecturalState (s : State) : State :=
  let cs := map_values (components s) in
  let size := Qnat (List.length (components s)) in
  let avgSynergyContribution :=
    sumOf (fun c => synergyContribution (metrics c)) cs / size in
  let avgEfficiency := sumOf (fun c => efficiency (state c)) cs / size in
  let healthScores := map calculateComponentHealth cs in
  let avgHealth :=
    sumOf (fun h => h) healthScores / Qnat (List.length healthScores) in
  let healthVariance :=
    sumOf (fun h => (h - avgHealth) * (h - avgHealth)) healthScores
    / Qnat (List.length healthScores) in
  let a := architecturalState s in
  set_architecturalState
    {| totalComponents := List.length (components s);
       activeComponents :=
         List.length (filter (fun c => active (state c)) cs);
       emergentBehaviorCount := List.length (emergentBehaviors s);
       synergyLevel := avgSynergyContribution;
       arch_adaptationRate := arch_adaptationRate a;
       autonomyLevel := autonomyLevel a;
       coherence := avgEfficiency;
       arch_resilience := Qmax 0 (1 - healthVariance);
       lastEvolution := lastEvolution a;
       evolutionCount := evolutionCount a |} s.

Definition anomaliesOf (kv : string * SynergyComponent) : list string :=
  let st := state (snd kv) in
  (if Qgtb (load st) 0.9
   then [("High load detected in " ++ fst kv ++ ": "
          ++ toFixed1 (load st * 100) ++ "%")%string]
   else [])
  ++ (if Qltb (efficiency st) 0.6
      then [("Low efficiency detected in " ++ fst kv ++ ": "
             ++ toFixed1 (efficiency st * 100) ++ "%")%string]
      else [])
  ++ (if (5 <? errorCount st)%Z
      then [("High error count detected in " ++ fst kv ++ ": "
             ++ Z_to_string (errorCount st) ++ " errors")%string]
      else []).

Definition detectPerformanceAnomalies (now : Z) (s : State) : State :=
  let anomalies := flat_map anomaliesOf (components s) in
  if (0 <? List.length anomalies)%nat
  then emit (performance_anomaly anomalies now) s
  else s.

Definition monitoringCycle (draws : string -> Draw) (now : Z) (s : State)
  : State :=
  detectPerformanceAnomalies now
    (updateArchitecturalState (monitorComponentHealth draws s)).

(** *** The evolution cycle (every 30 seconds) *)

Definition planArchitecturalEvolution (s : State) : Evolution :=
  let currentSynergy := synergyLevel (architecturalState s) in
  let currentCoherence := coherence (architecturalState s) in
  let evolution :=
    {| shouldEvolve := false;
       evolution_type := optimization;
       changes := [];
       expectedImprovement := 0 |} in
  let evolution :=
    if Qltb currentSynergy (synergyThreshold s) then
      {| shouldEvolve := true;
         evolution_type := synergy_improvement;
         changes :=
           changes evolution
           ++ ["Strengthen component connections";
               "Optimize information flow"];
         expectedImprovement := 0.1 |}
    else evolution in
  if Qltb currentCoherence 0.7 then
    {| shouldEvolve := true;
       evolution_type := coherence_improvement;
       changes :=
         changes evolution
         ++ ["Realign component goals"; "Improve coordination mechanisms"];
       expectedImprovement := expectedImprovement evolution + 0.15 |}
  else evolution.

(** The body of the inner [forEach] of [improveSynergy]. *)
Definition strengthen (connection : SynergyConnection) : SynergyConnection :=
  if Qgtb (reliability connection) 0.9 then
    {| targetId := targetId connection;
       connectionType := connectionType connection;
       strength := Qmin 1.0 (strength connection + 0.05);
       bandwidth := Qmin 2000 (bandwidth connection * 1.1);
       latency := latency connection;
       reliability := reliability connection |}
  else connection.

Definition improveSynergy (s : State) : State :=
  set_components
    (forEach_value
       (fun component =>
          set_connections (map strengthen (connections component)) component)
       (components s)) s.

(** The body of the [forEach] of [improveCoherence]. *)
Definition realign (component : SynergyComponent) : SynergyComponent :=
  let st := state component in
  set_state
    {| active := active st;
       load := load st;
       efficiency := Qmin 1.0 (efficiency st + 0.02);
       adaptationRate := Qmax 0.05 (adaptationRate st - 0.01);
       lastUpdate := lastUpdate st;
       errorCount := errorCount st |} component.

Definition improveCoherence (s : State) : State :=
  set_components (forEach_value realign (components s)) s.

Definition set_load (v : Q) (component : SynergyComponent) : SynergyComponent :=
  let st := state component in
  set_state
    {| active := active st;
       load := v;
       efficiency := efficiency st;
       adaptationRate := adaptationRate st;
       lastUpdate := lastUpdate st;
       errorCount := errorCount st |} component.

(** The body of the [forEach] of [optimizeArchitecture]. *)
Definition rebalance (avgLoad : Q) (component : SynergyComponent)
  : SynergyComponent :=
  if Qgtb (load (state component)) (avgLoad * 1.2)
  then set_load (Qmax 0.1 (load (state component) - 0.1)) component
  else component.

Definition optimizeArchitecture (s : State) : State :=
  let avgLoad :=
    sumOf (fun c => load (state c)) (map_values (components s))
    / Qnat (List.length (components s)) in
  set_components (forEach_value (rebalance avgLoad) (components s)) s.

Definition applyArchitecturalEvolution (evolution : Evolution) (s : State)
  : State :=
  match evolution_type evolution with
  | synergy_improvement => improveSynergy s
  | coherence_improvement => improveCoherence s
  | optimization => optimizeArchitecture s
  end.

Definition evolveArchitecture (now : Z) (s : State) : State :=
  if negb (autogenesisEnabled s) then s
  else
    let evolution := planArchitecturalEvolution s in
    if shouldEvolve evolution then
      let s1 := applyArchitecturalEvolution evolution s in
      let a := architecturalState s1 in
      let s2 :=
        set_architecturalState
          {| totalComponents := totalComponents a;
             activeComponents := activeComponents a;
             emergentBehaviorCount := emergentBehaviorCount a;
             synergyLevel := synergyLevel a;
             arch_adaptationRate := arch_adaptationRate a;
             autonomyLevel := autonomyLevel a;
             coherence := coherence a;
             arch_resilience := arch_resilience a;
             lastEvolution := now;
             evolutionCount := S (evolutionCount a) |} s1 in
      emit (architecture_evolution evolution (architecturalState s2)) s2
    else s.

(** The body of the inner [forEach] of [optimizeConnections]. *)
Definition tune (connection : SynergyConnection) : SynergyConnection :=
  {| targetId := targetId connection;
     connectionType := connectionType connection;
     strength := strength connection;
     bandwidth :=
       if Qgtb (reliability connection) 0.95
       then Qmin 2000 (bandwidth connection * 1.02)
       else if Qltb (reliability connection) 0.8
            then Qmax 100 (bandwidth connection * 0.98)
            else bandwidth connection;
     latency := Qmax 1 (latency connection - 0.5);
     reliability := reliability connection |}.

Definition optimizeConnections (s : State) : State :=
  set_components
    (forEach_value
       (fun component =>
          set_connections (map tune (connections component)) component)
       (components s)) s.

Definition set_adaptationRate (v : Q) (component : SynergyComponent)
  : SynergyComponent :=
  let st := state component in
  set_state
    {| active := active st;
       load := load st;
       efficiency := efficiency st;
       adaptationRate := v;
       lastUpdate := lastUpdate st;
       errorCount := errorCount st |} component.

(** The body of the [forEach] of [adaptComponentBehavior]. *)
Definition adapt (component : SynergyComponent) : SynergyComponent :=
  let health := calculateComponentHealth component in
  if Qgtb health 0.8 then
    set_adaptationRate
      (Qmin 0.3 (adaptationRate (state component) + 0.01)) component
  else if Qltb health 0.6 then
    set_adaptationRate
      (Qmax 0.05 (adaptationRate (state component) - 0.01)) component
  else component.

Definition adaptComponentBehavior (s : State) : State :=
  set_components (forEach_value adapt (components s)) s.

(** The callback of the evolution timer. *)
Definition evolutionCycle (now : Z) (s : State) : State :=
  adaptComponentBehavior (optimizeConnections (evolveArchitecture now s)).

(** *** Emergent behaviors *)

Definition registerEmergentBehavior (now : Z) (behavior : EmergentBehavior)
  (s : State) : State :=
  emit (emergent_behavior_detected behavior now)
    (set_emergentBehaviors
       (map_set (behavior_id behavior) behavior (emergentBehaviors s)) s).

Definition calculateEmergentUtility (behavior : EmergentBehavior) (s : State)
  : Q :=
  let utility := behavior_strength behavior * 0.3 in
  let utility := utility + stability behavior * 0.3 in
  let utility := utility + novelty behavior * 0.2 in
  let utility := utility + synergyLevel (architecturalState s) * 0.2 in
  Qmax 0 (Qmin 1 utility).

Definition set_utility (v : Q) (b : EmergentBehavior) : EmergentBehavior :=
  {| behavior_id := behavior_id b;
     behavior_name := behavior_name b;
     behavior_description := behavior_description b;
     manifestation := manifestation b;
     behavior_strength := behavior_strength b;
     stability := stability b;
     novelty := novelty b;
     utility := v;
     behavior_components := behavior_components b;
     triggers := triggers b |}.

(** The visit of the entry at key [k] by the [forEach] of
    [evaluateEmergentUtility]: an entry deleted earlier in the same pass is
    not visited; the utility is stored in the behavior, and the deletion is
    by the id of the behavior. *)
Definition evaluateEntry (s : State) (k : string) : State :=
  match map_get k (emergentBehaviors s) with
  | None => s
  | Some behavior =>
      let utilityScore := calculateEmergentUtility behavior s in
      let behavior := set_utility utilityScore behavior in
      let s1 :=
        set_emergentBehaviors
          (map_set k behavior (emergentBehaviors s)) s in
      if Qltb utilityScore 0.3 then
        emit (emergent_behavior_removed (behavior_id behavior))
          (set_emergentBehaviors
             (map_delete (behavior_id behavior) (emergentBehaviors s1)) s1)
      else s1
  end.

Definition evaluateEmergentUtility (s : State) : State :=
  fold_left evaluateEntry (map_keys (emergentBehaviors s)) s.

Definition promoteToArchitecturalPattern (behavior : EmergentBehavior)
  (s : State) : State :=
  let pattern :=
    {| pattern_id := ("pattern_" ++ behavior_id behavior)%string;
       pattern_name := ("Pattern: " ++ behavior_name behavior)%string;
       pattern_description :=
         ("Promoted from emergent behavior: "
          ++ behavior_description behavior)%string;
       pattern_components :=
         filter (fun i => map_has i (components s))
           (behavior_components behavior);
       topology := emergent_topology;
       scalability := utility behavior;
       resilience := stability behavior;
       adaptability := novelty behavior |} in
  emit (pattern_promoted pattern behavior)
    (set_patterns (map_set (pattern_id pattern) pattern (patterns s)) s).

Definition stabilizeEmergentPatterns (s : State) : State :=
  fold_left
    (fun (s : State) (behavior : EmergentBehavior) =>
       if Qgtb (utility behavior) 0.7 && Qgtb (stability behavior) 0.8
       then promoteToArchitecturalPattern behavior s
       else s)
    (map_values (emergentBehaviors s)) s.

(** What the analysis of one pair of components reads: the draw of
    [Math.random()] for the novelty, and the clock and the random suffix of
    the id of the behavior. *)
Record EmergenceDraw : Type := {
  noveltyDraw : Q;
  idClock : Z;
  idSuffix : string
}.

Record Interaction : Type := {
  interaction_type : string;
  interaction_components : list string;
  complexity : Q;
  interaction_stability : Q;
  interaction_novelty : Q;
  interaction_utility : Q;
  interaction_manifestation : string;
  interaction_triggers : list string
}.

Definition typeName (t : ComponentType) : string :=
  match t with
  | cognitive => "cognitive"
  | behavioral => "behavioral"
  | adaptive => "adaptive"
  | emergent => "emergent"
  end.

(** The pairs [(l[i], l[j])] with [i < j], in the order of the two loops. *)
Fixpoint pairs {A : Type} (l : list A) : list (A * A) :=
  match l with
  | [] => []
  | x :: l' => map (pair x) l' ++ pairs l'
  end.

Definition interactionOf (d : EmergenceDraw) (comp1 comp2 : SynergyComponent)
  : Interaction :=
  {| interaction_type := (typeName (type comp1) ++ "-" ++ typeName (type comp2))%string;
     interaction_components := [id comp1; id comp2];
     complexity :=
       (emergentProperties (metrics comp1)
        + emergentProperties (metrics comp2)) / 2;
     interaction_stability :=
       Qmin (efficiency (state comp1)) (efficiency (state comp2));
     interaction_novelty := noveltyDraw d * 0.8 + 0.2;
     interaction_utility :=
       (synergyContribution (metrics comp1)
        + synergyContribution (metrics comp2)) / 2;
     interaction_manifestation :=
       ("Synergistic interaction between " ++ name comp1 ++ " and "
        ++ name comp2)%string;
     interaction_triggers :=
       ["component_activation"; "data_exchange"; "feedback_loop"] |}.

(** [draws n] is what the analysis of the [n]-th pair reads. *)
Definition analyzeComponentInteractions (draws : nat -> EmergenceDraw)
  (s : State) : list Interaction :=
  let ps := pairs (map_values (components s)) in
  map (fun np : nat * (SynergyComponent * SynergyComponent) =>
         interactionOf (draws (fst np)) (fst (snd np)) (snd (snd np)))
    (combine (seq 0 (List.length ps)) ps).

Definition analyzePotentialEmergence (draws : nat -> EmergenceDraw) (s : State)
  : list EmergentBehavior :=
  let interactions := analyzeComponentInteractions draws s in
  flat_map
    (fun ni : nat * Interaction =>
       let interaction := snd ni in
       if Qgtb (complexity interaction) 0.8
          && Qgtb (interaction_stability interaction) 0.7
       then
         [ {| behavior_id :=
                ("emergence_" ++ Z_to_string (idClock (draws (fst ni))) ++ "_"
                 ++ idSuffix (draws (fst ni)))%string;
              behavior_name :=
                ("Emergent Behavior: " ++ interaction_type interaction)%string;
              behavior_description :=
                ("Emergent behavior arising from interaction between "
                 ++ String.concat ", " (interaction_components interaction))%string;
              manifestation := interaction_manifestation interaction;
              behavior_strength := complexity interaction;
              stability := interaction_stability interaction;
              novelty := interaction_novelty interaction;
              utility := interaction_utility interaction;
              behavior_components := interaction_components interaction;
              triggers := interaction_triggers interaction |} ]
       else [])
    (combine (seq 0 (List.length interactions)) interactions).

Definition detectEmergentBehaviors (draws : nat -> EmergenceDraw) (now : Z)
  (s : State) : State :=
  fold_left
    (fun (s : State) (emergence : EmergentBehavior) =>
       if Qgtb (behavior_strength emergence) 0.7
          && Qgtb (novelty emergence) 0.6
       then registerEmergentBehavior now emergence s
       else s)
    (analyzePotentialEmergence draws s) s.

(** The callback of the emergence timer (every minute). *)
Definition emergenceCycle (draws : nat -> EmergenceDraw) (now : Z) (s : State)
  : State :=
  stabilizeEmergentPatterns
    (evaluateEmergentUtility (detectEmergentBehaviors draws now s)).

(** *** The public methods *)

Definition setAutogenesisEnabled (enabled : bool) (s : State) : State :=
  emit (autogenesis_change enabled)
    {| components := components s;
       patterns := patterns s;
       emergentBehaviors := emergentBehaviors s;
       autonomousAgents := autonomousAgents s;
       architecturalState := architecturalState s;
       autogenesisEnabled := enabled;
       synergyThreshold := synergyThreshold s;
       events := events s |}.

Definition setSynergyThreshold (threshold : Q) (s : State) : State :=
  {| components := components s;
     patterns := patterns s;
     emergentBehaviors := emergentBehaviors s;
     autonomousAgents := autonomousAgents s;
     architecturalState := architecturalState s;
     autogenesisEnabled := autogenesisEnabled s;
     synergyThreshold := Qmax 0 (Qmin 1 threshold);
     events := events s |}.

Definition addComponent (component : SynergyComponent) (s : State) : State :=
  emit (component_added component)
    (set_components (map_set (id component) component (components s)) s).

Definition removeComponent (componentId : string) (s : State) : State :=
  emit (component_removed componentId)
    (set_components (map_delete componentId (components s)) s).

Record ArchitecturalStatistics : Type := {
  stat_totalComponents : nat;
  stat_activeComponents : nat;
  stat_totalPatterns : nat;
  stat_emergentBehaviors : nat;
  stat_autonomousAgents : nat;
  stat_synergyLevel : Q;
  stat_coherence : Q;
  stat_resilience : Q;
  stat_autonomyLevel : Q;
  stat_evolutionCount : nat;
  stat_lastEvolution : Z
}.

Definition getArchitecturalStatistics (s : State) : ArchitecturalStatistics :=
  {| stat_totalComponents := List.length (components s);
     stat_activeComponents := activeComponents (architecturalState s);
     stat_totalPatterns := List.length (patterns s);
     stat_emergentBehaviors := List.length (emergentBehaviors s);
     stat_autonomousAgents := List.length (autonomousAgents s);
     stat_synergyLevel := synergyLevel (architecturalState s);
     stat_coherence := coherence (architecturalState s);
     stat_resilience := arch_resilience (architecturalState s);
     stat_autonomyLevel := autonomyLevel (architecturalState s);
     stat_evolutionCount := evolutionCount (architecturalState s);
     stat_lastEvolution := lastEvolution (architecturalState s) |}.

(** *** The agent cycle (every 10 seconds)

    [executeAutonomousAgents] and [coordinateAgentActivities]; the events
    that they emit are returned beside the state, oldest first. *)

(** The payload of [agent_goal_completed]; [None] is [undefined]. *)
Inductive AgentEvent : Type :=
| agent_goal_completed (agentId : string) (completedGoal : option string)
                       (newGoal : option string).

Definition set_autonomousAgents (a : jsmap AutonomousAgent) (s : State)
  : State :=
  {| components := components s;
     patterns := patterns s;
     emergentBehaviors := emergentBehaviors s;
     autonomousAgents := a;
     architecturalState := architecturalState s;
     autogenesisEnabled := autogenesisEnabled s;
     synergyThreshold := synergyThreshold s;
     events := events s |}.

Definition set_agent_state (st : AgentState) (a : AutonomousAgent)
  : AutonomousAgent :=
  {| agent_id := agent_id a; agent_name := agent_name a; role := role a;
     agent_capabilities := agent_capabilities a; goals := goals a;
     agent_state := st; performance := performance a |}.

(** [agent.state.progress = Math.min(1.0, agent.state.progress + delta)]. *)
Definition advance (delta : Q) (a : AutonomousAgent) : AutonomousAgent :=
  let st := agent_state a in
  set_agent_state
    {| agent_active := agent_active st;
       currentGoal := currentGoal st;
       progress := Qmin 1.0 (progress st + delta);
       resources := resources st;
       knowledge := knowledge st;
       experience := experience st |} a.

(** [agent.state.knowledge.set(key, value)]. *)
Definition note (key : string) (value : KValue) (a : AutonomousAgent)
  : AutonomousAgent :=
  let st := agent_state a in
  set_agent_state
    {| agent_active := agent_active st;
       currentGoal := currentGoal st;
       progress := progress st;
       resources := resources st;
       knowledge := map_set key value (knowledge st);
       experience := experience st |} a.

(** The helpers [optimizeSystemPerformance], [maintainSystemCoherence],
    [ensureSystemResilience] and [improveSystemAccuracy] have empty bodies;
    [identifySystemIssues], [predictSystemProblems] and [discoverNewPatterns]
    return the empty array. *)
Definition executeOrchestratorGoals (agent : AutonomousAgent)
  : AutonomousAgent :=
  let g := currentGoal (agent_state agent) in
  if String.eqb g "optimize_performance" then advance 0.1 agent
  else if String.eqb g "maintain_coherence" then advance 0.08 agent
  else if String.eqb g "ensure_resilience" then advance 0.12 agent
  else agent.

Definition executeAnalyzerGoals (agent : AutonomousAgent) : AutonomousAgent :=
  let g := currentGoal (agent_state agent) in
  if String.eqb g "identify_issues"
  then advance 0.15 (note "identified_issues" (KArray []) agent)
  else if String.eqb g "predict_problems"
  then advance 0.1 (note "predictions" (KArray []) agent)
  else agent.

Definition executeLearnerGoals (agent : AutonomousAgent) : AutonomousAgent :=
  let g := currentGoal (agent_state agent) in
  if String.eqb g "improve_accuracy" then advance 0.08 agent
  else if String.eqb g "discover_patterns"
  then advance 0.12 (note "discovered_patterns" (KArray []) agent)
  else agent.

Definition executeAgentGoals (agent : AutonomousAgent) : AutonomousAgent :=
  match role agent with
  | orchestrator => executeOrchestratorGoals agent
  | analyzer => executeAnalyzerGoals agent
  | learner => executeLearnerGoals agent
  | _ => agent
  end.

(** [array.indexOf(x)]; [None] is [-1]. *)
Fixpoint indexOf (x : string) (l : list string) : option nat :=
  match l with
  | [] => None
  | y :: l' =>
      if String.eqb x y then Some 0%nat
      else match indexOf x l' with
           | Some i => Some (S i)
           | None => None
           end
  end.

(** [(currentIndex + 1) % goals.length]; on an empty list the source has
    [NaN], and the read at that index is [undefined] as it is here. *)
Definition nextIndex (currentGoal : string) (goals : list string) : nat :=
  match indexOf currentGoal goals with
  | Some i => (S i) mod (List.length goals)
  | None => 0%nat
  end.

(** The goal [undefined], which an empty goal list yields, is stored as the
    string ["undefined"]. *)
Definition updateAgentProgress (agent : AutonomousAgent)
  : AutonomousAgent * list AgentEvent :=
  let st := agent_state agent in
  if Qle_bool 1.0 (progress st) then
    let completed :=
      match indexOf (currentGoal st) (goals agent) with
      | Some i => nth_error (goals agent) i
      | None => None
      end in
    let next := nth_error (goals agent) (nextIndex (currentGoal st) (goals agent)) in
    (set_agent_state
       {| agent_active := agent_active st;
          currentGoal := match next with Some g => g | None => "undefined" end;
          progress := 0;
          resources := resources st;
          knowledge := knowledge st;
          experience := experience st |} agent,
     [agent_goal_completed (agent_id agent) completed next])
  else (agent, []).

Definition evaluateAgentPerformance (agent : AutonomousAgent)
  : AutonomousAgent :=
  let st := agent_state agent in
  let p := performance agent in
  {| agent_id := agent_id agent; agent_name := agent_name agent;
     role := role agent; agent_capabilities := agent_capabilities agent;
     goals := goals agent;
     agent_state :=
       {| agent_active := agent_active st;
          currentGoal := currentGoal st;
          progress := progress st;
          resources := resources st;
          knowledge := knowledge st;
          experience := Qmin 1.0 (experience st + 0.001) |};
     performance :=
       {| taskCompletion := Qmin 1.0 (progress st);
          goalAchievement := goalAchievement p;
          resourceEfficiency :=
            1 - match map_get "cpu" (resources st) with
                | Some v => if Qeq_bool v 0 then 0 else v
                | None => 0
                end;
          agent_learningRate := experience st * 0.3;
          adaptationSpeed := adaptationSpeed p;
          collaborationScore := collaborationScore p |} |}.

(** The body of the [forEach] of [executeAutonomousAgents]. *)
Definition executeAgent (agent : AutonomousAgent)
  : AutonomousAgent * list AgentEvent :=
  if agent_active (agent_state agent) then
    let r := updateAgentProgress (executeAgentGoals agent) in
    (evaluateAgentPerformance (fst r), snd r)
  else (agent, []).

Definition executeAutonomousAgents (s : State) : State * list AgentEvent :=
  (set_autonomousAgents
     (forEach_value (fun agent => fst (executeAgent agent))
        (autonomousAgents s)) s,
   flat_map (fun kv : string * AutonomousAgent => snd (executeAgent (snd kv)))
     (autonomousAgents s)).

(** The map [sharedKnowledge] after the first pair of loops. *)
Definition sharedKnowledge (agents : jsmap AutonomousAgent) : jsmap KValue :=
  fold_left
    (fun (shared : jsmap KValue) (agent : AutonomousAgent) =>
       fold_left
         (fun (sh : jsmap KValue) (kv : string * KValue) =>
            map_set (fst kv) (snd kv) sh)
         (knowledge (agent_state agent)) shared)
    (map_values agents) [].

(** The inner [forEach] of the second pair of loops, on the knowledge of one
    agent. *)
Definition backfill (shared known : jsmap KValue) : jsmap KValue :=
  fold_left
    (fun (kn : jsmap KValue) (kv : string * KValue) =>
       if map_has (fst kv) kn then kn else map_set (fst kv) (snd kv) kn)
    shared known.

Definition set_knowledge (k : jsmap KValue) (a : AutonomousAgent)
  : AutonomousAgent :=
  let st := agent_state a in
  set_agent_state
    {| agent_active := agent_active st;
       currentGoal := currentGoal st;
       progress := progress st;
       resources := resources st;
       knowledge := k;
       experience := experience st |} a.

Definition coordinateAgentActivities (s : State) : State :=
  let shared := sharedKnowledge (autonomousAgents s) in
  set_autonomousAgents
    (forEach_value
       (fun agent =>
          set_knowledge (backfill shared (knowledge (agent_state agent))) agent)
       (autonomousAgents s)) s.

(** *** Calls and timer callbacks *)

Inductive Op : Type :=
| OpMonitoringCycle (draws : string -> Draw) (now : Z)
| OpEvolutionCycle (now : Z)
| OpEmergenceCycle (draws : nat -> EmergenceDraw) (now : Z)
| OpSetAutogenesisEnabled (enabled : bool)
| OpSetSynergyThreshold (threshold : Q)
| OpAddComponent (component : SynergyComponent)
| OpRemoveComponent (componentId : string).

Definition step (s : State) (o : Op) : State :=
  match o with
  | OpMonitoringCycle draws now => monitoringCycle draws now s
  | OpEvolutionCycle now => evolutionCycle now s
  | OpEmergenceCycle draws now => emergenceCycle draws now s
  | OpSetAutogenesisEnabled b => setAutogenesisEnabled b s
  | OpSetSynergyThreshold t => setSynergyThreshold t s
  | OpAddComponent c => addComponent c s
  | OpRemoveComponent i => removeComponent i s
  end.

Definition run (s : State) (ops : list Op) : State := fold_left step ops s.

End SA.

(** ** The two services together

    The module exports one instance of each class
    ([cognitiveOrchestrator], [synergyArchitecture]).  The reset of the
    system is [cognitiveOrchestrator.reset()], which the controller's
    [resetCognition] calls; the class [SynergyArchitecture] has no such
    method. *)

Record System : Type := {
  cognitiveOrchestrator : CO.State;
  synergyArchitecture : SA.State
}.

(** The state at module load. *)
Definition coldStart (now : Z) : System :=
  {| cognitiveOrchestrator := CO.new now;
     synergyArchitecture := SA.new now |}.

Definition reset (now : Z) (sys : System) : System :=
  {| cognitiveOrchestrator := CO.reset now (cognitiveOrchestrator sys);
     synergyArchitecture := synergyArchitecture sys |}.

(** ** Definitions used by the statements *)

(** The input [{type: "message", text: "Hi there!", requiresResponse: true}]. *)
Definition hiThere : CO.Input :=
  {| CO.in_type := Some (CO.type_string "message");
     CO.in_text := CO.text_string "Hi there!";
     CO.in_dialog := false;
     CO.in_requiresResponse := true;
     CO.in_dialogState := None;
     CO.in_turnCount := None |}.

(** The input [{type: "message", text: 42}]: its text is truthy and not a
    string. *)
Definition numberText : CO.Input :=
  {| CO.in_type := Some (CO.type_string "message");
     CO.in_text := CO.text_other true;
     CO.in_dialog := false;
     CO.in_requiresResponse := false;
     CO.in_dialogState := None;
     CO.in_turnCount := None |}.

(** The input [{type: {toString: 1}}]: it has no text, and its type is an
    object that has no string form. *)
Definition opaqueType : CO.Input :=
  {| CO.in_type := Some (CO.type_other None);
     CO.in_text := CO.text_other false;
     CO.in_dialog := false;
     CO.in_requiresResponse := false;
     CO.in_dialogState := None;
     CO.in_turnCount := None |}.

(** [input.text.toLowerCase()] throws in [reasonAboutIntent]: the text is
    truthy and not a string, and the pattern [intent_recognition] is
    registered. *)
Definition textThrows (input : option CO.Input) (s : CO.State) : bool :=
  match CO.input_text input with
  | CO.text_other true => map_has "intent_recognition" (CO.patternMatchers s)
  | _ => false
  end.

(** The template literal of [learnFromInteraction] throws: learning is
    enabled and the type of the input has no string form. *)
Definition typeThrows (input : option CO.Input) (s : CO.State) : bool :=
  CO.learningEnabled s
  && match CO.typeText input with None => true | Some _ => false end.

(** The call of [processInput] with [input] in state [s] runs to its end. *)
Definition completes (input : option CO.Input) (s : CO.State) : bool :=
  negb (textThrows input s) && negb (typeThrows input s).

(** A call that takes one millisecond up to the learning step and two up to
    the emission, with the draw [1/2]. *)
Definition env1 : CO.Env :=
  {| CO.startTime := 0; CO.learnTime := 1; CO.recordTime := 1;
     CO.emitTime := 2; CO.random := 0.5; CO.lowerCase := toLowerCase |}.

(** A number of the unit interval. *)
Definition unit_range (q : Q) : Prop := 0 <= q /\ q <= 1.

(** The words that open the three greetings of [generateGreeting]. *)
Definition greetingTokens : list string := ["Hello"; "Hi"; "Greetings"].

Definition containsGreetingToken (content : string) : bool :=
  existsb (includes content) greetingTokens.

(** The arithmetic mean, and the [n] most recent entries of a history that
    is kept oldest first. *)
Definition mean (l : list Q) : Q := fold_right Qplus 0 l / Qnat (List.length l).

Definition mostRecent {A : Type} (n : nat) (l : list A) : list A :=
  rev (firstn n (rev l)).

(** The record pushed by a call of [processInput] in state [s] when learning
    is enabled; none when the call throws. *)
Definition recordOf (e : CO.Env) (input : option CO.Input) (s : CO.State)
  : option CO.AdaptationRecord :=
  let s1 := CO.updateCognitiveState input s in
  match CO.applyCognitiveReasoning e input s1 with
  | None => None
  | Some reasoning =>
      let response := CO.generateSynergyResponse (CO.random e) reasoning s1 in
      CO.adaptationRecord (CO.recordTime e) input response
        (CO.calculateEffectiveness response
           (CO.learnTime e - CO.startTime e) s1)
  end.

(** The state after a call, paired with the adaptation records recorded
    since the last initialisation, oldest first. *)
Definition stepLog (sl : CO.State * list CO.AdaptationRecord) (o : CO.Op)
  : CO.State * list CO.AdaptationRecord :=
  (CO.step (fst sl) o,
   match o with
   | CO.OpProcessInput e input =>
       if CO.learningEnabled (fst sl)
       then match recordOf e input (fst sl) with
            | Some r => snd sl ++ [r]
            | None => snd sl
            end
       else snd sl
   | CO.OpReset _ => []
   | _ => snd sl
   end).

Definition runLog (now : Z) (ops : list CO.Op)
  : CO.State * list CO.AdaptationRecord :=
  fold_left stepLog ops (CO.new now, []).

(** *** Ranges of the values of the reasoning engine *)

Definition truth_ok (t : CO.TruthValue) : Prop :=
  unit_range (CO.strength t) /\ unit_range (CO.confidence t).

Definition attention_ok (a : CO.AttentionValue) : Prop :=
  unit_range (CO.shortTermImportance a)
  /\ unit_range (CO.longTermImportance a)
  /\ unit_range (CO.vlti a).

Definition link_ok (l : CO.CognitiveLink) : Prop :=
  truth_ok (CO.link_truthValue l).

Definition node_ok (n : CO.CognitiveNode) : Prop :=
  truth_ok (CO.truthValue n)
  /\ attention_ok (CO.attentionValue n)
  /\ Forall link_ok (CO.relationships n).

Definition pattern_ok (p : CO.CognitivePattern) : Prop :=
  Forall node_ok (CO.nodes p)
  /\ Forall link_ok (CO.links p)
  /\ unit_range (CO.synergyScore p).

Definition cognitiveState_ok (cs : CO.CognitiveState) : Prop :=
  unit_range (CO.synergyLevel cs)
  /\ (0.05 <= CO.learningRate cs /\ CO.learningRate cs <= 0.2)
  /\ Forall pattern_ok (CO.emergentPatterns cs)
  /\ Forall (fun r => unit_range (CO.effectiveness r))
       (CO.adaptationHistory cs).

Definition response_ok (r : CO.Response) : Prop :=
  unit_range (CO.resp_confidence r)
  /\ unit_range (CO.resp_synergyLevel r)
  /\ cognitiveState_ok (CO.md_cognitiveState (CO.metadata r)).

Definition event_ok (e : CO.Event) : Prop :=
  match e with
  | CO.cognition _ response cs _ => response_ok response /\ cognitiveState_ok cs
  | _ => True
  end.

(** Every truth, attention, confidence and synergy value held by the
    orchestrator or handed out in a response is in [0, 1], and the learning
    rate is in [0.05, 0.2]. *)
Definition in_range (s : CO.State) : Prop :=
  cognitiveState_ok (CO.cognitiveState s)
  /\ Forall node_ok (map_values (CO.atomSpace s))
  /\ Forall pattern_ok (map_values (CO.patternMatchers s))
  /\ Forall event_ok (CO.events s).

(** A call whose pattern argument, if any, has its values in range. *)
Definition op_ok (o : CO.Op) : Prop :=
  match o with
  | CO.OpAddCognitivePattern p => pattern_ok p
  | _ => True
  end.

(** [s'] differs from [s] at most in the active set, the attentional focus
    and the atom space, whose nodes stay in range if they were. *)
Definition keeps (s s' : CO.State) : Prop :=
  CO.patternMatchers s' = CO.patternMatchers s
  /\ CO.events s' = CO.events s
  /\ CO.synergyLevel (CO.cognitiveState s')
     = CO.synergyLevel (CO.cognitiveState s)
  /\ CO.learningRate (CO.cognitiveState s')
     = CO.learningRate (CO.cognitiveState s)
  /\ CO.emergentPatterns (CO.cognitiveState s')
     = CO.emergentPatterns (CO.cognitiveState s)
  /\ CO.adaptationHistory (CO.cognitiveState s')
     = CO.adaptationHistory (CO.cognitiveState s)
  /\ (Forall node_ok (map_values (CO.atomSpace s)) ->
      Forall node_ok (map_values (CO.atomSpace s'))).

(** A pattern with a truth value outside of the unit interval. *)
Definition boostPattern : CO.CognitivePattern :=
  {| CO.pattern_id := "boost";
     CO.pattern_name := "Boost";
     CO.description := "A pattern over the user input";
     CO.nodes := [CO.mkNode "user_input" CO.concept 3 1 0.5 0.5 0.5 0];
     CO.links := [];
     CO.activationThreshold := 0.5;
     CO.synergyScore := 1 |}.

(** A pattern in range. *)
Definition testPattern : CO.CognitivePattern :=
  {| CO.pattern_id := "test_pattern";
     CO.pattern_name := "Test Pattern";
     CO.description := "A test cognitive pattern";
     CO.nodes := [CO.mkNode "user_input" CO.concept 1 1 0.5 0.5 0.5 0];
     CO.links := [];
     CO.activationThreshold := 0.6;
     CO.synergyScore := 0.7 |}.

(** *** States of the synergy architecture *)

(** A component of efficiency [0.5] with one reliable connection. *)
Definition slowComponent : SA.SynergyComponent :=
  {| SA.id := "slow_component";
     SA.name := "Slow Component";
     SA.type := SA.cognitive;
     SA.capabilities := [];
     SA.connections :=
       [SA.mkConnection "slow_component" SA.feedback 0.8 1000 10 0.95];
     SA.state :=
       {| SA.active := true; SA.load := 0.3; SA.efficiency := 0.5;
          SA.adaptationRate := 0.1; SA.lastUpdate := 0; SA.errorCount := 0 |};
     SA.metrics :=
       {| SA.throughput := 75; SA.responseTime := 80; SA.accuracy := 0.7;
          SA.resourceUsage := 0.24; SA.synergyContribution := 0.45;
          SA.emergentProperties := 0.5 |} |}.

(** Draws that leave load and efficiency where they are. *)
Definition stillDraws (_ : string) : SA.Draw :=
  {| SA.loadDraw := 0.5; SA.efficiencyDraw := 0.5; SA.emergentDraw := 0.5;
     SA.clock := 5 |}.

(** The registry after the four seed components were removed and
    [slowComponent] was added, at the end of a monitoring cycle: the synergy
    level is [0.45] and the coherence is [0.5]. *)
Definition lowState : SA.State :=
  SA.monitoringCycle stillDraws 5
    (SA.addComponent slowComponent
       (SA.removeComponent "emergent_intelligence"
          (SA.removeComponent "adaptive_learner"
             (SA.removeComponent "behavioral_adapter"
                (SA.removeComponent "cognitive_processor" (SA.new 0)))))).

(** The seeded architecture with the synergy threshold lowered to [0.4]:
    the synergy level [0.5] and the coherence [0.75] are above their
    thresholds. *)
Definition calmState : SA.State := SA.setSynergyThreshold 0.4 (SA.new 0).

(** The mean load of the registry, as [optimizeArchitecture] computes it. *)
Definition avgLoad (s : SA.State) : Q :=
  SA.sumOf (fun c => SA.load (SA.state c)) (map_values (SA.components s))
  / Qnat (List.length (SA.components s)).

(** The loads of the registry, by key. *)
Definition loads (s : SA.State) : list (string * Q) :=
  map (fun kv => (fst kv, SA.load (SA.state (snd kv)))) (SA.components s).

(** The connection strengths of the registry, by key. *)
Definition strengths (s : SA.State) : list (string * list Q) :=
  map (fun kv => (fst kv, map SA.strength (SA.connections (snd kv))))
    (SA.components s).

(** A behavior registry as [registerEmergentBehavior] builds it: every
    behavior is stored under its id, and no key occurs twice. *)
Definition registry_ok (m : jsmap SA.EmergentBehavior) : Prop :=
  NoDup (map_keys m)
  /\ Forall (fun kv => SA.behavior_id (snd kv) = fst kv) m.

(** The number of [emergent_behavior_removed] events for [k] in a log. *)
Definition isRemoval (k : string) (e : SA.Event) : bool :=
  match e with
  | SA.emergent_behavior_removed i => String.eqb i k
  | _ => false
  end.

Definition removalCount (k : string) (log : list SA.Event) : nat :=
  List.length (filter (isRemoval k) log).

(** Draws under which the detection pass on the seed registers one
    behavior, for the pair of [adaptive_learner] and
    [emergent_intelligence] (strength 0.875, stability 0.82, novelty 0.9). *)
Definition oneEmergence (n : nat) : SA.EmergenceDraw :=
  {| SA.noveltyDraw := if (n =? 5)%nat then 0.875 else 0;
     SA.idClock := 60000;
     SA.idSuffix := "k3x9q2m7p" |}.

Definition detectedState : SA.State :=
  SA.detectEmergentBehaviors oneEmergence 60000 (SA.new 0).

(** [detectedState] after the utility of its behavior was set to [0.1] from
    outside, through the object that [getArchitecturalState] hands out. *)
Definition forcedState : SA.State :=
  SA.set_emergentBehaviors
    (SA.forEach_value (SA.set_utility 0.1) (SA.emergentBehaviors detectedState))
    detectedState.

(** A behavior with strength, stability and novelty [0.1]. *)
Definition weakBehavior : SA.EmergentBehavior :=
  {| SA.behavior_id := "emergence_2";
     SA.behavior_name := "Emergent Behavior: adaptive-emergent";
     SA.behavior_description := "Emergent behavior";
     SA.manifestation := "Synergistic interaction";
     SA.behavior_strength := 0.1;
     SA.stability := 0.1;
     SA.novelty := 0.1;
     SA.utility := 0.5;
     SA.behavior_components := ["adaptive_learner"; "emergent_intelligence"];
     SA.triggers := ["component_activation"; "data_exchange"; "feedback_loop"] |}.

(** The seeded architecture with [weakBehavior] in its registry. *)
Definition weakState : SA.State :=
  SA.set_emergentBehaviors [("emergence_2", weakBehavior)] (SA.new 0).

(** The state [s] with another behavior registry and another event log. *)
Definition withRegistry (s : SA.State) (m : jsmap SA.EmergentBehavior)
  (log : list SA.Event) : SA.State :=
  {| SA.components := SA.components s;
     SA.patterns := SA.patterns s;
     SA.emergentBehaviors := m;
     SA.autonomousAgents := SA.autonomousAgents s;
     SA.architecturalState := SA.architecturalState s;
     SA.autogenesisEnabled := SA.autogenesisEnabled s;
     SA.synergyThreshold := SA.synergyThreshold s;
     SA.events := log |}.

(** What a utility-evaluation pass leaves of an entry of the registry, and
    the event it emits for it. *)
Definition evaluated (s : SA.State) (kv : string * SA.EmergentBehavior)
  : jsmap SA.EmergentBehavior :=
  let v := SA.calculateEmergentUtility (snd kv) s in
  if Qltb v 0.3 then [] else [(fst kv, SA.set_utility v (snd kv))].

Definition removals (s : SA.State) (kv : string * SA.EmergentBehavior)
  : list SA.Event :=
  if Qltb (SA.calculateEmergentUtility (snd kv) s) 0.3
  then [SA.emergent_behavior_removed (fst kv)] else [].

(** *** Definitions used by the further properties *)

(** The ids that [findRelevantNodes] can select. *)
Definition selectableNodes : list string :=
  ["user_input"; "intent_classifier"; "context_analyzer";
   "dialog_state"; "flow_controller";
   "response_generator"; "contextual_adapter"].

(** [s] occurs in [l] as a contiguous part. *)
Definition occursIn (needle l : string) : Prop :=
  exists a b, l = (a ++ needle ++ b)%string.

(** A list of scored entries in descending order of score. *)
Definition descending {A : Type} (key : A -> Q) (l : list A) : Prop :=
  StronglySorted (fun x y => key y <= key x) l.

(** A call other than [addCognitivePattern]. *)
Definition seed_only (o : CO.Op) : Prop :=
  match o with
  | CO.OpAddCognitivePattern _ => False
  | _ => True
  end.

(** The nodes of each seed pattern are active together or not at all. *)
Definition groups_closed (active : list string) : Prop :=
  set_has "intent_classifier" active = set_has "user_input" active
  /\ set_has "context_analyzer" active = set_has "user_input" active
  /\ set_has "flow_controller" active = set_has "dialog_state" active
  /\ set_has "contextual_adapter" active = set_has "response_generator" active.

(** One of the three seed patterns, as initialised at some time. *)
Definition seed_pattern (p : CO.CognitivePattern) : Prop :=
  exists now,
    p = CO.intentPattern now \/ p = CO.dialogPattern now
    \/ p = CO.responsePattern now.

(** The state holds seed patterns only, over an active set closed under
    their groups, and its synergy level is between 0.5 and 0.66. *)
Definition seeded (s : CO.State) : Prop :=
  groups_closed (CO.activeNodes (CO.cognitiveState s))
  /\ Forall seed_pattern (map_values (CO.patternMatchers s))
  /\ 0.5 <= CO.synergyLevel (CO.cognitiveState s)
  /\ CO.synergyLevel (CO.cognitiveState s) <= 0.66.

(** *** Ranges of the values of the synergy architecture *)

Definition connection_ok (c : SA.SynergyConnection) : Prop :=
  unit_range (SA.strength c)
  /\ 100 <= SA.bandwidth c /\ SA.bandwidth c <= 2000
  /\ 1 <= SA.latency c.

Definition component_ok (c : SA.SynergyComponent) : Prop :=
  unit_range (SA.load (SA.state c))
  /\ 0.5 <= SA.efficiency (SA.state c) /\ SA.efficiency (SA.state c) <= 1
  /\ 0.05 <= SA.adaptationRate (SA.state c)
  /\ SA.adaptationRate (SA.state c) <= 0.3
  /\ Forall connection_ok (SA.connections c).

(** The registry is a map (no key twice) of components in range. *)
Definition registry_bounded (s : SA.State) : Prop :=
  NoDup (map_keys (SA.components s))
  /\ Forall component_ok (map_values (SA.components s)).

(** A call whose component argument, if any, is in range. *)
Definition architecture_op_ok (o : SA.Op) : Prop :=
  match o with
  | SA.OpAddComponent c => component_ok c
  | _ => True
  end.

(** A component of the seed with its load and efficiency moved out of
    range. *)
Definition wildComponent : SA.SynergyComponent :=
  SA.set_state
    {| SA.active := true; SA.load := 7; SA.efficiency := -3;
       SA.adaptationRate := 0.1; SA.lastUpdate := 0; SA.errorCount := 0 |}
    (SA.cognitiveProcessor 0).

(** The registry after a monitoring pass, by entry. *)
Definition monitored (draws : string -> SA.Draw)
  (kv : string * SA.SynergyComponent) : string * SA.SynergyComponent :=
  (fst kv, SA.monitorComponent (draws (fst kv)) (snd kv)).

Definition healthEvent (kv : string * SA.SynergyComponent) : SA.Event :=
  SA.component_health (fst kv) (SA.calculateComponentHealth (snd kv))
    (SA.state (snd kv)) (SA.metrics (snd kv)).

(** The state [s] with another component registry and another event log. *)
Definition withComponents (s : SA.State) (m : jsmap SA.SynergyComponent)
  (log : list SA.Event) : SA.State :=
  {| SA.components := m;
     SA.patterns := SA.patterns s;
     SA.emergentBehaviors := SA.emergentBehaviors s;
     SA.autonomousAgents := SA.autonomousAgents s;
     SA.architecturalState := SA.architecturalState s;
     SA.autogenesisEnabled := SA.autogenesisEnabled s;
     SA.synergyThreshold := SA.synergyThreshold s;
     SA.events := log |}.

(** *** Definitions used by the further properties of the architecture *)

(** What a monitoring pass leaves of the load and the efficiency of a
    component. *)
Definition vitals_ok (c : SA.SynergyComponent) : Prop :=
  unit_range (SA.load (SA.state c))
  /\ 0.5 <= SA.efficiency (SA.state c) /\ SA.efficiency (SA.state c) <= 1.

(** The condition under which [evolveArchitecture] evolves. *)
Definition evolutionDue (s : SA.State) : bool :=
  SA.autogenesisEnabled s
  && (Qltb (SA.synergyLevel (SA.architecturalState s)) (SA.synergyThreshold s)
      || Qltb (SA.coherence (SA.architecturalState s)) 0.7).

(** One callback of the evolution timer at each of the times [nows]. *)
Definition evolutionCycles (nows : list Z) : list SA.Op :=
  map SA.OpEvolutionCycle nows.

(** The thresholds that the detection pass puts on what it registers. *)
Definition strong (b : SA.EmergentBehavior) : Prop :=
  0.8 < SA.behavior_strength b /\ 0.7 < SA.stability b /\ 0.6 < SA.novelty b.

(** A call other than [removeComponent]. *)
Definition keeps_components (o : SA.Op) : Prop :=
  match o with
  | SA.OpRemoveComponent _ => False
  | _ => True
  end.

(** An event other than [emergent_behavior_removed]. *)
Definition notRemoval (e : SA.Event) : Prop :=
  match e with
  | SA.emergent_behavior_removed _ => False
  | _ => True
  end.

(** What holds of the architecture as long as no component is removed. *)
Definition detection_inv (s : SA.State) : Prop :=
  NoDup (map_keys (SA.components s))
  /\ SA.components s <> []
  /\ registry_ok (SA.emergentBehaviors s)
  /\ Forall strong (map_values (SA.emergentBehaviors s))
  /\ 0 <= SA.synergyLevel (SA.architecturalState s)
  /\ Forall notRemoval (SA.events s).

(** The condition under which [stabilizeEmergentPatterns] promotes. *)
Definition promotable (b : SA.EmergentBehavior) : bool :=
  Qgtb (SA.utility b) 0.7 && Qgtb (SA.stability b) 0.8.

(** The key under which the pattern of a promoted behavior is stored. *)
Definition promotedKey (b : SA.EmergentBehavior) : string :=
  ("pattern_" ++ SA.behavior_id b)%string.

(** The value that the last agent, in the order of the registry, that
    knows the key [k] holds for it. *)
Definition lastKnown (k : string) (agents : list SA.AutonomousAgent)
  : option SA.KValue :=
  fold_left
    (fun (found : option SA.KValue) (a : SA.AutonomousAgent) =>
       match map_get k (SA.knowledge (SA.agent_state a)) with
       | Some v => Some v
       | None => found
       end)
    agents None.

(** The knowledge of the agent is a map (no key twice). *)
Definition knowledge_ok (a : SA.AutonomousAgent) : Prop :=
  NoDup (map_keys (SA.knowledge (SA.agent_state a))).

(** The goals that the [switch] of the role of an agent has a case for. *)
Definition handled (r : SA.Role) (g : string) : bool :=
  match r with
  | SA.orchestrator =>
      String.eqb g "optimize_performance" || String.eqb g "maintain_coherence"
      || String.eqb g "ensure_resilience"
  | SA.analyzer =>
      String.eqb g "identify_issues" || String.eqb g "predict_problems"
  | SA.learner =>
      String.eqb g "improve_accuracy" || String.eqb g "discover_patterns"
  | _ => false
  end.

(** A sequence of agent ticks, the knowledge map of the agent being
    replaced after each ([coordinateAgentActivities] and
    [updateAgentKnowledge] write to it only). *)
Definition agentTicks (a : SA.AutonomousAgent) (ks : list (jsmap SA.KValue))
  : SA.AutonomousAgent :=
  fold_left
    (fun (a : SA.AutonomousAgent) (k : jsmap SA.KValue) =>
       SA.set_knowledge k (fst (SA.executeAgent a)))
    ks a.

(** Rounds of [executeAutonomousAgents] and [coordinateAgentActivities]. *)
Definition agentRounds (n : nat) (s : SA.State) : SA.State :=
  Nat.iter n
    (fun s => SA.coordinateAgentActivities (fst (SA.executeAutonomousAgents s)))
    s.

(** The analyzer agent of the seed after twenty rounds: its goal is
    [optimize_metrics]. *)
Definition lateAnalyzer : SA.AutonomousAgent :=
  match map_get "analyzer_agent"
          (SA.autonomousAgents (agentRounds 20 (SA.new 0))) with
  | Some a => a
  | None => SA.analyzerAgent
  end.

(** One of the three checks of [detectPerformanceAnomalies] fails. *)
Definition anomalous (c : SA.SynergyComponent) : bool :=
  Qgtb (SA.load (SA.state c)) 0.9
  || Qltb (SA.efficiency (SA.state c)) 0.6
  || (5 <? SA.errorCount (SA.state c))%Z.

(** The event is a [performance_anomaly]. *)
Definition isAnomaly (e : SA.Event) : bool :=
  match e with
  | SA.performance_anomaly _ _ => true
  | _ => false
  end.

(** ** Properties *)

(** *** Comparisons and maps *)

Lemma Qltb_true (a b : Q) : Qltb a b = true <-> a < b.
Proof.
  unfold Qltb. rewrite Qlt_alt. destruct (a ?= b); split; congruence.
Qed.

Lemma Qltb_false (a b : Q) : Qltb a b = false <-> b <= a.
Proof.
  split; intro H.
  - apply Qnot_lt_le. intro L. apply Qltb_true in L. congruence.
  - destruct (Qltb a b) eqn:E; [|reflexivity].
    apply Qltb_true in E. exfalso. apply (Qlt_not_le _ _ E H).
Qed.

Lemma Qgtb_true (a b : Q) : Qgtb a b = true <-> b < a.
Proof. apply Qltb_true. Qed.

Lemma Qgtb_false (a b : Q) : Qgtb a b = false <-> a <= b.
Proof. apply Qltb_false. Qed.

Lemma map_keys_forEach_value {V : Type} (f : V -> V) (m : jsmap V) :
  map_keys (SA.forEach_value f m) = map_keys m.
Proof.
  unfold map_keys, SA.forEach_value. rewrite map_map. reflexivity.
Qed.

Lemma slice_last_mostRecent {A : Type} (n : nat) (l : list A) :
  slice_last n l = mostRecent n l.
Proof.
  unfold slice_last, mostRecent.
  rewrite firstn_rev, rev_involutive. reflexivity.
Qed.

Lemma sumOf_from {A : Type} (f : A -> Q) (l : list A) (a : Q) :
  fold_left (fun (sum : Q) (x : A) => sum + f x) l a
  == a + fold_right Qplus 0 (map f l).
Proof.
  revert a. induction l as [|x l IH]; intro a; simpl.
  - ring.
  - rewrite IH. ring.
Qed.

(** *** The evolution cycle *)

Lemma loads_forEach_value (f : SA.SynergyComponent -> SA.SynergyComponent)
  (s : SA.State) :
  (forall c, SA.load (SA.state (f c)) = SA.load (SA.state c)) ->
  loads (SA.set_components (SA.forEach_value f (SA.components s)) s) = loads s.
Proof.
  intro Hf. unfold loads, SA.forEach_value. simpl.
  rewrite map_map. apply map_ext. intros [k c]. simpl. now rewrite Hf.
Qed.

Lemma strengths_forEach_value (f : SA.SynergyComponent -> SA.SynergyComponent)
  (s : SA.State) :
  (forall c, map SA.strength (SA.connections (f c))
             = map SA.strength (SA.connections c)) ->
  strengths (SA.set_components (SA.forEach_value f (SA.components s)) s)
  = strengths s.
Proof.
  intro Hf. unfold strengths, SA.forEach_value. simpl.
  rewrite map_map. apply map_ext. intros [k c]. simpl. now rewrite Hf.
Qed.

Lemma adapt_load (c : SA.SynergyComponent) :
  SA.load (SA.state (SA.adapt c)) = SA.load (SA.state c).
Proof.
  unfold SA.adapt.
  destruct (Qgtb _ _); [reflexivity|]. destruct (Qltb _ _); reflexivity.
Qed.

Lemma adapt_strength (c : SA.SynergyComponent) :
  map SA.strength (SA.connections (SA.adapt c))
  = map SA.strength (SA.connections c).
Proof.
  unfold SA.adapt.
  destruct (Qgtb _ _); [reflexivity|]. destruct (Qltb _ _); reflexivity.
Qed.

Lemma tune_strength (l : list SA.SynergyConnection) :
  map SA.strength (map SA.tune l) = map SA.strength l.
Proof. rewrite map_map. apply map_ext. reflexivity. Qed.

Lemma realign_strength (c : SA.SynergyComponent) :
  map SA.strength (SA.connections (SA.realign c))
  = map SA.strength (SA.connections c).
Proof. reflexivity. Qed.

(** Neither [optimizeConnections] nor [adaptComponentBehavior] touches a load
    or a connection strength. *)
Lemma tail_of_cycle_loads (s : SA.State) :
  loads (SA.adaptComponentBehavior (SA.optimizeConnections s)) = loads s.
Proof.
  unfold SA.adaptComponentBehavior.
  rewrite loads_forEach_value by apply adapt_load.
  unfold SA.optimizeConnections.
  apply loads_forEach_value. reflexivity.
Qed.

Lemma tail_of_cycle_strengths (s : SA.State) :
  strengths (SA.adaptComponentBehavior (SA.optimizeConnections s))
  = strengths s.
Proof.
  unfold SA.adaptComponentBehavior.
  rewrite strengths_forEach_value by apply adapt_strength.
  unfold SA.optimizeConnections.
  apply strengths_forEach_value. intro c. simpl. apply tune_strength.
Qed.

(** With both conditions the plan lists the four changes, its type is the
    one written last, and only [improveCoherence] runs. *)
Lemma plan_under_both_conditions (s : SA.State) :
  SA.synergyLevel (SA.architecturalState s) < SA.synergyThreshold s ->
  SA.coherence (SA.architecturalState s) < 0.7 ->
  SA.planArchitecturalEvolution s
  = {| SA.shouldEvolve := true;
       SA.evolution_type := SA.coherence_improvement;
       SA.changes :=
         ["Strengthen component connections"; "Optimize information flow";
          "Realign component goals"; "Improve coordination mechanisms"];
       SA.expectedImprovement := 0.1 + 0.15 |}.
Proof.
  intros H1 H2. unfold SA.planArchitecturalEvolution.
  apply Qltb_true in H1. apply Qltb_true in H2.
  rewrite H1, H2. reflexivity.
Qed.

Lemma evolution_under_both_conditions (now : Z) (s : SA.State) :
  SA.autogenesisEnabled s = true ->
  SA.synergyLevel (SA.architecturalState s) < SA.synergyThreshold s ->
  SA.coherence (SA.architecturalState s) < 0.7 ->
  SA.components (SA.evolveArchitecture now s)
  = SA.forEach_value SA.realign (SA.components s)
  /\ strengths (SA.evolutionCycle now s) = strengths s.
Proof.
  intros Ha H1 H2.
  assert (E : SA.components (SA.evolveArchitecture now s)
              = SA.forEach_value SA.realign (SA.components s)).
  { unfold SA.evolveArchitecture. rewrite Ha. simpl.
    rewrite (plan_under_both_conditions s H1 H2). reflexivity. }
  split; [exact E|].
  unfold SA.evolutionCycle. rewrite tail_of_cycle_strengths.
  unfold strengths. rewrite E. unfold SA.forEach_value.
  rewrite map_map. apply map_ext. intros [k c]. reflexivity.
Qed.

(** C1 (at a state the public methods and a monitoring cycle reach).
    In [lowState] autogenesis is enabled, the synergy level is below the
    synergy threshold and the coherence is below 0.7.  The evolution tick
    plans "Strengthen component connections", yet the connection of
    reliability 0.95 keeps its strength 0.8 and its bandwidth 1000; only the
    efficiency (0.5 to 0.52) and the adaptation rate (0.1 to 0.09) of the
    component move. *)
Theorem C1_synergy_improvement_skipped :
  SA.autogenesisEnabled lowState = true
  /\ SA.synergyLevel (SA.architecturalState lowState)
     < SA.synergyThreshold lowState
  /\ SA.coherence (SA.architecturalState lowState) < 0.7
  /\ In "Strengthen component connections"
       (SA.changes (SA.planArchitecturalEvolution lowState))
  /\ map (fun kv =>
            (fst kv,
             map (fun c => (SA.reliability c, SA.strength c, SA.bandwidth c))
               (SA.connections (snd kv))))
       (SA.components (SA.evolveArchitecture 30 lowState))
     = [("slow_component", [(0.95, 0.8, 1000)])]
  /\ strengths (SA.evolutionCycle 30 lowState) = [("slow_component", [0.8])]
  /\ (exists c,
        map_get "slow_component"
          (SA.components (SA.evolveArchitecture 30 lowState)) = Some c
        /\ SA.efficiency (SA.state c) == 0.52
        /\ SA.adaptationRate (SA.state c) == 0.09).
Proof.
  split; [reflexivity|].
  split; [reflexivity|].
  split; [reflexivity|].
  split; [left; reflexivity|].
  split; [reflexivity|].
  split; [reflexivity|].
  eexists. split; [reflexivity|]. split; reflexivity.
Qed.

(** C2, the claim at a concrete state.  In [calmState] autogenesis is
    enabled, the synergy level is not below the threshold and the coherence
    is not below 0.7; the load 0.4 of [adaptive_learner] exceeds 1.2 times
    the mean load, and after the evolution tick it is still 0.4, not 0.3. *)
Lemma C2_no_rebalancing_counterexample :
  SA.autogenesisEnabled calmState = true
  /\ ~ SA.synergyLevel (SA.architecturalState calmState)
       < SA.synergyThreshold calmState
  /\ ~ SA.coherence (SA.architecturalState calmState) < 0.7
  /\ (exists c,
        map_get "adaptive_learner" (SA.components calmState) = Some c
        /\ avgLoad calmState * 1.2 < SA.load (SA.state c))
  /\ (exists c,
        map_get "adaptive_learner"
          (SA.components (SA.evolutionCycle 30 calmState)) = Some c
        /\ SA.load (SA.state c) == 0.4
        /\ ~ SA.load (SA.state c) == 0.4 - 0.1).
Proof.
  split; [reflexivity|].
  split; [vm_compute; discriminate|].
  split; [vm_compute; discriminate|].
  split.
  - eexists. split; [reflexivity|]. reflexivity.
  - eexists. split; [reflexivity|].
    split; [reflexivity|]. vm_compute. discriminate.
Qed.

(** C2, amended.  For every evolution tick with autogenesis enabled in which
    the synergy level is not below the synergy threshold and the coherence
    is not below 0.7, [evolveArchitecture] changes nothing (no pass runs, the
    evolution count stays, no event is emitted), and the whole tick leaves
    every load as it was. *)
Theorem C2_no_evolution_when_thresholds_met (now : Z) (s : SA.State) :
  SA.autogenesisEnabled s = true ->
  SA.synergyThreshold s <= SA.synergyLevel (SA.architecturalState s) ->
  0.7 <= SA.coherence (SA.architecturalState s) ->
  SA.evolveArchitecture now s = s
  /\ loads (SA.evolutionCycle now s) = loads s.
Proof.
  intros Ha H1 H2.
  assert (E : SA.evolveArchitecture now s = s).
  { unfold SA.evolveArchitecture, SA.planArchitecturalEvolution.
    apply Qltb_false in H1. apply Qltb_false in H2.
    rewrite Ha, H1, H2. reflexivity. }
  split; [exact E|].
  unfold SA.evolutionCycle. rewrite E. apply tail_of_cycle_loads.
Qed.

(** The tick at [calmState]. *)
Lemma C2_no_evolution_when_thresholds_met_witness :
  SA.evolveArchitecture 30 calmState = calmState
  /\ loads (SA.evolutionCycle 30 calmState) = loads calmState.
Proof.
  apply (C2_no_evolution_when_thresholds_met 30 calmState).
  - reflexivity.
  - vm_compute. discriminate.
  - vm_compute. discriminate.
Defined.

(** *** The atom space of the orchestrator *)

Lemma activateNode_atomSpace_empty (s : CO.State) (nodeId : string) :
  CO.atomSpace s = [] -> CO.atomSpace (CO.activateNode s nodeId) = [].
Proof.
  intro H. unfold CO.activateNode. simpl. rewrite H. simpl. exact H.
Qed.

Lemma activateNode_patternMatchers (s : CO.State) (nodeId : string) :
  CO.patternMatchers (CO.activateNode s nodeId) = CO.patternMatchers s.
Proof.
  unfold CO.activateNode. simpl.
  destruct (map_get nodeId (CO.atomSpace s)); reflexivity.
Qed.

Lemma activate_all_atomSpace_empty (l : list string) (s : CO.State) :
  CO.atomSpace s = [] -> CO.atomSpace (fold_left CO.activateNode l s) = [].
Proof.
  revert s. induction l as [|k l IH]; intros s H; simpl; [exact H|].
  apply IH. now apply activateNode_atomSpace_empty.
Qed.

Lemma activate_all_patternMatchers (l : list string) (s : CO.State) :
  CO.patternMatchers (fold_left CO.activateNode l s) = CO.patternMatchers s.
Proof.
  revert s. induction l as [|k l IH]; intro s; simpl; [reflexivity|].
  rewrite IH. apply activateNode_patternMatchers.
Qed.

Lemma learn_nodes_empty (l : list string) (f : CO.CognitiveNode -> CO.CognitiveNode) :
  fold_left
    (fun (a : jsmap CO.CognitiveNode) (nodeId : string) =>
       match map_get nodeId a with
       | Some node => map_set nodeId (f node) a
       | None => a
       end) l [] = [].
Proof. induction l as [|k l IH]; simpl; [reflexivity|exact IH]. Qed.

Lemma updateNodesFromLearning_atomSpace_empty (eff : Q) (s : CO.State) :
  CO.atomSpace s = [] -> CO.atomSpace (CO.updateNodesFromLearning eff s) = [].
Proof.
  intro H. unfold CO.updateNodesFromLearning. simpl. rewrite H.
  apply learn_nodes_empty.
Qed.

Lemma activateNode_learningEnabled (s : CO.State) (nodeId : string) :
  CO.learningEnabled (CO.activateNode s nodeId) = CO.learningEnabled s.
Proof.
  unfold CO.activateNode. simpl.
  destruct (map_get nodeId (CO.atomSpace s)); reflexivity.
Qed.

Lemma updateCognitiveState_learningEnabled (input : option CO.Input)
  (s : CO.State) :
  CO.learningEnabled (CO.updateCognitiveState input s) = CO.learningEnabled s.
Proof.
  unfold CO.updateCognitiveState. simpl.
  generalize (CO.findRelevantNodes input). intro l. revert s.
  induction l as [|k l IH]; intro s; simpl; [reflexivity|].
  rewrite IH. apply activateNode_learningEnabled.
Qed.

Lemma updateCognitiveState_atomSpace_empty (input : option CO.Input)
  (s : CO.State) :
  CO.atomSpace s = [] -> CO.atomSpace (CO.updateCognitiveState input s) = [].
Proof.
  intro H. unfold CO.updateCognitiveState. simpl.
  now apply activate_all_atomSpace_empty.
Qed.

Lemma updateCognitiveState_patternMatchers (input : option CO.Input)
  (s : CO.State) :
  CO.patternMatchers (CO.updateCognitiveState input s) = CO.patternMatchers s.
Proof.
  unfold CO.updateCognitiveState. simpl. apply activate_all_patternMatchers.
Qed.

Lemma processInput_atomSpace_empty (e : CO.Env) (input : option CO.Input)
  (s : CO.State) :
  CO.atomSpace s = [] -> CO.atomSpace (snd (CO.processInput e input s)) = [].
Proof.
  intro H. unfold CO.processInput. cbv zeta.
  pose proof (updateCognitiveState_atomSpace_empty input s H) as H1.
  destruct (CO.applyCognitiveReasoning e input
              (CO.updateCognitiveState input s));
    cbn [snd]; [|exact H1].
  rewrite updateCognitiveState_learningEnabled.
  destruct (CO.learningEnabled s); [|exact H1].
  unfold CO.learnFromInteraction. cbv zeta.
  destruct (CO.adaptationRecord _ _ _ _); cbn [snd]; [|exact H1].
  unfold CO.emit. cbn [CO.atomSpace].
  apply updateNodesFromLearning_atomSpace_empty. exact H1.
Qed.

Lemma processInput_patternMatchers (e : CO.Env) (input : option CO.Input)
  (s : CO.State) :
  CO.patternMatchers (snd (CO.processInput e input s)) = CO.patternMatchers s.
Proof.
  unfold CO.processInput. cbv zeta.
  destruct (CO.applyCognitiveReasoning e input
              (CO.updateCognitiveState input s));
    cbn [snd]; [|apply updateCognitiveState_patternMatchers].
  rewrite updateCognitiveState_learningEnabled.
  destruct (CO.learningEnabled s);
    [|apply updateCognitiveState_patternMatchers].
  unfold CO.learnFromInteraction. cbv zeta.
  destruct (CO.adaptationRecord _ _ _ _); cbn [snd];
    apply updateCognitiveState_patternMatchers.
Qed.

Lemma step_atomSpace_empty (s : CO.State) (o : CO.Op) :
  CO.atomSpace s = [] -> CO.atomSpace (CO.step s o) = [].
Proof.
  intro H. destruct o; simpl; try exact H; try reflexivity.
  now apply processInput_atomSpace_empty.
Qed.

(** No public method ever puts a node into the atom space: after any
    sequence of calls it is as empty as [initializeCognitiveSystem] left
    it. *)
Lemma atomSpace_empty_reachable (now : Z) (ops : list CO.Op) :
  CO.atomSpace (CO.run (CO.new now) ops) = [].
Proof.
  unfold CO.run.
  assert (H : CO.atomSpace (CO.new now) = []) by reflexivity.
  revert H. generalize (CO.new now).
  induction ops as [|o ops IH]; intros s H; simpl; [exact H|].
  apply IH. now apply step_atomSpace_empty.
Qed.

Lemma set_add_In (k : string) (l : list string) : In k (set_add k l).
Proof.
  unfold set_add, set_has. destruct (existsb (String.eqb k) l) eqn:E.
  - apply existsb_exists in E. destruct E as [x [Hx Hk]].
    apply String.eqb_eq in Hk. now subst.
  - apply in_or_app. right. now left.
Qed.

Lemma set_add_incl (k k' : string) (l : list string) :
  In k l -> In k (set_add k' l).
Proof.
  intro H. unfold set_add. destruct (set_has k' l); [exact H|].
  apply in_or_app. now left.
Qed.

Lemma activateNode_activeNodes (s : CO.State) (nodeId : string) :
  CO.activeNodes (CO.cognitiveState (CO.activateNode s nodeId))
  = set_add nodeId (CO.activeNodes (CO.cognitiveState s)).
Proof.
  unfold CO.activateNode. simpl.
  destruct (map_get nodeId (CO.atomSpace s)); reflexivity.
Qed.

Lemma activate_all_In (l : list string) (s : CO.State) (k : string) :
  In k l \/ In k (CO.activeNodes (CO.cognitiveState s)) ->
  In k (CO.activeNodes (CO.cognitiveState (fold_left CO.activateNode l s))).
Proof.
  revert s. induction l as [|x l IH]; intros s H; simpl.
  - destruct H as [[]|H]. exact H.
  - apply IH. rewrite activateNode_activeNodes.
    destruct H as [[H|H]|H].
    + subst. right. apply set_add_In.
    + now left.
    + right. now apply set_add_incl.
Qed.

Lemma processInput_activeNodes (e : CO.Env) (input : option CO.Input)
  (s : CO.State) :
  CO.activeNodes (CO.cognitiveState (snd (CO.processInput e input s)))
  = CO.activeNodes
      (CO.cognitiveState (fold_left CO.activateNode
                            (CO.findRelevantNodes input) s)).
Proof.
  unfold CO.processInput. cbv zeta.
  destruct (CO.applyCognitiveReasoning e input
              (CO.updateCognitiveState input s));
    cbn [snd]; [|reflexivity].
  rewrite updateCognitiveState_learningEnabled.
  destruct (CO.learningEnabled s); [|reflexivity].
  unfold CO.learnFromInteraction. cbv zeta.
  destruct (CO.adaptationRecord _ _ _ _); reflexivity.
Qed.

(** The part of the claim on the active set holds in every state: a selected
    id is active after the call. *)
Lemma processInput_marks_active (e : CO.Env) (input : option CO.Input)
  (s : CO.State) (k : string) :
  In k (CO.findRelevantNodes input) ->
  In k (CO.activeNodes (CO.cognitiveState (snd (CO.processInput e input s)))).
Proof.
  intro H. rewrite processInput_activeNodes. apply activate_all_In. now left.
Qed.

(** In every state that calls of the public methods reach, [processInput]
    finds no selected node in the atom space and changes no pattern: no
    attention value moves. *)
Lemma processInput_bumps_nothing (now : Z) (ops : list CO.Op) (e : CO.Env)
  (input : option CO.Input) :
  let s := CO.run (CO.new now) ops in
  let s' := snd (CO.processInput e input s) in
  CO.atomSpace s' = []
  /\ CO.patternMatchers s' = CO.patternMatchers s
  /\ forall k, In k (CO.findRelevantNodes input) ->
               map_get k (CO.atomSpace s) = None.
Proof.
  intros s s'. split; [|split].
  - apply processInput_atomSpace_empty. apply atomSpace_empty_reachable.
  - apply processInput_patternMatchers.
  - intros k _. unfold s. now rewrite atomSpace_empty_reachable.
Qed.

(** C3 (at the seeded state, on the input
    [{type: "message", text: "Hi there!", requiresResponse: true}]).
    The five selected ids are in the active set after the call, but the atom
    space holds no node before or after it, and the nodes of the seed
    patterns keep their short-term attention: [user_input] stays at 0.8,
    [intent_classifier] at 0.9, [context_analyzer] at 0.7,
    [response_generator] at 0.8 and [contextual_adapter] at 0.75. *)
Theorem C3_attention_not_increased :
  let s := CO.new 0 in
  let s' := snd (CO.processInput env1 (Some hiThere) s) in
  CO.findRelevantNodes (Some hiThere)
  = ["user_input"; "intent_classifier"; "context_analyzer";
     "response_generator"; "contextual_adapter"]
  /\ CO.activeNodes (CO.cognitiveState s')
     = ["user_input"; "intent_classifier"; "context_analyzer";
        "response_generator"; "contextual_adapter"]
  /\ CO.atomSpace s = []
  /\ CO.atomSpace s' = []
  /\ map (fun kv =>
            (fst kv,
             map (fun n => (CO.node_id n,
                            CO.shortTermImportance (CO.attentionValue n)))
               (CO.nodes (snd kv))))
       (CO.patternMatchers s')
     = [("intent_recognition",
         [("user_input", 0.8); ("intent_classifier", 0.9);
          ("context_analyzer", 0.7)]);
        ("dialog_management",
         [("dialog_state", 0.95); ("flow_controller", 0.85)]);
        ("response_generation",
         [("response_generator", 0.8); ("contextual_adapter", 0.75)])].
Proof.
  cbv zeta. repeat split; reflexivity.
Qed.

(** *** Reset *)

(** C4, the claim at a concrete state.  After [removeComponent] took
    [adaptive_learner] out of the registry of the synergy architecture,
    [reset] leaves three components where a cold start has four. *)
Lemma C4_reset_counterexample :
  let sys :=
    {| cognitiveOrchestrator := cognitiveOrchestrator (coldStart 0);
       synergyArchitecture :=
         SA.removeComponent "adaptive_learner"
           (synergyArchitecture (coldStart 0)) |} in
  map_keys (SA.components (synergyArchitecture (reset 1 sys)))
  = ["cognitive_processor"; "behavioral_adapter"; "emergent_intelligence"]
  /\ map_keys (SA.components (synergyArchitecture (coldStart 1)))
     = ["cognitive_processor"; "behavioral_adapter"; "adaptive_learner";
        "emergent_intelligence"]
  /\ SA.components (synergyArchitecture (reset 1 sys))
     <> SA.components (synergyArchitecture (coldStart 1)).
Proof.
  cbv zeta. split; [reflexivity|]. split; [reflexivity|].
  intro H. apply (f_equal (@List.length _)) in H. discriminate H.
Qed.

(** C4, amended.  [reset] reinitialises the reasoning engine only: its
    cognitive state, atom space and patterns are those of a cold start, its
    three settings are kept, one [cognitive_reset] event is emitted, and the
    synergy architecture is left as it is. *)
Theorem C4_reset_reasoning_engine_only (now : Z) (sys : System) :
  let co := cognitiveOrchestrator sys in
  let co' := cognitiveOrchestrator (reset now sys) in
  CO.cognitiveState co' = CO.cognitiveState (CO.new now)
  /\ CO.atomSpace co' = CO.atomSpace (CO.new now)
  /\ CO.patternMatchers co' = CO.patternMatchers (CO.new now)
  /\ CO.autonomousMode co' = CO.autonomousMode co
  /\ CO.learningEnabled co' = CO.learningEnabled co
  /\ CO.adaptationThreshold co' = CO.adaptationThreshold co
  /\ CO.events co' = CO.events co ++ [CO.cognitive_reset]
  /\ synergyArchitecture (reset now sys) = synergyArchitecture sys.
Proof.
  cbv zeta. repeat split; reflexivity.
Qed.

(** *** The cognition event *)

Lemma activateNode_events (s : CO.State) (nodeId : string) :
  CO.events (CO.activateNode s nodeId) = CO.events s.
Proof.
  unfold CO.activateNode. simpl.
  destruct (map_get nodeId (CO.atomSpace s)); reflexivity.
Qed.

Lemma updateCognitiveState_events (input : option CO.Input) (s : CO.State) :
  CO.events (CO.updateCognitiveState input s) = CO.events s.
Proof.
  unfold CO.updateCognitiveState. simpl.
  generalize (CO.findRelevantNodes input). intro l. revert s.
  induction l as [|k l IH]; intro s; simpl; [reflexivity|].
  rewrite IH. apply activateNode_events.
Qed.

Lemma learnFromInteraction_events (now : Z) (input : option CO.Input)
  (response : CO.Response) (t : Z) (s s' : CO.State) :
  CO.learnFromInteraction now input response t s = Some s' ->
  CO.events s' = CO.events s.
Proof.
  unfold CO.learnFromInteraction. cbv zeta.
  destruct (CO.adaptationRecord _ _ _ _); [|discriminate].
  intro H. injection H as <-. reflexivity.
Qed.

Lemma emit_cognitiveState (ev : CO.Event) (s : CO.State) :
  CO.cognitiveState (CO.emit ev s) = CO.cognitiveState s.
Proof. reflexivity. Qed.

Lemma reasonAboutIntent_returns (e : CO.Env) (input : option CO.Input)
  (s : CO.State) :
  textThrows input s = false ->
  exists i, CO.reasonAboutIntent e input s = Some i.
Proof.
  unfold textThrows, map_has, CO.reasonAboutIntent. intro H.
  destruct (map_get "intent_recognition" (CO.patternMatchers s));
    [|eexists; reflexivity].
  cbv zeta. destruct (CO.input_text input) as [[|ch t]|[|]];
    try (eexists; reflexivity); [|discriminate].
  destruct (_ || _); [eexists; reflexivity|].
  destruct (_ || _); [eexists; reflexivity|].
  destruct (_ || _); eexists; reflexivity.
Qed.

Lemma applyCognitiveReasoning_returns (e : CO.Env) (input : option CO.Input)
  (s : CO.State) :
  textThrows input s = false ->
  exists r, CO.applyCognitiveReasoning e input s = Some r.
Proof.
  intro H. unfold CO.applyCognitiveReasoning.
  destruct (reasonAboutIntent_returns e input s H) as [i ->].
  eexists. reflexivity.
Qed.

Lemma applyCognitiveReasoning_throws (e : CO.Env) (input : option CO.Input)
  (s : CO.State) :
  textThrows input s = true -> CO.applyCognitiveReasoning e input s = None.
Proof.
  unfold textThrows, map_has, CO.applyCognitiveReasoning,
    CO.reasonAboutIntent. intro H.
  destruct (CO.input_text input) as [t|[|]]; try discriminate.
  destruct (map_get "intent_recognition" (CO.patternMatchers s));
    [reflexivity|discriminate].
Qed.

Lemma textThrows_updateCognitiveState (input input' : option CO.Input)
  (s : CO.State) :
  textThrows input (CO.updateCognitiveState input' s) = textThrows input s.
Proof.
  unfold textThrows. now rewrite updateCognitiveState_patternMatchers.
Qed.

(** The call throws when the text is truthy and not a string while the
    pattern [intent_recognition] is registered; it then emits nothing. *)
Lemma processInput_throws (e : CO.Env) (input : option CO.Input)
  (s : CO.State) :
  CO.input_text input = CO.text_other true ->
  map_has "intent_recognition" (CO.patternMatchers s) = true ->
  fst (CO.processInput e input s) = None
  /\ CO.events (snd (CO.processInput e input s)) = CO.events s.
Proof.
  intros Ht Hp. unfold CO.processInput. cbv zeta.
  rewrite applyCognitiveReasoning_throws.
  - split; [reflexivity|apply updateCognitiveState_events].
  - rewrite textThrows_updateCognitiveState. unfold textThrows.
    now rewrite Ht.
Qed.

(** C6, the claim at a concrete call.  On the seeded state the call with
    the input [{type: "message", text: 42}] throws at
    [input.text.toLowerCase()]: it returns no response and emits no
    event. *)
Lemma C6_throwing_call_counterexample :
  fst (CO.processInput env1 (Some numberText) (CO.new 0)) = None
  /\ CO.events (snd (CO.processInput env1 (Some numberText) (CO.new 0))) = [].
Proof. split; reflexivity. Qed.

(** On the seeded state, where learning is enabled, the call with the input
    [{type: {toString: 1}}] throws in [learnFromInteraction], at the
    conversion of the type to a string: it returns no response and emits no
    event, and with learning disabled the same call returns a response. *)
Lemma processInput_opaque_type :
  completes (Some opaqueType) (CO.new 0) = false
  /\ fst (CO.processInput env1 (Some opaqueType) (CO.new 0)) = None
  /\ CO.events (snd (CO.processInput env1 (Some opaqueType) (CO.new 0))) = []
  /\ completes (Some opaqueType) (CO.setLearningEnabled false (CO.new 0))
     = true.
Proof. repeat split; reflexivity. Qed.

(** C6, amended.  A call of [processInput] runs to its end unless the text
    of the input is truthy and not a string while the pattern
    [intent_recognition] is registered, or learning is enabled and the type
    of the input is a truthy value without a string form.  A call that runs
    to its end returns a response and appends exactly one event to the log;
    it is a [cognition] event, emitted last, and it carries the input and
    the very response that the call returns.  A call that throws returns no
    response and emits no event. *)
Theorem C6_one_cognition_event (e : CO.Env) (input : option CO.Input)
  (s : CO.State) :
  let s' := snd (CO.processInput e input s) in
  if completes input s
  then exists response,
         fst (CO.processInput e input s) = Some response
         /\ CO.events s'
            = CO.events s
              ++ [CO.cognition input response (CO.cognitiveState s')
                    (CO.emitTime e - CO.startTime e)]
  else fst (CO.processInput e input s) = None /\ CO.events s' = CO.events s.
Proof.
  cbv zeta. unfold completes, CO.processInput. cbv zeta.
  pose proof (textThrows_updateCognitiveState input input s) as T.
  destruct (textThrows input s) eqn:Ht; cbn [negb andb].
  - rewrite (applyCognitiveReasoning_throws e input _ T). cbn [fst snd].
    split; [reflexivity|apply updateCognitiveState_events].
  - destruct (applyCognitiveReasoning_returns e input _ T) as [r ->].
    rewrite updateCognitiveState_learningEnabled. unfold typeThrows.
    destruct (CO.learningEnabled s); cbn [negb andb].
    + unfold CO.learnFromInteraction, CO.adaptationRecord. cbv zeta.
      destruct (CO.typeText input) as [t|]; cbn [negb fst snd].
      * eexists. split; [reflexivity|].
        unfold CO.emit at 1. cbn [CO.events]. f_equal.
        apply updateCognitiveState_events.
      * split; [reflexivity|apply updateCognitiveState_events].
    + cbn [fst snd]. eexists. split; [reflexivity|].
      unfold CO.emit at 1. cbn [CO.events]. f_equal.
      apply updateCognitiveState_events.
Qed.

(** The call with "Hi there!" on the seeded state. *)
Lemma C6_one_cognition_event_witness :
  let s' := snd (CO.processInput env1 (Some hiThere) (CO.new 0)) in
  exists response,
    fst (CO.processInput env1 (Some hiThere) (CO.new 0)) = Some response
    /\ CO.events s'
       = CO.events (CO.new 0)
         ++ [CO.cognition (Some hiThere) response (CO.cognitiveState s')
               (CO.emitTime env1 - CO.startTime env1)].
Proof.
  exact (C6_one_cognition_event env1 (Some hiThere) (CO.new 0)).
Defined.

(** *** Statistics *)

(** C10.  [getCognitiveStatistics] reports 0.5 as average effectiveness on
    an empty history, and otherwise the arithmetic mean of the effectiveness
    of the 20 most recent records (of all of them when there are fewer);
    the history is empty at a cold start and after [reset]. *)
Theorem C10_average_effectiveness (now : Z) (s : CO.State) :
  CO.stat_averageEffectiveness (CO.getCognitiveStatistics s)
  == match CO.adaptationHistory (CO.cognitiveState s) with
     | [] => 0.5
     | _ :: _ =>
         mean (map CO.effectiveness
                 (mostRecent 20 (CO.adaptationHistory (CO.cognitiveState s))))
     end
  /\ (List.length (mostRecent 20 (CO.adaptationHistory (CO.cognitiveState s)))
      = Nat.min 20 (List.length (CO.adaptationHistory (CO.cognitiveState s))))
  /\ CO.stat_averageEffectiveness (CO.getCognitiveStatistics (CO.new now))
     = 0.5
  /\ CO.stat_averageEffectiveness
       (CO.getCognitiveStatistics (CO.reset now s)) = 0.5.
Proof.
  split; [|split; [|split; reflexivity]].
  - simpl. unfold CO.calculateAverageEffectiveness.
    destruct (CO.adaptationHistory (CO.cognitiveState s)) as [|r h] eqn:E.
    + reflexivity.
    + cbv zeta. replace (List.length (r :: h) =? 0)%nat with false by reflexivity.
      rewrite slice_last_mostRecent. unfold mean.
      rewrite sumOf_from, length_map, Qplus_0_l. reflexivity.
  - unfold mostRecent.
    rewrite length_rev, length_firstn, length_rev. reflexivity.
Qed.

(** *** The greeting *)

Lemma random_index_3 (r : Q) :
  0 <= r -> r < 1 ->
  random_index r 3 = 0%nat \/ random_index r 3 = 1%nat
  \/ random_index r 3 = 2%nat.
Proof.
  intros H0 H1. unfold random_index.
  change (inject_Z (Z.of_nat 3)) with (3 # 1).
  set (x := r * (3 # 1)).
  assert (Hx0 : 0 <= x) by (unfold x; lra).
  assert (Hx3 : x < 3) by (unfold x; lra).
  assert (L : (0 <= Qfloor x)%Z).
  { change 0%Z with (Qfloor 0). now apply Qfloor_resp_le. }
  assert (U : (Qfloor x < 3)%Z).
  { rewrite Zlt_Qlt. apply Qle_lt_trans with x; [apply Qfloor_le|exact Hx3]. }
  assert (C : (Qfloor x = 0 \/ Qfloor x = 1 \/ Qfloor x = 2)%Z) by lia.
  destruct C as [C|[C|C]]; rewrite C; auto.
Qed.

Lemma generateGreeting_in_greetings (r : Q) :
  0 <= r -> r < 1 -> In (CO.generateGreeting r) CO.greetings.
Proof.
  intros H0 H1. unfold CO.generateGreeting.
  change (List.length CO.greetings) with 3%nat.
  destruct (random_index_3 r H0 H1) as [E|[E|E]]; rewrite E; simpl; auto.
Qed.

Lemma greetings_have_token (c : string) :
  In c CO.greetings -> containsGreetingToken c = true.
Proof.
  intros [H|[H|[H|[]]]]; subst c; reflexivity.
Qed.

(** On the seeded state the input is classified as a greeting, with
    confidence 397/720. *)
Lemma hiThere_reasoning (now : Z) (e : CO.Env) :
  exists reasoning,
    CO.applyCognitiveReasoning e (Some hiThere)
      (CO.updateCognitiveState (Some hiThere) (CO.new now)) = Some reasoning
    /\ CO.intent (CO.r_intent reasoning) = "greeting"
    /\ CO.r_confidence reasoning == 397 # 720.
Proof.
  eexists. split; [vm_compute; reflexivity|].
  split; [reflexivity|]. vm_compute. reflexivity.
Qed.

(** The synergy level lies between 0.4 and 0.8, so the content is the
    greeting itself, without annotation. *)
Lemma hiThere_content (now : Z) (r : Q) (reasoning : CO.Reasoning) :
  CO.intent (CO.r_intent reasoning) = "greeting" ->
  CO.generateResponseContent r reasoning
    (CO.updateCognitiveState (Some hiThere) (CO.new now))
  = CO.generateGreeting r.
Proof.
  intro Hi. unfold CO.generateResponseContent. cbv zeta.
  rewrite Hi. cbn [String.eqb Ascii.eqb Bool.eqb].
  unfold CO.applyCognitiveAdaptation. cbv zeta.
  set (s1 := CO.updateCognitiveState (Some hiThere) (CO.new now)).
  assert (H8 : Qgtb (CO.synergyLevel (CO.cognitiveState s1)) 0.8 = false)
    by (vm_compute; reflexivity).
  assert (H4 : Qltb (CO.synergyLevel (CO.cognitiveState s1)) 0.4 = false)
    by (vm_compute; reflexivity).
  rewrite H8, H4. reflexivity.
Qed.

(** C9.  On the seeded state, for every draw of [Math.random()], the call
    with [{type: "message", text: "Hi there!", requiresResponse: true}]
    returns a response whose content is one of the three greetings, each of
    which contains a greeting word ("Hello", "Hi" or "Greetings"), and whose
    confidence (397/720) is above 0.5. *)
Theorem C9_greeting_response (now : Z) (e : CO.Env) :
  0 <= CO.random e -> CO.random e < 1 ->
  exists response,
    fst (CO.processInput e (Some hiThere) (CO.new now)) = Some response
    /\ In (CO.content response) CO.greetings
    /\ containsGreetingToken (CO.content response) = true
    /\ 0.5 < CO.resp_confidence response
    /\ CO.resp_confidence response == 397 # 720.
Proof.
  intros H0 H1. unfold CO.processInput. cbv zeta.
  destruct (hiThere_reasoning now e) as (reasoning & -> & Hi & Hc).
  rewrite updateCognitiveState_learningEnabled.
  change (CO.learningEnabled (CO.new now)) with true. cbv iota.
  unfold CO.learnFromInteraction. cbv zeta.
  change (CO.adaptationRecord (CO.recordTime e) (Some hiThere) ?r ?f)
    with (Some {| CO.timestamp := CO.recordTime e;
                  CO.trigger := "Input type: message";
                  CO.adaptation :=
                    ("Response generated with "
                     ++ toFixed1 (CO.resp_confidence r * 100)
                     ++ "% confidence")%string;
                  CO.effectiveness := f |}).
  cbn [fst]. eexists. split; [reflexivity|].
  unfold CO.liveResponse, CO.generateSynergyResponse.
  cbn [CO.content CO.resp_confidence].
  rewrite (hiThere_content now (CO.random e) reasoning Hi).
  pose proof (generateGreeting_in_greetings (CO.random e) H0 H1) as G.
  split; [exact G|]. split; [now apply greetings_have_token|].
  split; [|exact Hc]. rewrite Hc. reflexivity.
Qed.

(** The call with the draw [1/2]. *)
Lemma C9_greeting_response_witness :
  exists response,
    fst (CO.processInput env1 (Some hiThere) (CO.new 0)) = Some response
    /\ In (CO.content response) CO.greetings
    /\ containsGreetingToken (CO.content response) = true
    /\ 0.5 < CO.resp_confidence response
    /\ CO.resp_confidence response == 397 # 720.
Proof.
  apply (C9_greeting_response 0 env1).
  - vm_compute. discriminate.
  - vm_compute. reflexivity.
Defined.

(** *** The adaptation history *)

Lemma slice_last_all {A : Type} (n : nat) (l : list A) :
  (List.length l <= n)%nat -> slice_last n l = l.
Proof.
  intro H. unfold slice_last.
  replace (List.length l - n)%nat with 0%nat by lia. reflexivity.
Qed.

Lemma slice_last_length {A : Type} (n : nat) (l : list A) :
  List.length (slice_last n l) = Nat.min n (List.length l).
Proof. unfold slice_last. rewrite length_skipn. lia. Qed.

Lemma slice_last_push {A : Type} (n : nat) (l : list A) (x : A) :
  slice_last n (slice_last n l ++ [x]) = slice_last n (l ++ [x]).
Proof.
  destruct (Nat.le_gt_cases (List.length l) n) as [H|H].
  - now rewrite (slice_last_all n l H).
  - unfold slice_last at 1 3.
    rewrite !length_app, slice_last_length. simpl.
    replace (Nat.min n (List.length l) + 1 - n)%nat with 1%nat by lia.
    unfold slice_last.
    rewrite !skipn_app, skipn_skipn, length_skipn.
    replace (1 + (List.length l - n))%nat
      with (List.length l + 1 - n)%nat by lia.
    f_equal.
    replace (1 - (List.length l - (List.length l - n)))%nat
      with (List.length l + 1 - n - List.length l)%nat by lia.
    reflexivity.
Qed.

(** [push] followed by the trim keeps the last 100 entries. *)
Lemma recordAdaptation_slice (r : CO.AdaptationRecord)
  (h : list CO.AdaptationRecord) :
  CO.recordAdaptation r h = slice_last 100 (h ++ [r]).
Proof.
  unfold CO.recordAdaptation. cbv zeta.
  destruct (100 <? List.length (h ++ [r]))%nat eqn:E; [reflexivity|].
  apply Nat.ltb_ge in E. now rewrite slice_last_all.
Qed.

Lemma activateNode_history (s : CO.State) (nodeId : string) :
  CO.adaptationHistory (CO.cognitiveState (CO.activateNode s nodeId))
  = CO.adaptationHistory (CO.cognitiveState s).
Proof.
  unfold CO.activateNode. simpl.
  destruct (map_get nodeId (CO.atomSpace s)); reflexivity.
Qed.

Lemma updateCognitiveState_history (input : option CO.Input) (s : CO.State) :
  CO.adaptationHistory (CO.cognitiveState (CO.updateCognitiveState input s))
  = CO.adaptationHistory (CO.cognitiveState s).
Proof.
  unfold CO.updateCognitiveState. simpl.
  generalize (CO.findRelevantNodes input). intro l. revert s.
  induction l as [|k l IH]; intro s; simpl; [reflexivity|].
  rewrite IH. apply activateNode_history.
Qed.

Lemma processInput_history (e : CO.Env) (input : option CO.Input)
  (s : CO.State) :
  CO.adaptationHistory (CO.cognitiveState (snd (CO.processInput e input s)))
  = if CO.learningEnabled s
    then match recordOf e input s with
         | Some r =>
             CO.recordAdaptation r (CO.adaptationHistory (CO.cognitiveState s))
         | None => CO.adaptationHistory (CO.cognitiveState s)
         end
    else CO.adaptationHistory (CO.cognitiveState s).
Proof.
  unfold CO.processInput, recordOf. cbv zeta.
  destruct (CO.applyCognitiveReasoning e input
              (CO.updateCognitiveState input s));
    cbn [snd].
  - rewrite updateCognitiveState_learningEnabled.
    destruct (CO.learningEnabled s).
    + unfold CO.learnFromInteraction. cbv zeta.
      destruct (CO.adaptationRecord _ _ _ _); cbn [snd].
      * rewrite emit_cognitiveState. unfold CO.updateNodesFromLearning.
        cbv zeta.
        cbn [CO.cognitiveState CO.set_atomSpace CO.set_cognitiveState
             CO.adaptationHistory].
        rewrite updateCognitiveState_history. reflexivity.
      * apply updateCognitiveState_history.
    + cbn [snd]. rewrite emit_cognitiveState.
      apply updateCognitiveState_history.
  - rewrite updateCognitiveState_history.
    destruct (CO.learningEnabled s); reflexivity.
Qed.

Lemma stepLog_history (sl : CO.State * list CO.AdaptationRecord) (o : CO.Op) :
  CO.adaptationHistory (CO.cognitiveState (fst sl)) = slice_last 100 (snd sl) ->
  CO.adaptationHistory (CO.cognitiveState (fst (stepLog sl o)))
  = slice_last 100 (snd (stepLog sl o)).
Proof.
  destruct sl as [s log]. cbn [fst snd]. intro H.
  destruct o; cbn [stepLog fst snd CO.step]; try exact H.
  - rewrite processInput_history.
    destruct (CO.learningEnabled s); [|exact H].
    destruct (recordOf e input s); [|exact H].
    rewrite recordAdaptation_slice, H. apply slice_last_push.
  - reflexivity.
Qed.

(** After any sequence of calls the stored history is the last 100 of the
    records recorded since the last initialisation. *)
Lemma history_is_slice_of_log (now : Z) (ops : list CO.Op) :
  CO.adaptationHistory (CO.cognitiveState (fst (runLog now ops)))
  = slice_last 100 (snd (runLog now ops)).
Proof.
  unfold runLog.
  assert (H : CO.adaptationHistory
                (CO.cognitiveState (fst (CO.new now, @nil CO.AdaptationRecord)))
              = slice_last 100 (snd (CO.new now, @nil CO.AdaptationRecord)))
    by reflexivity.
  revert H. generalize (CO.new now, @nil CO.AdaptationRecord).
  induction ops as [|o ops IH]; intros sl H; simpl; [exact H|].
  apply IH. now apply stepLog_history.
Qed.

Lemma runLog_state (now : Z) (ops : list CO.Op) :
  fst (runLog now ops) = CO.run (CO.new now) ops.
Proof.
  unfold runLog, CO.run.
  generalize (@nil CO.AdaptationRecord). generalize (CO.new now).
  induction ops as [|o ops IH]; intros s log; simpl; [reflexivity|].
  apply IH.
Qed.

(** C8.  Once 101 or more adaptation records have been recorded (by calls of
    [processInput] with learning enabled, since the last initialisation),
    the stored history has exactly 100 entries: the 100 most recent records,
    oldest first, the older ones being dropped. *)
Theorem C8_history_bound (now : Z) (ops : list CO.Op) :
  (101 <= List.length (snd (runLog now ops)))%nat ->
  let history :=
    CO.adaptationHistory (CO.cognitiveState (CO.run (CO.new now) ops)) in
  List.length history = 100%nat
  /\ history = mostRecent 100 (snd (runLog now ops))
  /\ exists older, snd (runLog now ops) = older ++ history.
Proof.
  intro H. cbv zeta. rewrite <- runLog_state, history_is_slice_of_log.
  split; [|split].
  - rewrite slice_last_length. lia.
  - apply slice_last_mostRecent.
  - exists (firstn (List.length (snd (runLog now ops)) - 100)
              (snd (runLog now ops))).
    unfold slice_last. symmetry. apply firstn_skipn.
Qed.

(** 101 calls with "Hi there!" on the seeded state. *)
Lemma C8_history_bound_witness :
  let ops := repeat (CO.OpProcessInput env1 (Some hiThere)) 101 in
  let history :=
    CO.adaptationHistory (CO.cognitiveState (CO.run (CO.new 0) ops)) in
  List.length history = 100%nat
  /\ history = mostRecent 100 (snd (runLog 0 ops))
  /\ exists older, snd (runLog 0 ops) = older ++ history.
Proof.
  apply (C8_history_bound 0
           (repeat (CO.OpProcessInput env1 (Some hiThere)) 101)).
  apply Nat.leb_le. vm_compute. reflexivity.
Defined.

(** *** The utility of emergent behaviors *)

Lemma map_get_app_fresh {V : Type} (k : string) (v : V) (pre l : jsmap V) :
  ~ In k (map_keys pre) -> map_get k (pre ++ (k, v) :: l) = Some v.
Proof.
  induction pre as [|[k' v'] pre IH]; simpl; intro H.
  - now rewrite String.eqb_refl.
  - destruct (String.eqb k k') eqn:E.
    + apply String.eqb_eq in E. subst. exfalso. apply H. now left.
    + apply IH. intro I. apply H. now right.
Qed.

Lemma map_set_app_fresh {V : Type} (k : string) (v w : V) (pre l : jsmap V) :
  ~ In k (map_keys pre) ->
  map_set k w (pre ++ (k, v) :: l) = pre ++ (k, w) :: l.
Proof.
  induction pre as [|[k' v'] pre IH]; simpl; intro H.
  - now rewrite String.eqb_refl.
  - destruct (String.eqb k k') eqn:E.
    + apply String.eqb_eq in E. subst. exfalso. apply H. now left.
    + f_equal. apply IH. intro I. apply H. now right.
Qed.

Lemma map_delete_fresh {V : Type} (k : string) (m : jsmap V) :
  ~ In k (map_keys m) -> map_delete k m = m.
Proof.
  induction m as [|[k' v'] m IH]; simpl; intro H; [reflexivity|].
  destruct (String.eqb k k') eqn:E.
  - apply String.eqb_eq in E. subst. exfalso. apply H. now left.
  - f_equal. apply IH. intro I. apply H. now right.
Qed.

Lemma map_delete_app_fresh {V : Type} (k : string) (v : V) (pre l : jsmap V) :
  ~ In k (map_keys pre) -> ~ In k (map_keys l) ->
  map_delete k (pre ++ (k, v) :: l) = pre ++ l.
Proof.
  induction pre as [|[k' v'] pre IH]; simpl; intros H1 H2.
  - rewrite String.eqb_refl. now apply map_delete_fresh.
  - destruct (String.eqb k k') eqn:E.
    + apply String.eqb_eq in E. subst. exfalso. apply H1. now left.
    + f_equal. apply IH; [|exact H2]. intro I. apply H1. now right.
Qed.

Lemma map_get_fresh {V : Type} (k : string) (m : jsmap V) :
  ~ In k (map_keys m) -> map_get k m = None.
Proof.
  induction m as [|[k' v'] m IH]; simpl; intro H; [reflexivity|].
  destruct (String.eqb k k') eqn:E.
  - apply String.eqb_eq in E. subst. exfalso. apply H. now left.
  - apply IH. intro I. apply H. now right.
Qed.

Lemma withRegistry_self (s : SA.State) :
  withRegistry s (SA.emergentBehaviors s) (SA.events s) = s.
Proof. destruct s. reflexivity. Qed.

(** The visit of an entry that is in the registry under its own id. *)
Lemma evaluateEntry_visit (s : SA.State) (k : string) (b : SA.EmergentBehavior)
  (pre l : jsmap SA.EmergentBehavior) (log : list SA.Event) :
  SA.behavior_id b = k ->
  ~ In k (map_keys pre) -> ~ In k (map_keys l) ->
  SA.evaluateEntry (withRegistry s (pre ++ (k, b) :: l) log) k
  = if Qltb (SA.calculateEmergentUtility b s) 0.3
    then withRegistry s (pre ++ l) (log ++ [SA.emergent_behavior_removed k])
    else withRegistry s
           ((pre ++ [(k, SA.set_utility (SA.calculateEmergentUtility b s) b)])
            ++ l) log.
Proof.
  intros Hb Hpre Hl. unfold SA.evaluateEntry.
  cbn [SA.emergentBehaviors withRegistry].
  rewrite (map_get_app_fresh k b pre l Hpre). cbv zeta.
  change (SA.calculateEmergentUtility b
            (withRegistry s (pre ++ (k, b) :: l) log))
    with (SA.calculateEmergentUtility b s).
  unfold SA.set_emergentBehaviors. cbn [SA.emergentBehaviors].
  rewrite (map_set_app_fresh k b _ pre l Hpre).
  destruct (Qltb (SA.calculateEmergentUtility b s) 0.3).
  - cbn [SA.behavior_id SA.set_utility]. rewrite Hb.
    rewrite (map_delete_app_fresh k _ pre l Hpre Hl). reflexivity.
  - rewrite <- app_assoc. reflexivity.
Qed.

(** A pass over the entries [l] that are still to be visited, [pre] being
    what the visited ones left. *)
Lemma evaluate_entries (s : SA.State) (l pre : jsmap SA.EmergentBehavior)
  (log : list SA.Event) :
  NoDup (map_keys l) ->
  Forall (fun kv => SA.behavior_id (snd kv) = fst kv) l ->
  (forall k, In k (map_keys l) -> ~ In k (map_keys pre)) ->
  fold_left SA.evaluateEntry (map_keys l) (withRegistry s (pre ++ l) log)
  = withRegistry s (pre ++ flat_map (evaluated s) l)
      (log ++ flat_map (removals s) l).
Proof.
  revert pre log.
  induction l as [|[k b] l IH]; intros pre log Hnd Hid Hfresh.
  - simpl. now rewrite !app_nil_r.
  - inversion Hnd as [|k0 l0 Hk Hnd']; subst.
    inversion Hid as [|kv0 l0 Hb Hid']; subst. simpl in Hb.
    assert (Hpre : ~ In k (map_keys pre)) by (apply Hfresh; now left).
    change (map_keys ((k, b) :: l)) with (k :: map_keys l).
    cbn [fold_left].
    rewrite (evaluateEntry_visit s k b pre l log Hb Hpre Hk).
    unfold evaluated at 1, removals at 1.
    cbn [flat_map fst snd]. cbv zeta.
    destruct (Qltb (SA.calculateEmergentUtility b s) 0.3) eqn:E.
    + rewrite IH; [|exact Hnd'|exact Hid'|].
      * simpl. now rewrite <- !app_assoc.
      * intros k' Hk'. apply Hfresh. now right.
    + rewrite IH; [|exact Hnd'|exact Hid'|].
      * simpl. rewrite <- !app_assoc. reflexivity.
      * intros k' Hk' I. unfold map_keys in I. rewrite map_app in I.
        apply in_app_or in I. destruct I as [I|[I|[]]].
        -- apply (Hfresh k'); [now right|exact I].
        -- simpl in I. subst k'. contradiction.
Qed.

(** The registry and the log after a utility-evaluation pass. *)
Lemma evaluateEmergentUtility_result (s : SA.State) :
  registry_ok (SA.emergentBehaviors s) ->
  SA.evaluateEmergentUtility s
  = withRegistry s (flat_map (evaluated s) (SA.emergentBehaviors s))
      (SA.events s ++ flat_map (removals s) (SA.emergentBehaviors s)).
Proof.
  intros [Hnd Hid]. unfold SA.evaluateEmergentUtility.
  rewrite <- (withRegistry_self s) at 2.
  change (SA.emergentBehaviors s) with ([] ++ SA.emergentBehaviors s) at 2.
  rewrite evaluate_entries; auto.
Qed.

Lemma evaluated_keys_fresh (s : SA.State) (k : string)
  (m : jsmap SA.EmergentBehavior) :
  ~ In k (map_keys m) -> map_get k (flat_map (evaluated s) m) = None.
Proof.
  induction m as [|[k' b'] m IH]; simpl; intro H; [reflexivity|].
  assert (Hne : String.eqb k k' = false).
  { apply String.eqb_neq. intro E. apply H. now left. }
  unfold evaluated at 1. cbn [fst snd]. cbv zeta.
  destruct (Qltb _ _); simpl; [|rewrite Hne]; apply IH; intro I; apply H;
    now right.
Qed.

Lemma removals_keys_fresh (s : SA.State) (k : string)
  (m : jsmap SA.EmergentBehavior) :
  ~ In k (map_keys m) -> removalCount k (flat_map (removals s) m) = 0%nat.
Proof.
  unfold removalCount.
  induction m as [|[k' b'] m IH]; simpl; intro H; [reflexivity|].
  assert (Hne : String.eqb k' k = false).
  { apply String.eqb_neq. intro E. apply H. now left. }
  unfold removals at 1. cbn [fst snd].
  destruct (Qltb _ _); simpl; [rewrite Hne|]; apply IH; intro I; apply H;
    now right.
Qed.

Lemma removed_entry (s : SA.State) (k : string) (b : SA.EmergentBehavior)
  (m : jsmap SA.EmergentBehavior) :
  NoDup (map_keys m) ->
  map_get k m = Some b ->
  Qltb (SA.calculateEmergentUtility b s) 0.3 = true ->
  map_get k (flat_map (evaluated s) m) = None
  /\ removalCount k (flat_map (removals s) m) = 1%nat.
Proof.
  induction m as [|[k' b'] m IH]; simpl; intros Hnd Hget Hu; [discriminate|].
  inversion Hnd as [|k0 l0 Hk Hnd']; subst.
  destruct (String.eqb k k') eqn:E.
  - apply String.eqb_eq in E. subst k'. injection Hget as ->.
    unfold evaluated at 1, removals at 1. cbn [fst snd]. cbv zeta.
    rewrite Hu. simpl. split.
    + now apply evaluated_keys_fresh.
    + unfold removalCount. simpl. rewrite String.eqb_refl. simpl.
      f_equal. now apply removals_keys_fresh.
  - destruct (IH Hnd' Hget Hu) as [I1 I2].
    assert (Hne : String.eqb k' k = false).
    { rewrite String.eqb_sym. exact E. }
    unfold evaluated at 1, removals at 1. cbn [fst snd]. cbv zeta.
    destruct (Qltb (SA.calculateEmergentUtility b' s) 0.3); simpl.
    + split; [exact I1|]. unfold removalCount. simpl. rewrite Hne. exact I2.
    + rewrite E. split; [exact I1|exact I2].
Qed.

(** C5, the claim at a concrete state.  The behavior that the detection
    pass registered has its utility set to 0.1, below 0.3; the next
    utility-evaluation pass recomputes the utility from strength, stability,
    novelty and the synergy level (0.7885), keeps the behavior and emits no
    removal event. *)
Lemma C5_forced_utility_counterexample :
  (exists b,
     map_get "emergence_60000_k3x9q2m7p" (SA.emergentBehaviors forcedState)
     = Some b
     /\ SA.utility b < 0.3)
  /\ (exists b,
        map_get "emergence_60000_k3x9q2m7p"
          (SA.emergentBehaviors (SA.evaluateEmergentUtility forcedState))
        = Some b
        /\ SA.utility b == 0.7885)
  /\ removalCount "emergence_60000_k3x9q2m7p"
       (SA.events (SA.evaluateEmergentUtility forcedState)) = 0%nat.
Proof.
  split; [|split].
  - eexists. split; [reflexivity|]. reflexivity.
  - eexists. split; [reflexivity|]. reflexivity.
  - reflexivity.
Qed.

(** C5, amended.  If the utility that the pass recomputes for a behavior of
    the registry, 0.3 strength + 0.3 stability + 0.2 novelty + 0.2 synergy
    level clamped to [0, 1], is below 0.3, then after the
    utility-evaluation pass the behavior is no longer in the registry and
    the pass has emitted exactly one [emergent_behavior_removed] event for
    it. *)
Theorem C5_low_utility_removed (s : SA.State) (k : string)
  (b : SA.EmergentBehavior) :
  registry_ok (SA.emergentBehaviors s) ->
  map_get k (SA.emergentBehaviors s) = Some b ->
  SA.calculateEmergentUtility b s < 0.3 ->
  let s' := SA.evaluateEmergentUtility s in
  map_get k (SA.emergentBehaviors s') = None
  /\ exists emitted,
       SA.events s' = SA.events s ++ emitted
       /\ removalCount k emitted = 1%nat.
Proof.
  intros Hok Hget Hu. cbv zeta.
  rewrite (evaluateEmergentUtility_result s Hok).
  cbn [SA.emergentBehaviors SA.events withRegistry].
  apply Qltb_true in Hu. destruct Hok as [Hnd _].
  destruct (removed_entry s k b _ Hnd Hget Hu) as [H1 H2].
  split; [exact H1|].
  exists (flat_map (removals s) (SA.emergentBehaviors s)). now split.
Qed.

(** The pass at [weakState], where the recomputed utility is 0.18. *)
Lemma C5_low_utility_removed_witness :
  let s' := SA.evaluateEmergentUtility weakState in
  map_get "emergence_2" (SA.emergentBehaviors s') = None
  /\ exists emitted,
       SA.events s' = SA.events weakState ++ emitted
       /\ removalCount "emergence_2" emitted = 1%nat.
Proof.
  apply (C5_low_utility_removed weakState "emergence_2" weakBehavior).
  - split.
    + constructor; [simpl; tauto|constructor].
    + constructor; [reflexivity|constructor].
  - reflexivity.
  - vm_compute. reflexivity.
Defined.

(** *** Ranges of the values of the reasoning engine *)

Lemma clamp_unit (x : Q) : unit_range (Qmax 0 (Qmin 1 x)).
Proof.
  split; [apply Q.le_max_l|].
  apply Q.max_lub; [lra|apply Q.le_min_l].
Qed.

Lemma cap_unit (x : Q) : 0 <= x -> unit_range (Qmin 1.0 x).
Proof.
  intro H. split.
  - apply Q.min_glb; [lra|exact H].
  - apply Qle_trans with 1.0; [apply Q.le_min_l|lra].
Qed.

Lemma Qnat_S (n : nat) : Qnat (S n) == Qnat n + 1.
Proof.
  unfold Qnat. rewrite Nat2Z.inj_succ. unfold Z.succ.
  rewrite inject_Z_plus. reflexivity.
Qed.

Lemma Qnat_pos (n : nat) : (0 <? n)%nat = true -> 0 < Qnat n.
Proof.
  intro H. apply Nat.ltb_lt in H. unfold Qnat.
  change 0 with (inject_Z 0). rewrite <- Zlt_Qlt. lia.
Qed.

Lemma mean_unit (a : Q) (n : nat) :
  0 <= a -> a <= Qnat n -> (0 <? n)%nat = true -> unit_range (a / Qnat n).
Proof.
  intros H0 H1 Hn. pose proof (Qnat_pos n Hn) as Hp. split.
  - apply Qle_shift_div_l; [exact Hp|]. lra.
  - apply Qle_shift_div_r; [exact Hp|]. lra.
Qed.

Lemma product_unit (a b : Q) : unit_range a -> unit_range b -> unit_range (a * b).
Proof. intros [A0 A1] [B0 B1]. split; nra. Qed.

(** The sum and the count that a [forEach] with a guard accumulates: the sum
    of values of the unit interval is between [0] and the count. *)
Lemma guarded_sum_bounds {A : Type} (cond : A -> bool) (val : A -> Q)
  (l : list A) (acc0 : Q * nat) :
  (forall x, In x l -> unit_range (val x)) ->
  0 <= fst acc0 -> fst acc0 <= Qnat (snd acc0) ->
  let acc :=
    fold_left
      (fun (acc : Q * nat) (x : A) =>
         if cond x then (fst acc + val x, S (snd acc)) else acc)
      l acc0 in
  0 <= fst acc /\ fst acc <= Qnat (snd acc).
Proof.
  revert acc0. induction l as [|x l IH]; intros acc0 Hv H0 H1; simpl.
  - now split.
  - apply IH.
    + intros y Hy. apply Hv. now right.
    + destruct (cond x); [|exact H0]. simpl.
      destruct (Hv x (or_introl eq_refl)). lra.
    + destruct (cond x); [|exact H1]. simpl. rewrite Qnat_S.
      destruct (Hv x (or_introl eq_refl)). lra.
Qed.

Lemma node_product_unit (n : CO.CognitiveNode) :
  node_ok n ->
  unit_range (CO.strength (CO.truthValue n) * CO.confidence (CO.truthValue n)).
Proof. intros [[Hs Hc] _]. now apply product_unit. Qed.

Lemma activation_unit (cs : CO.CognitiveState) (p : CO.CognitivePattern) :
  pattern_ok p -> unit_range (CO.calculatePatternActivation cs p).
Proof.
  intros [Hn _]. unfold CO.calculatePatternActivation. cbv zeta.
  destruct (0 <? snd (CO.activationSum (CO.activeNodes cs) (CO.nodes p)))%nat
    eqn:E.
  - assert (B : 0 <= fst (CO.activationSum (CO.activeNodes cs) (CO.nodes p))
                /\ fst (CO.activationSum (CO.activeNodes cs) (CO.nodes p))
                   <= Qnat (snd (CO.activationSum (CO.activeNodes cs)
                                   (CO.nodes p)))).
    { unfold CO.activationSum.
      apply (guarded_sum_bounds
               (fun node => set_has (CO.node_id node) (CO.activeNodes cs))
               (fun node => CO.strength (CO.truthValue node)
                            * CO.confidence (CO.truthValue node))).
      - intros x Hx. apply node_product_unit.
        rewrite Forall_forall in Hn. now apply Hn.
      - apply Qle_refl.
      - apply Qle_refl. }
    destruct B. now apply mean_unit.
  - split; lra.
Qed.

Lemma synergy_unit (cs : CO.CognitiveState) (ps : list CO.CognitivePattern) :
  Forall pattern_ok ps ->
  unit_range
    (if (0 <? snd (CO.synergySum cs ps))%nat
     then fst (CO.synergySum cs ps) / Qnat (snd (CO.synergySum cs ps))
     else 0.5).
Proof.
  intro Hp. destruct (0 <? snd (CO.synergySum cs ps))%nat eqn:E.
  - assert (B : 0 <= fst (CO.synergySum cs ps)
                /\ fst (CO.synergySum cs ps)
                   <= Qnat (snd (CO.synergySum cs ps))).
    { unfold CO.synergySum.
      apply (guarded_sum_bounds
               (fun pattern =>
                  Qgtb (CO.calculatePatternActivation cs pattern)
                    (CO.activationThreshold pattern))
               (fun pattern =>
                  CO.synergyScore pattern
                  * CO.calculatePatternActivation cs pattern)).
      - intros x Hx. rewrite Forall_forall in Hp.
        apply product_unit.
        + now destruct (Hp x Hx) as [_ [_ H]].
        + apply activation_unit. now apply Hp.
      - apply Qle_refl.
      - apply Qle_refl. }
    destruct B. now apply mean_unit.
  - split; lra.
Qed.

Lemma map_get_In {V : Type} (k : string) (v : V) (m : jsmap V) :
  map_get k m = Some v -> In v (map_values m).
Proof.
  induction m as [|[k' v'] m IH]; simpl; [discriminate|].
  destruct (String.eqb k k').
  - intro H. injection H as ->. now left.
  - intro H. right. now apply IH.
Qed.

Lemma Forall_map_set {V : Type} (P : V -> Prop) (k : string) (v : V)
  (m : jsmap V) :
  P v -> Forall P (map_values m) -> Forall P (map_values (map_set k v m)).
Proof.
  intros Hv. induction m as [|[k' v'] m IH]; simpl; intro H.
  - constructor; [exact Hv|constructor].
  - inversion H as [|x l Hx Hl]; subst.
    destruct (String.eqb k k'); simpl; constructor; auto.
Qed.

Lemma Forall_map_delete {V : Type} (P : V -> Prop) (k : string) (m : jsmap V) :
  Forall P (map_values m) -> Forall P (map_values (map_delete k m)).
Proof.
  induction m as [|[k' v'] m IH]; simpl; intro H; [constructor|].
  inversion H as [|x l Hx Hl]; subst.
  destruct (String.eqb k k'); simpl; [|constructor]; auto.
Qed.

Lemma Forall_skipn {A : Type} (P : A -> Prop) (n : nat) (l : list A) :
  Forall P l -> Forall P (skipn n l).
Proof.
  revert l. induction n as [|n IH]; intros l H; simpl; [exact H|].
  destruct l as [|x l]; [constructor|].
  inversion H; subst. now apply IH.
Qed.

Lemma intent_confidence_unit (e : CO.Env) (input : option CO.Input)
  (s : CO.State) (i : CO.IntentReasoning) :
  Forall pattern_ok (map_values (CO.patternMatchers s)) ->
  CO.reasonAboutIntent e input s = Some i ->
  unit_range (CO.intent_confidence i).
Proof.
  intro Hp. unfold CO.reasonAboutIntent.
  destruct (map_get "intent_recognition" (CO.patternMatchers s)) as [p|] eqn:E.
  2:{ intro H. injection H as <-. simpl. split; lra. }
  assert (Ha : unit_range (CO.calculatePatternActivation (CO.cognitiveState s) p)).
  { apply activation_unit. rewrite Forall_forall in Hp. apply Hp.
    now apply map_get_In with "intent_recognition". }
  cbv zeta.
  destruct (CO.input_text input) as [[|ch t]|[|]];
    try (intro H; injection H as <-; exact Ha); try discriminate.
  destruct (_ || _);
    [intro H; injection H as <-; simpl; apply cap_unit; destruct Ha; lra|].
  destruct (_ || _);
    [intro H; injection H as <-; simpl; apply cap_unit; destruct Ha; lra|].
  destruct (_ || _);
    [intro H; injection H as <-; simpl; apply cap_unit; destruct Ha; lra|].
  intro H. injection H as <-. exact Ha.
Qed.

Lemma context_confidence_unit (input : option CO.Input) (s : CO.State) :
  Forall pattern_ok (map_values (CO.patternMatchers s)) ->
  unit_range (CO.context_confidence (CO.reasonAboutContext input s)).
Proof.
  intro Hp. unfold CO.reasonAboutContext.
  destruct (map_get "dialog_management" (CO.patternMatchers s)) as [p|] eqn:E;
    [|simpl; split; lra].
  simpl. apply activation_unit. rewrite Forall_forall in Hp. apply Hp.
  now apply map_get_In with "dialog_management".
Qed.

Lemma action_confidence_unit (input : option CO.Input) (s : CO.State) :
  Forall pattern_ok (map_values (CO.patternMatchers s)) ->
  unit_range (CO.action_confidence (CO.reasonAboutAction input s)).
Proof.
  intro Hp. unfold CO.reasonAboutAction.
  destruct (map_get "response_generation" (CO.patternMatchers s)) as [p|] eqn:E;
    [|simpl; split; lra].
  simpl. apply activation_unit. rewrite Forall_forall in Hp. apply Hp.
  now apply map_get_In with "response_generation".
Qed.

Lemma reasoning_confidence_unit (e : CO.Env) (input : option CO.Input)
  (s : CO.State) (r : CO.Reasoning) :
  Forall pattern_ok (map_values (CO.patternMatchers s)) ->
  CO.applyCognitiveReasoning e input s = Some r ->
  unit_range (CO.r_confidence r).
Proof.
  intro Hp. unfold CO.applyCognitiveReasoning.
  destruct (CO.reasonAboutIntent e input s) as [i|] eqn:E; [|discriminate].
  cbv zeta. intro H. injection H as <-. cbn [CO.r_confidence].
  destruct (intent_confidence_unit e input s i Hp E).
  destruct (context_confidence_unit input s Hp).
  destruct (action_confidence_unit input s Hp).
  split.
  - apply Qle_shift_div_l; lra.
  - apply Qle_shift_div_r; lra.
Qed.

Lemma keeps_refl (s : CO.State) : keeps s s.
Proof. unfold keeps. tauto. Qed.

Lemma keeps_trans (s1 s2 s3 : CO.State) :
  keeps s1 s2 -> keeps s2 s3 -> keeps s1 s3.
Proof.
  unfold keeps.
  intros (A1 & A2 & A3 & A4 & A5 & A6 & A7) (B1 & B2 & B3 & B4 & B5 & B6 & B7).
  repeat split; try congruence. auto.
Qed.

Lemma keeps_in_range (s s' : CO.State) : keeps s s' -> in_range s -> in_range s'.
Proof.
  unfold keeps, in_range, cognitiveState_ok.
  intros (A1 & A2 & A3 & A4 & A5 & A6 & A7) ((C1 & C2 & C3 & C4) & Ha & Hp & He).
  rewrite A1, A2, A3, A4, A5, A6. auto.
Qed.

Lemma bump_ok (n : CO.CognitiveNode) :
  node_ok n ->
  node_ok
    (CO.set_shortTermImportance
       (Qmin 1.0 (CO.shortTermImportance (CO.attentionValue n) + 0.1)) n).
Proof.
  intros (Ht & (H1 & H2 & H3) & Hr).
  split; [exact Ht|]. split; [|exact Hr]. simpl.
  split; [|split; assumption].
  apply cap_unit. destruct H1. lra.
Qed.

Lemma activateNode_keeps (s : CO.State) (nodeId : string) :
  keeps s (CO.activateNode s nodeId).
Proof.
  unfold keeps, CO.activateNode. simpl.
  destruct (map_get nodeId (CO.atomSpace s)) as [n|] eqn:E; simpl;
    repeat split; auto.
  intro H. apply Forall_map_set; [|exact H].
  apply bump_ok. rewrite Forall_forall in H. apply H.
  now apply map_get_In with nodeId.
Qed.

Lemma activate_all_keeps (l : list string) (s : CO.State) :
  keeps s (fold_left CO.activateNode l s).
Proof.
  revert s. induction l as [|k l IH]; intro s; simpl.
  - apply keeps_refl.
  - apply keeps_trans with (CO.activateNode s k);
      [apply activateNode_keeps|apply IH].
Qed.

Lemma updateAttentionalFocus_keeps (s : CO.State) :
  keeps s (CO.updateAttentionalFocus s).
Proof. unfold keeps. simpl. tauto. Qed.

Lemma calculateSynergyLevel_in_range (s : CO.State) :
  in_range s -> in_range (CO.calculateSynergyLevel s).
Proof.
  intros ((C1 & C2 & C3 & C4) & Ha & Hp & He).
  unfold in_range, cognitiveState_ok. simpl.
  repeat split; try assumption; try tauto;
    now apply (synergy_unit (CO.cognitiveState s)).
Qed.

Lemma updateCognitiveState_in_range (input : option CO.Input) (s : CO.State) :
  in_range s -> in_range (CO.updateCognitiveState input s).
Proof.
  intro H. unfold CO.updateCognitiveState. cbv zeta.
  apply calculateSynergyLevel_in_range.
  apply keeps_in_range with (fold_left CO.activateNode
                               (CO.findRelevantNodes input) s).
  - apply updateAttentionalFocus_keeps.
  - apply keeps_in_range with s; [apply activate_all_keeps|exact H].
Qed.

Lemma adjustLearningRate_range (eff lr : Q) :
  0.05 <= lr /\ lr <= 0.2 ->
  0.05 <= CO.adjustLearningRate eff lr /\ CO.adjustLearningRate eff lr <= 0.2.
Proof.
  intros [L U]. unfold CO.adjustLearningRate.
  destruct (Qgtb eff 0.8).
  - split.
    + apply Q.min_glb; lra.
    + apply Q.le_min_l.
  - destruct (Qltb eff 0.4); [|now split]. split.
    + apply Q.le_max_l.
    + apply Q.max_lub; lra.
Qed.

Lemma recordAdaptation_ok (r : CO.AdaptationRecord)
  (h : list CO.AdaptationRecord) :
  unit_range (CO.effectiveness r) ->
  Forall (fun r => unit_range (CO.effectiveness r)) h ->
  Forall (fun r => unit_range (CO.effectiveness r)) (CO.recordAdaptation r h).
Proof.
  intros Hr Hh. rewrite recordAdaptation_slice. unfold slice_last.
  apply Forall_skipn. apply Forall_app. split; [exact Hh|].
  constructor; [exact Hr|constructor].
Qed.

Lemma learnNode_ok (eff adj : Q) (n : CO.CognitiveNode) :
  node_ok n -> node_ok (CO.learnNode eff adj n).
Proof.
  intros (Ht & (H1 & H2 & H3) & Hr).
  split; [|split; [|exact Hr]]; simpl.
  - split; apply clamp_unit.
  - split; [exact H1|]. split; [|exact H3].
    destruct (Qgtb eff 0.7); [|exact H2].
    apply cap_unit. destruct H2. lra.
Qed.

Lemma learn_nodes_ok (f : CO.CognitiveNode -> CO.CognitiveNode)
  (l : list string) (a : jsmap CO.CognitiveNode) :
  (forall n, node_ok n -> node_ok (f n)) ->
  Forall node_ok (map_values a) ->
  Forall node_ok
    (map_values
       (fold_left
          (fun (a : jsmap CO.CognitiveNode) (nodeId : string) =>
             match map_get nodeId a with
             | Some node => map_set nodeId (f node) a
             | None => a
             end) l a)).
Proof.
  intro Hf. revert a. induction l as [|k l IH]; intros a H; simpl; [exact H|].
  apply IH. destruct (map_get k a) as [n|] eqn:E; [|exact H].
  apply Forall_map_set; [|exact H]. apply Hf.
  rewrite Forall_forall in H. apply H. now apply map_get_In with k.
Qed.

Lemma calculateEffectiveness_unit (response : CO.Response) (t : Z)
  (s : CO.State) :
  unit_range (CO.calculateEffectiveness response t s).
Proof. unfold CO.calculateEffectiveness. cbv zeta. apply clamp_unit. Qed.

Lemma adaptationRecord_effectiveness (now : Z) (input : option CO.Input)
  (response : CO.Response) (eff : Q) (r : CO.AdaptationRecord) :
  CO.adaptationRecord now input response eff = Some r ->
  CO.effectiveness r = eff.
Proof.
  unfold CO.adaptationRecord. destruct (CO.typeText input); [|discriminate].
  intro H. injection H as <-. reflexivity.
Qed.

Lemma learnFromInteraction_in_range (now : Z) (input : option CO.Input)
  (response : CO.Response) (t : Z) (s s' : CO.State) :
  in_range s ->
  CO.learnFromInteraction now input response t s = Some s' -> in_range s'.
Proof.
  intros ((C1 & C2 & C3 & C4) & Ha & Hp & He).
  unfold CO.learnFromInteraction. cbv zeta.
  destruct (CO.adaptationRecord _ _ _ _) as [adaptation|] eqn:R;
    [|discriminate].
  apply adaptationRecord_effectiveness in R.
  intro E. injection E as <-.
  unfold CO.updateNodesFromLearning. cbv zeta.
  unfold in_range, cognitiveState_ok.
  cbn [CO.cognitiveState CO.atomSpace CO.patternMatchers CO.events
       CO.set_atomSpace CO.set_cognitiveState CO.synergyLevel CO.learningRate
       CO.emergentPatterns CO.adaptationHistory CO.activeNodes].
  split; [split; [exact C1|split; [|split; [exact C3|]]]|].
  - now apply adjustLearningRate_range.
  - apply recordAdaptation_ok; [|exact C4].
    rewrite R. apply calculateEffectiveness_unit.
  - split; [|split; assumption].
    apply learn_nodes_ok; [|exact Ha]. intro n. apply learnNode_ok.
Qed.

Lemma response_in_range (e : CO.Env) (input : option CO.Input)
  (s s' : CO.State) (reasoning : CO.Reasoning) :
  in_range s -> in_range s' ->
  CO.applyCognitiveReasoning e input s = Some reasoning ->
  response_ok
    (CO.liveResponse s' (CO.generateSynergyResponse (CO.random e) reasoning s)).
Proof.
  intros (Hc & Ha & Hp & He) (Hc' & _) E. unfold response_ok. simpl.
  split; [|split; [|exact Hc']].
  - now apply (reasoning_confidence_unit e input s).
  - now destruct Hc.
Qed.

Lemma emit_in_range (ev : CO.Event) (s : CO.State) :
  event_ok ev -> in_range s -> in_range (CO.emit ev s).
Proof.
  intros Hev (Hc & Ha & Hp & He). unfold in_range. simpl.
  repeat split; try assumption; try apply Hc.
  apply Forall_app. split; [exact He|]. constructor; [exact Hev|constructor].
Qed.

Lemma processInput_in_range (e : CO.Env) (input : option CO.Input)
  (s : CO.State) :
  in_range s -> in_range (snd (CO.processInput e input s)).
Proof.
  intro H. pose proof (updateCognitiveState_in_range input s H) as H1.
  unfold CO.processInput. cbv zeta.
  set (s1 := CO.updateCognitiveState input s) in *.
  destruct (CO.applyCognitiveReasoning e input s1) as [reasoning|] eqn:E;
    cbn [snd]; [|exact H1].
  set (response := CO.generateSynergyResponse (CO.random e) reasoning s1).
  destruct (if CO.learningEnabled s1
            then CO.learnFromInteraction (CO.recordTime e) input response
                   (CO.learnTime e - CO.startTime e) s1
            else Some s1) as [s2|] eqn:L; cbn [snd]; [|exact H1].
  assert (H2 : in_range s2).
  { destruct (CO.learningEnabled s1).
    - now apply (learnFromInteraction_in_range _ _ _ _ s1 s2 H1 L).
    - injection L as <-. exact H1. }
  apply emit_in_range; [|exact H2].
  simpl. split; [|now destruct H2].
  now apply (response_in_range e input s1 s2 reasoning).
Qed.

Ltac range_facts :=
  repeat match goal with
         | |- _ /\ _ => split
         | |- Forall _ _ => constructor
         | |- True => exact I
         | |- unit_range _ => unfold unit_range
         | |- truth_ok _ => unfold truth_ok
         | |- attention_ok _ => unfold attention_ok
         | |- link_ok _ => unfold link_ok
         | |- node_ok _ => unfold node_ok
         | |- pattern_ok _ => unfold pattern_ok
         | |- _ <= _ => simpl; lra
         end.

Lemma seed_patterns_ok (now : Z) :
  Forall pattern_ok (map_values (CO.initializeBasicPatterns now)).
Proof. simpl. range_facts. Qed.

Lemma initialCognitiveState_ok : cognitiveState_ok CO.initialCognitiveState.
Proof. unfold cognitiveState_ok. simpl. range_facts. Qed.

Lemma new_in_range (now : Z) : in_range (CO.new now).
Proof.
  unfold in_range. split; [apply initialCognitiveState_ok|].
  split; [constructor|]. split; [apply seed_patterns_ok|constructor].
Qed.

Lemma reset_in_range (now : Z) (s : CO.State) :
  in_range s -> in_range (CO.reset now s).
Proof.
  intros (Hc & Ha & Hp & He). unfold CO.reset.
  apply emit_in_range; [exact I|].
  unfold in_range. split; [apply initialCognitiveState_ok|].
  split; [constructor|]. split; [apply seed_patterns_ok|exact He].
Qed.

Lemma step_in_range (s : CO.State) (o : CO.Op) :
  op_ok o -> in_range s -> in_range (CO.step s o).
Proof.
  intros Ho H. destruct o; cbn [CO.step]; try exact H.
  - now apply processInput_in_range.
  - apply emit_in_range; [exact I|exact H].
  - apply emit_in_range; [exact I|exact H].
  - unfold CO.addCognitivePattern. apply emit_in_range; [exact I|].
    destruct H as (Hc & Ha & Hp & He). unfold in_range. simpl.
    repeat split; try assumption; try apply Hc.
    now apply Forall_map_set.
  - unfold CO.removeCognitivePattern. apply emit_in_range; [exact I|].
    destruct H as (Hc & Ha & Hp & He). unfold in_range. simpl.
    repeat split; try assumption; try apply Hc.
    now apply Forall_map_delete.
  - now apply reset_in_range.
Qed.

(** C7, the claim at a concrete sequence of calls.  After
    [addCognitivePattern] of a pattern whose node has strength 3 and one
    call of [processInput], the orchestrator holds a truth-value strength
    above 1 and its synergy level is above 1. *)
Lemma C7_out_of_range_counterexample :
  let s :=
    CO.run (CO.new 0)
      [CO.OpAddCognitivePattern boostPattern;
       CO.OpProcessInput env1 (Some hiThere)] in
  1 < CO.synergyLevel (CO.cognitiveState s)
  /\ (exists p n,
        map_get "boost" (CO.patternMatchers s) = Some p
        /\ In n (CO.nodes p)
        /\ 1 < CO.strength (CO.truthValue n))
  /\ ~ in_range s.
Proof.
  cbv zeta.
  assert (H : 1 < CO.synergyLevel
                    (CO.cognitiveState
                       (CO.run (CO.new 0)
                          [CO.OpAddCognitivePattern boostPattern;
                           CO.OpProcessInput env1 (Some hiThere)])))
    by (vm_compute; reflexivity).
  split; [exact H|]. split.
  - eexists. eexists. split; [reflexivity|].
    split; [left; reflexivity|]. reflexivity.
  - intros (((_ & U) & _) & _). apply (Qlt_not_le _ _ H U).
Qed.

(** C7, amended.  After any sequence of calls of the public methods in which
    every pattern passed to [addCognitivePattern] has its truth, attention
    and synergy values in [0, 1], every truth-value strength and confidence,
    every attention value, every response confidence and the synergy level
    held by the orchestrator lie in [0, 1], and the learning rate lies in
    [0.05, 0.2]. *)
Theorem C7_values_stay_in_range (now : Z) (ops : list CO.Op) :
  Forall op_ok ops -> in_range (CO.run (CO.new now) ops).
Proof.
  unfold CO.run. pose proof (new_in_range now) as H. revert H.
  generalize (CO.new now).
  induction ops as [|o ops IH]; intros s H Hok; simpl; [exact H|].
  inversion Hok as [|x l Ho Hl]; subst.
  apply IH; [|exact Hl]. now apply step_in_range.
Qed.

(** A sequence with a pattern in range, a returning call, a throwing call
    and a reset. *)
Lemma C7_values_stay_in_range_witness :
  in_range
    (CO.run (CO.new 0)
       [CO.OpAddCognitivePattern testPattern;
        CO.OpProcessInput env1 (Some hiThere);
        CO.OpSetLearningEnabled false;
        CO.OpRemoveCognitivePattern "dialog_management";
        CO.OpProcessInput env1 None;
        CO.OpProcessInput env1 (Some numberText);
        CO.OpReset 7]).
Proof.
  apply (C7_values_stay_in_range 0).
  repeat constructor; simpl; lra.
Defined.

(** ** Further properties of the cognitive orchestrator *)

(** *** Lookup after [set] and [delete] *)

Lemma map_get_set {V : Type} (k k' : string) (v : V) (m : jsmap V) :
  map_get k' (map_set k v m) = if String.eqb k' k then Some v else map_get k' m.
Proof.
  induction m as [|[k0 v0] m IH]; simpl.
  - destruct (String.eqb k' k); reflexivity.
  - destruct (String.eqb k k0) eqn:E; simpl.
    + apply String.eqb_eq in E. subst k0.
      destruct (String.eqb k' k); reflexivity.
    + destruct (String.eqb k' k0) eqn:E0.
      * apply String.eqb_eq in E0. subst k0.
        rewrite String.eqb_sym in E. now rewrite E.
      * exact IH.
Qed.

Lemma map_get_delete {V : Type} (k k' : string) (m : jsmap V) :
  map_get k' (map_delete k m) = if String.eqb k' k then None else map_get k' m.
Proof.
  induction m as [|[k0 v0] m IH]; simpl.
  - destruct (String.eqb k' k); reflexivity.
  - destruct (String.eqb k k0) eqn:E; simpl.
    + apply String.eqb_eq in E. subst k0. rewrite IH.
      destruct (String.eqb k' k); reflexivity.
    + destruct (String.eqb k' k0) eqn:E0.
      * apply String.eqb_eq in E0. subst k0.
        rewrite String.eqb_sym in E. now rewrite E.
      * exact IH.
Qed.

Lemma map_get_None_keys {V : Type} (k : string) (m : jsmap V) :
  map_get k m = None <-> ~ In k (map_keys m).
Proof.
  split; [|apply map_get_fresh].
  induction m as [|[k0 v0] m IH]; simpl; intros H I; [exact I|].
  destruct (String.eqb k k0) eqn:E; [discriminate|].
  destruct I as [I|I].
  - subst k0. now rewrite String.eqb_refl in E.
  - now apply IH.
Qed.

Lemma map_set_length {V : Type} (k : string) (v : V) (m : jsmap V) :
  List.length (map_set k v m)
  = if map_has k m then List.length m else S (List.length m).
Proof.
  unfold map_has. induction m as [|[k0 v0] m IH]; simpl; [reflexivity|].
  destruct (String.eqb k k0); simpl; [reflexivity|].
  rewrite IH. destruct (map_get k m); reflexivity.
Qed.

Lemma map_set_keys_NoDup {V : Type} (k : string) (v : V) (m : jsmap V) :
  NoDup (map_keys m) -> NoDup (map_keys (map_set k v m)).
Proof.
  induction m as [|[k0 v0] m IH]; simpl; intro H.
  - constructor; [intros []|constructor].
  - inversion H as [|x l Hx Hl]; subst.
    destruct (String.eqb k k0) eqn:E; simpl.
    + apply String.eqb_eq in E. subst k0. now constructor.
    + constructor; [|now apply IH].
      apply map_get_None_keys. rewrite map_get_set.
      rewrite String.eqb_sym in E. rewrite E.
      now apply map_get_None_keys.
Qed.

Lemma map_delete_keys_NoDup {V : Type} (k : string) (m : jsmap V) :
  NoDup (map_keys m) -> NoDup (map_keys (map_delete k m)).
Proof.
  induction m as [|[k0 v0] m IH]; simpl; intro H; [constructor|].
  inversion H as [|x l Hx Hl]; subst.
  destruct (String.eqb k k0) eqn:E; simpl; [now apply IH|].
  constructor; [|now apply IH].
  apply map_get_None_keys. rewrite map_get_delete.
  destruct (String.eqb k0 k); [reflexivity|]. now apply map_get_None_keys.
Qed.

(** *** The pattern library *)

(** X1.  [addCognitivePattern] is an upsert by id and
    [removeCognitivePattern] a delete by id: after the one, a lookup finds
    the pattern under its id and every other id as before, and the library
    grows by one entry only if the id was new; after the other, the id is
    absent and every other id as before.  Each of them emits its event,
    also when the library is left as it was. *)
Theorem pattern_library_lookup (s : CO.State) (p : CO.CognitivePattern)
  (k k' : string) :
  map_get k' (CO.patternMatchers (CO.addCognitivePattern p s))
  = (if String.eqb k' (CO.pattern_id p) then Some p
     else map_get k' (CO.patternMatchers s))
  /\ List.length (CO.patternMatchers (CO.addCognitivePattern p s))
     = (if map_has (CO.pattern_id p) (CO.patternMatchers s)
        then List.length (CO.patternMatchers s)
        else S (List.length (CO.patternMatchers s)))
  /\ map_get k' (CO.patternMatchers (CO.removeCognitivePattern k s))
     = (if String.eqb k' k then None else map_get k' (CO.patternMatchers s))
  /\ (if map_has k (CO.patternMatchers s) then True
      else CO.patternMatchers (CO.removeCognitivePattern k s)
           = CO.patternMatchers s)
  /\ CO.events (CO.addCognitivePattern p s)
     = CO.events s ++ [CO.pattern_added (CO.pattern_id p)]
  /\ CO.events (CO.removeCognitivePattern k s)
     = CO.events s ++ [CO.pattern_removed k].
Proof.
  split; [apply map_get_set|]. split; [apply map_set_length|].
  split; [apply map_get_delete|]. split; [|split; reflexivity].
  unfold map_has. destruct (map_get k (CO.patternMatchers s)) eqn:E;
    [exact I|].
  simpl. apply map_delete_fresh. now apply map_get_None_keys.
Qed.

(** *** The learning rate *)

Lemma adjustLearningRate_step (eff lr : Q) :
  0.05 <= lr -> lr <= 0.2 ->
  lr - 0.01 <= CO.adjustLearningRate eff lr
  /\ CO.adjustLearningRate eff lr <= lr + 0.01.
Proof.
  intros L U. unfold CO.adjustLearningRate.
  destruct (Qgtb eff 0.8).
  - split.
    + apply Q.min_glb; lra.
    + apply Q.le_min_r.
  - destruct (Qltb eff 0.4); [|split; lra]. split.
    + apply Q.le_max_r.
    + apply Q.max_lub; lra.
Qed.

Lemma updateCognitiveState_learningRate (input : option CO.Input)
  (s : CO.State) :
  CO.learningRate (CO.cognitiveState (CO.updateCognitiveState input s))
  = CO.learningRate (CO.cognitiveState s).
Proof.
  unfold CO.updateCognitiveState. cbv zeta.
  destruct (activate_all_keeps (CO.findRelevantNodes input) s)
    as (_ & _ & _ & H & _).
  simpl. exact H.
Qed.

Lemma processInput_learningRate (e : CO.Env) (input : option CO.Input)
  (s : CO.State) :
  CO.learningRate (CO.cognitiveState (snd (CO.processInput e input s)))
  = CO.learningRate (CO.cognitiveState s)
  \/ exists eff,
       CO.learningEnabled s = true
       /\ CO.learningRate (CO.cognitiveState (snd (CO.processInput e input s)))
          = CO.adjustLearningRate eff (CO.learningRate (CO.cognitiveState s)).
Proof.
  unfold CO.processInput. cbv zeta.
  destruct (CO.applyCognitiveReasoning e input
              (CO.updateCognitiveState input s));
    cbn [snd]; [|left; apply updateCognitiveState_learningRate].
  rewrite updateCognitiveState_learningEnabled.
  destruct (CO.learningEnabled s);
    [|left; apply updateCognitiveState_learningRate].
  unfold CO.learnFromInteraction. cbv zeta.
  destruct (CO.adaptationRecord _ _ _ _); cbn [snd];
    [|left; apply updateCognitiveState_learningRate].
  right. eexists. split; [reflexivity|].
  rewrite emit_cognitiveState. unfold CO.updateNodesFromLearning. cbv zeta.
  cbn [CO.cognitiveState CO.set_atomSpace CO.set_cognitiveState
       CO.learningRate].
  rewrite updateCognitiveState_learningRate. reflexivity.
Qed.

(** X2.  One call of [processInput] moves the learning rate by at most 0.01
    and keeps it within [0.05, 0.2], if it was there; with learning
    disabled the call leaves the learning rate and the adaptation history
    as they were. *)
Theorem learning_rate_step (e : CO.Env) (input : option CO.Input)
  (s : CO.State) :
  0.05 <= CO.learningRate (CO.cognitiveState s) ->
  CO.learningRate (CO.cognitiveState s) <= 0.2 ->
  let s' := snd (CO.processInput e input s) in
  CO.learningRate (CO.cognitiveState s) - 0.01
  <= CO.learningRate (CO.cognitiveState s')
  /\ CO.learningRate (CO.cognitiveState s')
     <= CO.learningRate (CO.cognitiveState s) + 0.01
  /\ 0.05 <= CO.learningRate (CO.cognitiveState s')
  /\ CO.learningRate (CO.cognitiveState s') <= 0.2
  /\ (if CO.learningEnabled s then True
      else CO.learningRate (CO.cognitiveState s')
           = CO.learningRate (CO.cognitiveState s)
           /\ CO.adaptationHistory (CO.cognitiveState s')
              = CO.adaptationHistory (CO.cognitiveState s)).
Proof.
  intros L U. cbv zeta.
  assert (T : if CO.learningEnabled s then True
              else CO.learningRate
                     (CO.cognitiveState (snd (CO.processInput e input s)))
                   = CO.learningRate (CO.cognitiveState s)
                   /\ CO.adaptationHistory
                        (CO.cognitiveState (snd (CO.processInput e input s)))
                      = CO.adaptationHistory (CO.cognitiveState s)).
  { destruct (CO.learningEnabled s) eqn:E; [exact I|]. split.
    - destruct (processInput_learningRate e input s) as [H|(eff & H & _)];
        [exact H|congruence].
    - rewrite processInput_history, E. reflexivity. }
  destruct (processInput_learningRate e input s) as [H|(eff & _ & H)].
  - split; [rewrite H; lra|]. split; [rewrite H; lra|].
    split; [rewrite H; lra|]. split; [rewrite H; lra|exact T].
  - destruct (adjustLearningRate_step eff _ L U).
    destruct (adjustLearningRate_range eff _ (conj L U)).
    split; [now rewrite H|]. split; [now rewrite H|].
    split; [now rewrite H|]. split; [now rewrite H|exact T].
Qed.

(** The call with "Hi there!" on the seeded state, where the rate is 0.1. *)
Lemma learning_rate_step_witness :
  let s := CO.new 0 in
  let s' := snd (CO.processInput env1 (Some hiThere) s) in
  CO.learningRate (CO.cognitiveState s) - 0.01
  <= CO.learningRate (CO.cognitiveState s')
  /\ CO.learningRate (CO.cognitiveState s')
     <= CO.learningRate (CO.cognitiveState s) + 0.01
  /\ 0.05 <= CO.learningRate (CO.cognitiveState s')
  /\ CO.learningRate (CO.cognitiveState s') <= 0.2
  /\ (if CO.learningEnabled s then True
      else CO.learningRate (CO.cognitiveState s')
           = CO.learningRate (CO.cognitiveState s)
           /\ CO.adaptationHistory (CO.cognitiveState s')
              = CO.adaptationHistory (CO.cognitiveState s)).
Proof.
  apply (learning_rate_step env1 (Some hiThere) (CO.new 0)).
  - vm_compute. discriminate.
  - vm_compute. discriminate.
Defined.

(** *** The active set and the statistics *)

Lemma set_has_In (k : string) (l : list string) :
  set_has k l = true <-> In k l.
Proof.
  unfold set_has. rewrite existsb_exists. split.
  - intros (x & Hx & E). apply String.eqb_eq in E. now subst.
  - intro H. exists k. split; [exact H|apply String.eqb_refl].
Qed.

Lemma set_add_NoDup (k : string) (l : list string) :
  NoDup l -> NoDup (set_add k l).
Proof.
  intro H. unfold set_add. destruct (set_has k l) eqn:E; [exact H|].
  apply NoDup_app; [exact H|constructor; [intros []|constructor]|].
  intros x Hx [Hk|[]]. subst x.
  apply set_has_In in Hx. congruence.
Qed.

Lemma set_add_elements (k x : string) (l : list string) :
  In x (set_add k l) -> x = k \/ In x l.
Proof.
  unfold set_add. destruct (set_has k l); [now right|].
  intro H. apply in_app_or in H. destruct H as [H|[H|[]]]; auto.
Qed.

Lemma findRelevantNodes_selectable (input : option CO.Input) :
  incl (CO.findRelevantNodes input) selectableNodes.
Proof.
  unfold CO.findRelevantNodes, selectableNodes.
  destruct (CO.input_type input) as [[t|c]|];
    [destruct (String.eqb t "message")| |];
    destruct (CO.input_dialog input);
    destruct (CO.input_requiresResponse input);
    intros x Hx; simpl in *; tauto.
Qed.

Lemma activate_all_activeNodes (l : list string) (s : CO.State) :
  CO.activeNodes (CO.cognitiveState (fold_left CO.activateNode l s))
  = fold_left (fun a k => set_add k a) l
      (CO.activeNodes (CO.cognitiveState s)).
Proof.
  revert s. induction l as [|k l IH]; intro s; simpl; [reflexivity|].
  rewrite IH, activateNode_activeNodes. reflexivity.
Qed.

Lemma set_add_all_ok (l a : list string) :
  NoDup a -> incl a selectableNodes -> incl l selectableNodes ->
  NoDup (fold_left (fun a k => set_add k a) l a)
  /\ incl (fold_left (fun a k => set_add k a) l a) selectableNodes.
Proof.
  revert a. induction l as [|k l IH]; intros a Hn Hi Hl; simpl; [now split|].
  apply IH.
  - now apply set_add_NoDup.
  - intros x Hx. apply set_add_elements in Hx. destruct Hx as [->|Hx].
    + apply Hl. now left.
    + now apply Hi.
  - intros x Hx. apply Hl. now right.
Qed.

Lemma step_activeNodes_ok (s : CO.State) (o : CO.Op) :
  NoDup (CO.activeNodes (CO.cognitiveState s))
  /\ incl (CO.activeNodes (CO.cognitiveState s)) selectableNodes ->
  NoDup (CO.activeNodes (CO.cognitiveState (CO.step s o)))
  /\ incl (CO.activeNodes (CO.cognitiveState (CO.step s o))) selectableNodes.
Proof.
  intros [Hn Hi]. destruct o; cbn [CO.step]; try (now split).
  - rewrite processInput_activeNodes, activate_all_activeNodes.
    apply set_add_all_ok; auto. apply findRelevantNodes_selectable.
  - simpl. split; [constructor|intros x []].
Qed.

Lemma activeNodes_ok_reachable (now : Z) (ops : list CO.Op) :
  NoDup (CO.activeNodes (CO.cognitiveState (CO.run (CO.new now) ops)))
  /\ incl (CO.activeNodes (CO.cognitiveState (CO.run (CO.new now) ops)))
       selectableNodes.
Proof.
  unfold CO.run.
  assert (H : NoDup (CO.activeNodes (CO.cognitiveState (CO.new now)))
              /\ incl (CO.activeNodes (CO.cognitiveState (CO.new now)))
                   selectableNodes).
  { simpl. split; [constructor|intros x []]. }
  revert H. generalize (CO.new now).
  induction ops as [|o ops IH]; intros s H; simpl; [exact H|].
  apply IH. now apply step_activeNodes_ok.
Qed.

Lemma filter_length {A : Type} (f : A -> bool) (l : list A) :
  (List.length (filter f l) <= List.length l)%nat.
Proof.
  induction l as [|x l IH]; simpl; [lia|]. destruct (f x); simpl; lia.
Qed.

(** X3.  After any sequence of calls of the public methods the statistics
    report no node in the atom space, at most the seven selectable nodes as
    active, at most 100 adaptations, and no more active patterns than
    patterns. *)
Theorem statistics_bounds (now : Z) (ops : list CO.Op) :
  let st := CO.getCognitiveStatistics (CO.run (CO.new now) ops) in
  CO.stat_totalNodes st = 0%nat
  /\ (CO.stat_activeNodes st <= 7)%nat
  /\ (CO.stat_adaptationCount st <= 100)%nat
  /\ (CO.stat_activePatterns st <= CO.stat_totalPatterns st)%nat.
Proof.
  cbv zeta. unfold CO.getCognitiveStatistics.
  cbn [CO.stat_totalNodes CO.stat_activeNodes CO.stat_adaptationCount
       CO.stat_activePatterns CO.stat_totalPatterns].
  split; [|split; [|split]].
  - now rewrite atomSpace_empty_reachable.
  - destruct (activeNodes_ok_reachable now ops) as [Hn Hi].
    apply (NoDup_incl_length Hn Hi).
  - rewrite <- runLog_state, history_is_slice_of_log, slice_last_length. lia.
  - unfold CO.getActivePatterns. rewrite length_map. apply filter_length.
Qed.

(** X4.  A call of [processInput] never takes a node out of the active set:
    what was active stays active, whether the call returns or throws, and
    what the input selects is active afterwards. *)
Theorem active_set_grows (e : CO.Env) (input : option CO.Input) (s : CO.State)
  (k : string) :
  In k (CO.activeNodes (CO.cognitiveState s))
  \/ In k (CO.findRelevantNodes input) ->
  In k (CO.activeNodes (CO.cognitiveState (snd (CO.processInput e input s)))).
Proof.
  intro H. rewrite processInput_activeNodes. apply activate_all_In. tauto.
Qed.

(** The node [dialog_state], selected by an input with the dialog flag. *)
Lemma active_set_grows_witness :
  In "dialog_state"
    (CO.activeNodes
       (CO.cognitiveState
          (snd (CO.processInput env1
                  (Some {| CO.in_type := None;
                           CO.in_text := CO.text_other true;
                           CO.in_dialog := true;
                           CO.in_requiresResponse := false;
                           CO.in_dialogState := None;
                           CO.in_turnCount := None |})
                  (CO.new 0))))).
Proof.
  apply (active_set_grows env1 _ (CO.new 0) "dialog_state").
  right. simpl. tauto.
Defined.

(** *** The attentional focus *)

Lemma insert_desc_perm {A : Type} (key : A -> Q) (x : A) (l : list A) :
  Permutation (insert_desc key x l) (x :: l).
Proof.
  induction l as [|y l IH]; simpl; [reflexivity|].
  destruct (Qle_bool (key y) (key x)); [reflexivity|].
  rewrite IH. apply perm_swap.
Qed.

Lemma sort_desc_perm {A : Type} (key : A -> Q) (l : list A) :
  Permutation (sort_desc key l) l.
Proof.
  induction l as [|x l IH]; simpl; [reflexivity|].
  rewrite insert_desc_perm. now constructor.
Qed.

Lemma insert_desc_sorted {A : Type} (key : A -> Q) (x : A) (l : list A) :
  descending key l -> descending key (insert_desc key x l).
Proof.
  unfold descending. induction l as [|y l IH]; simpl; intro H.
  - constructor; constructor.
  - inversion H as [|y0 l0 Hs Hf]; subst.
    destruct (Qle_bool (key y) (key x)) eqn:E.
    + apply Qle_bool_iff in E. constructor; [exact H|].
      constructor; [exact E|].
      eapply Forall_impl; [|exact Hf]. intros z Hz. simpl in Hz.
      now apply Qle_trans with (key y).
    + constructor; [now apply IH|].
      assert (Hxy : key x <= key y).
      { apply Qlt_le_weak. apply Qnot_le_lt. intro L.
        apply Qle_bool_iff in L. congruence. }
      eapply Permutation_Forall.
      * symmetry. apply insert_desc_perm.
      * constructor; assumption.
Qed.

Lemma sort_desc_sorted {A : Type} (key : A -> Q) (l : list A) :
  descending key (sort_desc key l).
Proof.
  induction l as [|x l IH]; simpl; [constructor|].
  now apply insert_desc_sorted.
Qed.

Lemma descending_split {A : Type} (key : A -> Q) (a b : list A) :
  descending key (a ++ b) ->
  forall x y, In x a -> In y b -> key y <= key x.
Proof.
  unfold descending. induction a as [|z a IH]; simpl; intros H x y Hx Hy.
  - destruct Hx.
  - inversion H as [|z0 l0 Hs Hf]; subst. destruct Hx as [->|Hx].
    + rewrite Forall_forall in Hf. apply Hf. apply in_or_app. now right.
    + now apply IH.
Qed.

(** X5.  [updateAttentionalFocus] keeps the five most important active
    nodes: the focus holds five of the active nodes (all of them when there
    are fewer), no node that is left out has a higher short-term importance
    than a node of the focus, and the focus is in descending order of
    importance. *)
Theorem attentional_focus_top5 (s : CO.State) :
  let active := CO.activeNodes (CO.cognitiveState s) in
  let focus :=
    CO.attentionalFocus (CO.cognitiveState (CO.updateAttentionalFocus s)) in
  List.length focus = Nat.min 5 (List.length active)
  /\ descending (CO.importanceOf s) focus
  /\ exists rest,
       Permutation (focus ++ rest) active
       /\ forall f r, In f focus -> In r rest ->
                      CO.importanceOf s r <= CO.importanceOf s f.
Proof.
  cbv zeta. unfold CO.updateAttentionalFocus. cbv zeta.
  cbn [CO.cognitiveState CO.set_cognitiveState CO.attentionalFocus].
  set (scored := map (fun nodeId => (nodeId, CO.importanceOf s nodeId))
                   (CO.activeNodes (CO.cognitiveState s))).
  set (sorted := sort_desc snd scored).
  assert (Hkey : forall e, In e sorted -> snd e = CO.importanceOf s (fst e)).
  { intros e He. apply (Permutation_in _ (sort_desc_perm snd scored)) in He.
    unfold scored in He. apply in_map_iff in He.
    destruct He as (k & <- & _). reflexivity. }
  assert (Hs : descending snd sorted) by apply sort_desc_sorted.
  unfold slice_first. split; [|split].
  - rewrite length_map, length_firstn.
    unfold sorted. rewrite (Permutation_length (sort_desc_perm snd scored)).
    unfold scored. now rewrite length_map.
  - rewrite <- (firstn_skipn 5 sorted) in Hs, Hkey.
    revert Hs Hkey. generalize (firstn 5 sorted) (skipn 5 sorted).
    unfold descending. intros a b. induction a as [|x a IH]; simpl;
      intros Hs Hkey; [constructor|].
    inversion Hs as [|x0 l0 Hs' Hf]; subst. constructor.
    + apply IH; [exact Hs'|]. intros e He. apply Hkey. now right.
    + apply Forall_forall. intros k Hk. apply in_map_iff in Hk.
      destruct Hk as (y & <- & Hy).
      rewrite <- (Hkey x) by now left.
      rewrite <- (Hkey y) by (right; apply in_or_app; now left).
      rewrite Forall_forall in Hf. apply Hf. apply in_or_app. now left.
  - exists (map fst (skipn 5 sorted)). split.
    + rewrite <- map_app, firstn_skipn. unfold sorted.
      rewrite (sort_desc_perm snd scored). unfold scored.
      rewrite map_map. simpl. now rewrite map_id.
    + intros f r Hf Hr. apply in_map_iff in Hf, Hr.
      destruct Hf as (x & <- & Hx). destruct Hr as (y & <- & Hy).
      rewrite <- (Hkey x), <- (Hkey y).
      * rewrite <- (firstn_skipn 5 sorted) in Hs.
        now apply (descending_split snd _ _ Hs).
      * rewrite <- (firstn_skipn 5 sorted). apply in_or_app. now right.
      * rewrite <- (firstn_skipn 5 sorted). apply in_or_app. now left.
Qed.

Lemma sort_desc_zero (l : list string) :
  sort_desc snd (map (fun nodeId : string => (nodeId, 0)) l)
  = map (fun nodeId : string => (nodeId, 0)) l.
Proof.
  induction l as [|x l IH]; simpl; [reflexivity|].
  rewrite IH. destruct l; reflexivity.
Qed.

Lemma updateAttentionalFocus_empty_atomSpace (s : CO.State) :
  CO.atomSpace s = [] ->
  CO.attentionalFocus (CO.cognitiveState (CO.updateAttentionalFocus s))
  = firstn 5 (CO.activeNodes (CO.cognitiveState s)).
Proof.
  intro H. unfold CO.updateAttentionalFocus. cbv zeta.
  cbn [CO.cognitiveState CO.set_cognitiveState CO.attentionalFocus].
  rewrite (map_ext (fun nodeId => (nodeId, CO.importanceOf s nodeId))
             (fun nodeId => (nodeId, 0))).
  - rewrite sort_desc_zero. unfold slice_first.
    rewrite firstn_map, map_map. simpl. apply map_id.
  - intro k. unfold CO.importanceOf. now rewrite H.
Qed.

Lemma processInput_focus (e : CO.Env) (input : option CO.Input) (s : CO.State) :
  CO.attentionalFocus (CO.cognitiveState (snd (CO.processInput e input s)))
  = CO.attentionalFocus
      (CO.cognitiveState
         (CO.updateAttentionalFocus
            (fold_left CO.activateNode (CO.findRelevantNodes input) s))).
Proof.
  unfold CO.processInput. cbv zeta.
  destruct (CO.applyCognitiveReasoning e input
              (CO.updateCognitiveState input s));
    cbn [snd]; [|reflexivity].
  rewrite updateCognitiveState_learningEnabled.
  destruct (CO.learningEnabled s); [|reflexivity].
  unfold CO.learnFromInteraction. cbv zeta.
  destruct (CO.adaptationRecord _ _ _ _); reflexivity.
Qed.

Lemma step_focus (s : CO.State) (o : CO.Op) :
  CO.atomSpace s = [] ->
  CO.attentionalFocus (CO.cognitiveState s)
  = firstn 5 (CO.activeNodes (CO.cognitiveState s)) ->
  CO.attentionalFocus (CO.cognitiveState (CO.step s o))
  = firstn 5 (CO.activeNodes (CO.cognitiveState (CO.step s o))).
Proof.
  intros Ha H. destruct o; cbn [CO.step]; try exact H; try reflexivity.
  rewrite processInput_focus, processInput_activeNodes.
  rewrite updateAttentionalFocus_empty_atomSpace; [reflexivity|].
  now apply activate_all_atomSpace_empty.
Qed.

(** X6.  In every state that calls of the public methods reach, all active
    nodes score 0 (the atom space is empty), so the attentional focus is the
    first five nodes of the active set in the order in which they became
    active. *)
Theorem focus_is_first_five (now : Z) (ops : list CO.Op) :
  let cs := CO.cognitiveState (CO.run (CO.new now) ops) in
  CO.attentionalFocus cs = firstn 5 (CO.activeNodes cs).
Proof.
  cbv zeta. unfold CO.run.
  assert (H : CO.atomSpace (CO.new now) = []
              /\ CO.attentionalFocus (CO.cognitiveState (CO.new now))
                 = firstn 5 (CO.activeNodes (CO.cognitiveState (CO.new now))))
    by (split; reflexivity).
  revert H. generalize (CO.new now).
  induction ops as [|o ops IH]; intros s [Ha H]; simpl; [exact H|].
  apply IH. split; [now apply step_atomSpace_empty|now apply step_focus].
Qed.

(** *** The intent *)

Lemma append_assoc (a b c : string) :
  ((a ++ b) ++ c)%string = (a ++ b ++ c)%string.
Proof. induction a as [|ch a IH]; simpl; [reflexivity|now rewrite IH]. Qed.

Lemma prefix_spec (n s : string) :
  String.prefix n s = true <-> exists b, s = (n ++ b)%string.
Proof.
  revert s. induction n as [|c n IH]; intro s.
  - split; [intros _; now exists s|intros _; destruct s; reflexivity].
  - destruct s as [|d s]; simpl;
      [split; [discriminate|intros [b H]; discriminate]|].
    destruct (Ascii.ascii_dec c d) as [->|Hne].
    + rewrite IH. split; intros [b H]; exists b.
      * now rewrite H.
      * now injection H.
    + split; [discriminate|]. intros [b H]. injection H as Hc _.
      now subst.
Qed.

Lemma includes_unfold (s needle : string) :
  includes s needle
  = if String.prefix needle s then true
    else match s with
         | EmptyString => false
         | String _ s' => includes s' needle
         end.
Proof. destruct s; reflexivity. Qed.

Lemma includes_spec (s needle : string) :
  includes s needle = true <-> occursIn needle s.
Proof.
  unfold occursIn. split.
  - induction s as [|c s IH]; rewrite includes_unfold.
    + destruct (String.prefix needle "") eqn:P; [|discriminate].
      intros _. apply prefix_spec in P. destruct P as [b P].
      now exists EmptyString, b.
    + destruct (String.prefix needle (String c s)) eqn:P.
      * intros _. apply prefix_spec in P. destruct P as [b P].
        now exists EmptyString, b.
      * intro H. destruct (IH H) as (a & b & ->).
        now exists (String c a), b.
  - intros (a & b & ->). induction a as [|c a IH]; rewrite includes_unfold.
    + assert (P : String.prefix needle ("" ++ needle ++ b) = true).
      { apply prefix_spec. now exists b. }
      now rewrite P.
    + destruct (String.prefix needle (String c a ++ needle ++ b));
        [reflexivity|exact IH].
Qed.

Lemma includes_false (s needle : string) :
  includes s needle = false <-> ~ occursIn needle s.
Proof.
  rewrite <- includes_spec. destruct (includes s needle); split;
    congruence.
Qed.

Lemma goodbye_has_bye (l : string) : occursIn "goodbye" l -> occursIn "bye" l.
Proof.
  intros (a & b & ->). exists (a ++ "good")%string, b.
  rewrite append_assoc. reflexivity.
Qed.

(** X7.  With the pattern [intent_recognition] registered and a non-empty
    string as text, the intent is decided by what occurs in the lower-cased
    text, anywhere in it, in this order: "help" or "assist" make a help
    request (bonus 0.2); else "bye" makes a farewell (bonus 0.15); else
    "hello" or "hi" make a greeting (bonus 0.15); else the intent is general
    and the confidence is the bare activation.  The bonus is capped
    at 1.  The lower-cased text is what [String.prototype.toLowerCase]
    gives: for an ASCII text the text with its letters [A] to [Z] folded,
    for a text with other characters the form that the platform gives
    it. *)
Theorem intent_by_occurrence (e : CO.Env) (input : option CO.Input)
  (s : CO.State) (p : CO.CognitivePattern) (t : string) :
  map_get "intent_recognition" (CO.patternMatchers s) = Some p ->
  CO.input_text input = CO.text_string t ->
  t <> EmptyString ->
  let l := CO.lowerCaseOf e t in
  let a := CO.calculatePatternActivation (CO.cognitiveState s) p in
  (if isAscii t then l = toLowerCase t else l = CO.lowerCase e t)
  /\ exists i,
    CO.reasonAboutIntent e input s = Some i
    /\ (occursIn "help" l \/ occursIn "assist" l ->
        i = {| CO.intent := "help_request";
               CO.intent_confidence := Qmin 1.0 (a + 0.2) |})
    /\ (~ occursIn "help" l -> ~ occursIn "assist" l -> occursIn "bye" l ->
        i = {| CO.intent := "farewell";
               CO.intent_confidence := Qmin 1.0 (a + 0.15) |})
    /\ (~ occursIn "help" l -> ~ occursIn "assist" l -> ~ occursIn "bye" l ->
        occursIn "hello" l \/ occursIn "hi" l ->
        i = {| CO.intent := "greeting";
               CO.intent_confidence := Qmin 1.0 (a + 0.15) |})
    /\ (~ occursIn "help" l -> ~ occursIn "assist" l -> ~ occursIn "bye" l ->
        ~ occursIn "hello" l -> ~ occursIn "hi" l ->
        i = {| CO.intent := "general"; CO.intent_confidence := a |}).
Proof.
  intros Hp Ht Hne. cbv zeta.
  split; [unfold CO.lowerCaseOf; destruct (isAscii t); reflexivity|].
  unfold CO.reasonAboutIntent.
  rewrite Hp, Ht. cbv zeta. destruct t as [|c t]; [contradiction|].
  set (l := CO.lowerCaseOf e (String c t)).
  destruct (includes l "help") eqn:E1;
    [apply includes_spec in E1|apply includes_false in E1].
  { simpl. eexists. split; [reflexivity|]. repeat split; tauto. }
  destruct (includes l "assist") eqn:E2;
    [apply includes_spec in E2|apply includes_false in E2].
  { simpl. eexists. split; [reflexivity|]. repeat split; tauto. }
  destruct (includes l "bye") eqn:E3;
    [apply includes_spec in E3|apply includes_false in E3].
  { simpl. eexists. split; [reflexivity|]. repeat split; tauto. }
  destruct (includes l "goodbye") eqn:E4.
  { apply includes_spec in E4. apply goodbye_has_bye in E4. contradiction. }
  destruct (includes l "hello") eqn:E5;
    [apply includes_spec in E5|apply includes_false in E5].
  { simpl. eexists. split; [reflexivity|]. repeat split; tauto. }
  destruct (includes l "hi") eqn:E6;
    [apply includes_spec in E6|apply includes_false in E6].
  { simpl. eexists. split; [reflexivity|]. repeat split; tauto. }
  simpl. eexists. split; [reflexivity|]. repeat split; tauto.
Qed.

(** The text "What is this?" on the seeded state: "hi" occurs in "this". *)
Lemma intent_by_occurrence_witness :
  let input :=
    Some {| CO.in_type := Some (CO.type_string "message");
            CO.in_text := CO.text_string "What is this?";
            CO.in_dialog := false;
            CO.in_requiresResponse := true;
            CO.in_dialogState := None;
            CO.in_turnCount := None |} in
  let l := CO.lowerCaseOf env1 "What is this?" in
  let a :=
    CO.calculatePatternActivation (CO.cognitiveState (CO.new 0))
      (CO.intentPattern 0) in
  (if isAscii "What is this?" then l = toLowerCase "What is this?"
   else l = CO.lowerCase env1 "What is this?")
  /\ exists i,
    CO.reasonAboutIntent env1 input (CO.new 0) = Some i
    /\ (occursIn "help" l \/ occursIn "assist" l ->
        i = {| CO.intent := "help_request";
               CO.intent_confidence := Qmin 1.0 (a + 0.2) |})
    /\ (~ occursIn "help" l -> ~ occursIn "assist" l -> occursIn "bye" l ->
        i = {| CO.intent := "farewell";
               CO.intent_confidence := Qmin 1.0 (a + 0.15) |})
    /\ (~ occursIn "help" l -> ~ occursIn "assist" l -> ~ occursIn "bye" l ->
        occursIn "hello" l \/ occursIn "hi" l ->
        i = {| CO.intent := "greeting";
               CO.intent_confidence := Qmin 1.0 (a + 0.15) |})
    /\ (~ occursIn "help" l -> ~ occursIn "assist" l -> ~ occursIn "bye" l ->
        ~ occursIn "hello" l -> ~ occursIn "hi" l ->
        i = {| CO.intent := "general"; CO.intent_confidence := a |}).
Proof.
  apply (intent_by_occurrence env1 _ (CO.new 0) (CO.intentPattern 0)
           "What is this?").
  - reflexivity.
  - reflexivity.
  - discriminate.
Defined.

(** *** The synergy level over the seed patterns *)

Lemma set_has_set_add (k k' : string) (l : list string) :
  set_has k (set_add k' l) = String.eqb k k' || set_has k l.
Proof.
  unfold set_add. destruct (set_has k' l) eqn:E.
  - destruct (String.eqb k k') eqn:E'; [|reflexivity].
    apply String.eqb_eq in E'. subst. now rewrite E.
  - unfold set_has. rewrite existsb_app. simpl.
    rewrite orb_false_r. apply orb_comm.
Qed.

Lemma groups_closed_activate (input : option CO.Input) (a : list string) :
  groups_closed a ->
  groups_closed
    (fold_left (fun a k => set_add k a) (CO.findRelevantNodes input) a).
Proof.
  unfold groups_closed, CO.findRelevantNodes.
  intros (H1 & H2 & H3 & H4).
  destruct (CO.input_type input) as [[t|c]|];
    [destruct (String.eqb t "message")| |];
    destruct (CO.input_dialog input);
    destruct (CO.input_requiresResponse input);
    cbn [app fold_left]; rewrite ?set_has_set_add;
    cbn [String.eqb Ascii.eqb Bool.eqb orb];
    rewrite ?H1, ?H2, ?H3, ?H4;
    repeat split;
    repeat match goal with
           | |- context [set_has ?k a] => destruct (set_has k a)
           end; reflexivity.
Qed.

(** A seed pattern that is above its threshold contributes between 0.6 and
    0.66 to the synergy sum. *)
Lemma seed_pattern_term (cs : CO.CognitiveState) (p : CO.CognitivePattern) :
  groups_closed (CO.activeNodes cs) -> seed_pattern p ->
  Qgtb (CO.calculatePatternActivation cs p) (CO.activationThreshold p) = true ->
  0.6 <= CO.synergyScore p * CO.calculatePatternActivation cs p
  /\ CO.synergyScore p * CO.calculatePatternActivation cs p <= 0.66.
Proof.
  intros (H1 & H2 & H3 & H4) (t0 & [-> | [-> | ->]]);
    unfold CO.calculatePatternActivation, CO.activationSum;
    cbn [CO.nodes CO.intentPattern CO.dialogPattern CO.responsePattern
         CO.createIntentNodes CO.createDialogNodes CO.createResponseNodes
         CO.mkNode CO.node_id fold_left fst snd CO.truthValue CO.strength
         CO.confidence CO.activationThreshold CO.synergyScore];
    rewrite ?H1, ?H2, ?H3, ?H4.
  - destruct (set_has "user_input" (CO.activeNodes cs)).
    + intros _. split; vm_compute; discriminate.
    + vm_compute. discriminate.
  - destruct (set_has "dialog_state" (CO.activeNodes cs)).
    + intros _. split; vm_compute; discriminate.
    + vm_compute. discriminate.
  - destruct (set_has "response_generator" (CO.activeNodes cs)).
    + intros _. split; vm_compute; discriminate.
    + vm_compute. discriminate.
Qed.

Lemma guarded_sum_between {A : Type} (lo hi : Q) (cond : A -> bool)
  (val : A -> Q) (l : list A) (acc0 : Q * nat) :
  (forall x, In x l -> cond x = true -> lo <= val x /\ val x <= hi) ->
  lo * Qnat (snd acc0) <= fst acc0 -> fst acc0 <= hi * Qnat (snd acc0) ->
  let acc :=
    fold_left
      (fun (acc : Q * nat) (x : A) =>
         if cond x then (fst acc + val x, S (snd acc)) else acc)
      l acc0 in
  lo * Qnat (snd acc) <= fst acc /\ fst acc <= hi * Qnat (snd acc).
Proof.
  revert acc0. induction l as [|x l IH]; intros acc0 Hv H0 H1; simpl.
  - now split.
  - apply IH.
    + intros y Hy. apply Hv. now right.
    + destruct (cond x) eqn:E; [|exact H0]. simpl. rewrite Qnat_S.
      destruct (Hv x (or_introl eq_refl) E). lra.
    + destruct (cond x) eqn:E; [|exact H1]. simpl. rewrite Qnat_S.
      destruct (Hv x (or_introl eq_refl) E). lra.
Qed.

Lemma seed_synergy (cs : CO.CognitiveState) (ps : list CO.CognitivePattern) :
  groups_closed (CO.activeNodes cs) -> Forall seed_pattern ps ->
  let level :=
    if (0 <? snd (CO.synergySum cs ps))%nat
    then fst (CO.synergySum cs ps) / Qnat (snd (CO.synergySum cs ps))
    else 0.5 in
  0.5 <= level /\ level <= 0.66.
Proof.
  intros Hg Hp. cbv zeta.
  destruct (0 <? snd (CO.synergySum cs ps))%nat eqn:E; [|split; lra].
  assert (B : 0.6 * Qnat (snd (CO.synergySum cs ps))
              <= fst (CO.synergySum cs ps)
              /\ fst (CO.synergySum cs ps)
                 <= 0.66 * Qnat (snd (CO.synergySum cs ps))).
  { unfold CO.synergySum.
    apply (guarded_sum_between 0.6 0.66
             (fun pattern =>
                Qgtb (CO.calculatePatternActivation cs pattern)
                  (CO.activationThreshold pattern))
             (fun pattern =>
                CO.synergyScore pattern
                * CO.calculatePatternActivation cs pattern)).
    - intros x Hx Hc. rewrite Forall_forall in Hp.
      apply seed_pattern_term; auto.
    - vm_compute. discriminate.
    - vm_compute. discriminate. }
  destruct B as [B1 B2]. pose proof (Qnat_pos _ E) as Hpos. split.
  - apply Qle_shift_div_l; [exact Hpos|]. lra.
  - apply Qle_shift_div_r; [exact Hpos|]. lra.
Qed.

Lemma updateCognitiveState_seeded (input : option CO.Input) (s : CO.State) :
  seeded s -> seeded (CO.updateCognitiveState input s).
Proof.
  intros (Hg & Hp & _). unfold CO.updateCognitiveState. cbv zeta.
  set (s2 := CO.updateAttentionalFocus
               (fold_left CO.activateNode (CO.findRelevantNodes input) s)).
  assert (Hg2 : groups_closed (CO.activeNodes (CO.cognitiveState s2))).
  { change (CO.activeNodes (CO.cognitiveState s2))
      with (CO.activeNodes
              (CO.cognitiveState
                 (fold_left CO.activateNode (CO.findRelevantNodes input) s))).
    rewrite activate_all_activeNodes. now apply groups_closed_activate. }
  assert (Hp2 : Forall seed_pattern (map_values (CO.patternMatchers s2))).
  { change (CO.patternMatchers s2)
      with (CO.patternMatchers
              (fold_left CO.activateNode (CO.findRelevantNodes input) s)).
    now rewrite activate_all_patternMatchers. }
  unfold seeded. split; [exact Hg2|]. split; [exact Hp2|].
  apply (seed_synergy (CO.cognitiveState s2)
           (map_values (CO.patternMatchers s2)) Hg2 Hp2).
Qed.

Lemma processInput_cognitive (e : CO.Env) (input : option CO.Input)
  (s : CO.State) :
  let s1 := CO.updateCognitiveState input s in
  let s' := snd (CO.processInput e input s) in
  CO.activeNodes (CO.cognitiveState s') = CO.activeNodes (CO.cognitiveState s1)
  /\ CO.synergyLevel (CO.cognitiveState s')
     = CO.synergyLevel (CO.cognitiveState s1)
  /\ CO.patternMatchers s' = CO.patternMatchers s1.
Proof.
  cbv zeta. unfold CO.processInput. cbv zeta.
  destruct (CO.applyCognitiveReasoning e input
              (CO.updateCognitiveState input s));
    cbn [snd]; [|repeat split].
  destruct (CO.learningEnabled (CO.updateCognitiveState input s));
    [|repeat split].
  unfold CO.learnFromInteraction. cbv zeta.
  destruct (CO.adaptationRecord _ _ _ _); repeat split.
Qed.

Lemma processInput_seeded (e : CO.Env) (input : option CO.Input)
  (s : CO.State) :
  seeded s -> seeded (snd (CO.processInput e input s)).
Proof.
  intro H. apply (updateCognitiveState_seeded input) in H.
  destruct (processInput_cognitive e input s) as (E1 & E2 & E3).
  unfold seeded. rewrite E1, E2, E3. exact H.
Qed.

Lemma new_seeded (now : Z) : seeded (CO.new now).
Proof.
  unfold seeded. simpl. split; [repeat split|]. split.
  - repeat constructor; exists now; tauto.
  - split; lra.
Qed.

Lemma step_seeded (s : CO.State) (o : CO.Op) :
  seed_only o -> seeded s -> seeded (CO.step s o).
Proof.
  intros Ho H. destruct o; cbn [CO.step]; try exact H.
  - now apply processInput_seeded.
  - destruct Ho.
  - destruct H as (Hg & Hp & Hs). unfold seeded. simpl.
    split; [exact Hg|]. split; [now apply Forall_map_delete|exact Hs].
  - destruct (new_seeded now) as (Hg & Hp & Hs).
    unfold seeded. simpl. split; [repeat split|]. split; [exact Hp|exact Hs].
Qed.

Lemma seeded_reachable (now : Z) (ops : list CO.Op) :
  Forall seed_only ops -> seeded (CO.run (CO.new now) ops).
Proof.
  unfold CO.run. pose proof (new_seeded now) as H. revert H.
  generalize (CO.new now).
  induction ops as [|o ops IH]; intros s H Hok; simpl; [exact H|].
  inversion Hok as [|x l Ho Hl]; subst.
  apply IH; [|exact Hl]. now apply step_seeded.
Qed.

Lemma seeded_no_annotation (s : CO.State) (c : string) :
  seeded s -> CO.applyCognitiveAdaptation c s = c.
Proof.
  intros (_ & _ & L & U). unfold CO.applyCognitiveAdaptation. cbv zeta.
  assert (H8 : Qgtb (CO.synergyLevel (CO.cognitiveState s)) 0.8 = false)
    by (apply Qgtb_false; lra).
  assert (H4 : Qltb (CO.synergyLevel (CO.cognitiveState s)) 0.4 = false)
    by (apply Qltb_false; lra).
  now rewrite H8, H4.
Qed.

(** X8.  As long as no pattern is added, the synergy level stays between
    0.5 and 0.66 whatever is called: every response then reports a synergy
    level in that range, its content is one of the four texts without the
    "high synergy" or "adapting" annotation, and its adaptations never hold
    the two hints for a synergy level below 0.5. *)
Theorem seed_synergy_range (now : Z) (ops : list CO.Op) (e : CO.Env)
  (input : option CO.Input) :
  Forall seed_only ops ->
  match fst (CO.processInput e input (CO.run (CO.new now) ops)) with
  | None => True
  | Some response =>
      0.5 <= CO.resp_synergyLevel response
      /\ CO.resp_synergyLevel response <= 0.66
      /\ (exists reasoning,
            In (CO.content response)
              [CO.generateGreeting (CO.random e); CO.generateHelpResponse;
               CO.generateFarewell;
               CO.generateGeneralResponse reasoning
                 (CO.updateCognitiveState input (CO.run (CO.new now) ops))])
      /\ ~ In "Strengthen cognitive node connections" (CO.adaptations response)
      /\ ~ In "Optimize attention allocation" (CO.adaptations response)
  end.
Proof.
  intros Hok. pose proof (seeded_reachable now ops Hok) as H.
  apply (updateCognitiveState_seeded input) in H.
  unfold CO.processInput. cbv zeta.
  set (s1 := CO.updateCognitiveState input (CO.run (CO.new now) ops)) in *.
  destruct (CO.applyCognitiveReasoning e input s1) as [reasoning|];
    cbn [fst]; [|exact I].
  destruct (if CO.learningEnabled s1 then _ else _) as [s2|];
    cbn [fst]; [|exact I].
  unfold CO.liveResponse, CO.generateSynergyResponse.
  cbn [CO.resp_synergyLevel CO.content CO.adaptations].
  pose proof H as (_ & _ & L & U).
  split; [exact L|]. split; [exact U|]. split.
  - exists reasoning. unfold CO.generateResponseContent. cbv zeta.
    rewrite (seeded_no_annotation s1 _ H).
    destruct (String.eqb _ "greeting"); [simpl; tauto|].
    destruct (String.eqb _ "help_request"); [simpl; tauto|].
    destruct (String.eqb _ "farewell"); simpl; tauto.
  - unfold CO.generateAdaptations.
    assert (H5 : Qltb (CO.synergyLevel (CO.cognitiveState s1)) 0.5 = false)
      by (apply Qltb_false; lra).
    rewrite H5, app_nil_r.
    destruct (Qltb (CO.r_confidence reasoning) 0.6); simpl; split;
      intros I; repeat (destruct I as [I|I]; [discriminate I|]); exact I.
Qed.

(** The call with "Hi there!" after a call without input, a removal and a
    reset. *)
Lemma seed_synergy_range_witness :
  match
    fst (CO.processInput env1 (Some hiThere)
           (CO.run (CO.new 0)
              [CO.OpProcessInput env1 None;
               CO.OpRemoveCognitivePattern "response_generation";
               CO.OpReset 9]))
  with
  | None => True
  | Some response =>
      0.5 <= CO.resp_synergyLevel response
      /\ CO.resp_synergyLevel response <= 0.66
      /\ (exists reasoning,
            In (CO.content response)
              [CO.generateGreeting (CO.random env1); CO.generateHelpResponse;
               CO.generateFarewell;
               CO.generateGeneralResponse reasoning
                 (CO.updateCognitiveState (Some hiThere)
                    (CO.run (CO.new 0)
                       [CO.OpProcessInput env1 None;
                        CO.OpRemoveCognitivePattern "response_generation";
                        CO.OpReset 9]))])
      /\ ~ In "Strengthen cognitive node connections" (CO.adaptations response)
      /\ ~ In "Optimize attention allocation" (CO.adaptations response)
  end.
Proof.
  apply (seed_synergy_range 0
           [CO.OpProcessInput env1 None;
            CO.OpRemoveCognitivePattern "response_generation";
            CO.OpReset 9]
           env1 (Some hiThere)).
  repeat constructor.
Defined.

(** ** Further properties of the synergy architecture *)

(** *** The monitoring cycle *)

Lemma withComponents_self (s : SA.State) :
  withComponents s (SA.components s) (SA.events s) = s.
Proof. destruct s. reflexivity. Qed.

Lemma monitorStep_visit (draws : string -> SA.Draw) (s : SA.State)
  (k : string) (c : SA.SynergyComponent) (pre l : jsmap SA.SynergyComponent)
  (log : list SA.Event) :
  ~ In k (map_keys pre) ->
  SA.monitorStep draws (withComponents s (pre ++ (k, c) :: l) log) (k, c)
  = withComponents s ((pre ++ [monitored draws (k, c)]) ++ l)
      (log ++ [healthEvent (monitored draws (k, c))]).
Proof.
  intro Hpre. unfold SA.monitorStep. cbv zeta. cbn [fst snd].
  unfold SA.set_components, SA.emit. cbn [SA.components withComponents].
  rewrite (map_set_app_fresh k c _ pre l Hpre), <- app_assoc. reflexivity.
Qed.

Lemma monitor_entries (draws : string -> SA.Draw) (s : SA.State)
  (l pre : jsmap SA.SynergyComponent) (log : list SA.Event) :
  NoDup (map_keys l) ->
  (forall k, In k (map_keys l) -> ~ In k (map_keys pre)) ->
  fold_left (SA.monitorStep draws) l (withComponents s (pre ++ l) log)
  = withComponents s (pre ++ map (monitored draws) l)
      (log ++ map healthEvent (map (monitored draws) l)).
Proof.
  revert pre log. induction l as [|[k c] l IH]; intros pre log Hnd Hfresh.
  - simpl. now rewrite !app_nil_r.
  - inversion Hnd as [|k0 l0 Hk Hnd']; subst.
    assert (Hpre : ~ In k (map_keys pre)) by (apply Hfresh; now left).
    cbn [fold_left]. rewrite (monitorStep_visit draws s k c pre l log Hpre).
    rewrite IH; [|exact Hnd'|].
    + simpl. rewrite <- !app_assoc. reflexivity.
    + intros k' Hk' I. unfold map_keys in I. rewrite map_app in I.
      apply in_app_or in I. destruct I as [I|[I|[]]].
      * apply (Hfresh k'); [now right|exact I].
      * simpl in I. subst k'. contradiction.
Qed.

(** The registry and the log after [monitorComponentHealth]. *)
Lemma monitorComponentHealth_result (draws : string -> SA.Draw) (s : SA.State) :
  NoDup (map_keys (SA.components s)) ->
  SA.monitorComponentHealth draws s
  = withComponents s (map (monitored draws) (SA.components s))
      (SA.events s
       ++ map healthEvent (map (monitored draws) (SA.components s))).
Proof.
  intro Hnd. unfold SA.monitorComponentHealth.
  rewrite <- (withComponents_self s) at 2.
  change (SA.components s) with ([] ++ SA.components s) at 2.
  rewrite monitor_entries; auto.
Qed.

Lemma monitored_keys (draws : string -> SA.Draw) (m : jsmap SA.SynergyComponent) :
  map_keys (map (monitored draws) m) = map_keys m.
Proof. unfold map_keys. rewrite map_map. reflexivity. Qed.

(** Whatever the component and the draws, a monitored component has its load
    in [0, 1], its efficiency in [0.5, 1], and metrics that follow from the
    two. *)
Lemma monitorComponent_bounds (d : SA.Draw) (c : SA.SynergyComponent) :
  let c' := SA.monitorComponent d c in
  unit_range (SA.load (SA.state c'))
  /\ 0.5 <= SA.efficiency (SA.state c')
  /\ SA.efficiency (SA.state c') <= 1
  /\ SA.synergyContribution (SA.metrics c') = SA.efficiency (SA.state c') * 0.9
  /\ 0.7 <= SA.accuracy (SA.metrics c')
  /\ SA.adaptationRate (SA.state c') = SA.adaptationRate (SA.state c)
  /\ SA.connections c' = SA.connections c.
Proof.
  cbv zeta. unfold SA.monitorComponent, SA.updateComponentMetrics. cbv zeta.
  simpl. split; [apply clamp_unit|]. split; [apply Q.le_max_l|].
  split; [apply Q.max_lub; [lra|apply Q.le_min_l]|].
  split; [reflexivity|]. split; [apply Q.le_max_l|]. split; reflexivity.
Qed.

Lemma sumOf_sum {A : Type} (f : A -> Q) (l : list A) :
  SA.sumOf f l == fold_right Qplus 0 (map f l).
Proof. unfold SA.sumOf. rewrite sumOf_from. ring. Qed.

Lemma sum_between {A : Type} (f : A -> Q) (lo hi : Q) (l : list A) :
  Forall (fun x => lo <= f x /\ f x <= hi) l ->
  lo * Qnat (List.length l) <= SA.sumOf f l
  /\ SA.sumOf f l <= hi * Qnat (List.length l).
Proof.
  intro H. rewrite sumOf_sum.
  induction H as [|x l [Hlo Hhi] _ [IH1 IH2]].
  - change (Qnat (List.length (@nil A))) with 0.
    change (fold_right Qplus 0 (map f [])) with 0. split; lra.
  - cbn [map fold_right List.length]. rewrite Qnat_S.
    set (t := fold_right Qplus 0 (map f l)) in *.
    set (n := Qnat (List.length l)) in *.
    assert (E1 : lo * (n + 1) == lo * n + lo) by ring.
    assert (E2 : hi * (n + 1) == hi * n + hi) by ring.
    rewrite E1, E2. split; lra.
Qed.

Lemma sum_nonneg {A : Type} (f : A -> Q) (l : list A) :
  (forall x, 0 <= f x) -> 0 <= SA.sumOf f l.
Proof.
  intro H. rewrite sumOf_sum. induction l as [|x l IH]; simpl; [lra|].
  specialize (H x). lra.
Qed.

Lemma sum_scaled {A : Type} (f g : A -> Q) (k : Q) (l : list A) :
  Forall (fun x => f x = g x * k) l ->
  SA.sumOf f l == k * SA.sumOf g l.
Proof.
  intro H. rewrite !sumOf_sum.
  induction H as [|x l Hx _ IH]; simpl; [ring|].
  rewrite Hx, IH. ring.
Qed.

Lemma square_nonneg (d : Q) : 0 <= d * d.
Proof.
  destruct (Qlt_le_dec d 0) as [H|H].
  - setoid_replace (d * d) with ((- d) * (- d)) by ring.
    apply Qmult_le_0_compat; lra.
  - now apply Qmult_le_0_compat.
Qed.

Lemma Qnat_nonneg (n : nat) : 0 <= Qnat n.
Proof.
  unfold Qnat. change 0 with (inject_Z 0). rewrite <- Zle_Qle. lia.
Qed.

Lemma mean_between (a lo hi : Q) (n : nat) :
  (0 < n)%nat -> lo * Qnat n <= a -> a <= hi * Qnat n ->
  lo <= a / Qnat n /\ a / Qnat n <= hi.
Proof.
  intros Hn H1 H2.
  assert (Hp : 0 < Qnat n) by (apply Qnat_pos; now apply Nat.ltb_lt).
  split.
  - apply Qle_shift_div_l; [exact Hp|exact H1].
  - apply Qle_shift_div_r; [exact Hp|exact H2].
Qed.

Lemma quotient_nonneg (a : Q) (n : nat) : 0 <= a -> 0 <= a / Qnat n.
Proof.
  intro H. unfold Qdiv. apply Qmult_le_0_compat; [exact H|].
  apply Qinv_le_0_compat. apply Qnat_nonneg.
Qed.

Lemma monitored_values (draws : string -> SA.Draw)
  (m : jsmap SA.SynergyComponent) (P : SA.SynergyComponent -> Prop) :
  (forall d c, P (SA.monitorComponent d c)) ->
  Forall P (map_values (map (monitored draws) m)).
Proof.
  intro H. unfold map_values. rewrite map_map. apply Forall_forall.
  intros c I. apply in_map_iff in I. destruct I as [[k c0] [<- _]].
  apply H.
Qed.

Lemma detectPerformanceAnomalies_frame (now : Z) (s : SA.State) :
  SA.components (SA.detectPerformanceAnomalies now s) = SA.components s
  /\ SA.architecturalState (SA.detectPerformanceAnomalies now s)
     = SA.architecturalState s.
Proof.
  unfold SA.detectPerformanceAnomalies. cbv zeta.
  destruct (_ <? _)%nat; split; reflexivity.
Qed.

Lemma monitoringCycle_components (draws : string -> SA.Draw) (now : Z)
  (s : SA.State) :
  NoDup (map_keys (SA.components s)) ->
  SA.components (SA.monitoringCycle draws now s)
  = map (monitored draws) (SA.components s).
Proof.
  intro Hnd. unfold SA.monitoringCycle.
  rewrite (proj1 (detectPerformanceAnomalies_frame _ _)).
  unfold SA.updateArchitecturalState. cbv zeta.
  cbn [SA.components SA.set_architecturalState].
  now rewrite (monitorComponentHealth_result draws s Hnd).
Qed.

(** X9.  A monitoring cycle on a non-empty registry puts the load of every
    component in [0, 1] and its efficiency in [0.5, 1], whatever they were
    and whatever the draws; it keeps the keys of the registry; and it leaves
    an architectural state whose synergy level is 0.9 times its coherence,
    whose coherence is in [0.5, 1], whose resilience is in [0, 1], and
    whose count of active components is at most the size of the registry. *)
Theorem monitoring_restores_ranges (draws : string -> SA.Draw) (now : Z)
  (s : SA.State) :
  NoDup (map_keys (SA.components s)) ->
  SA.components s <> [] ->
  let s' := SA.monitoringCycle draws now s in
  let a := SA.architecturalState s' in
  map_keys (SA.components s') = map_keys (SA.components s)
  /\ Forall vitals_ok (map_values (SA.components s'))
  /\ SA.synergyLevel a == 0.9 * SA.coherence a
  /\ 0.5 <= SA.coherence a /\ SA.coherence a <= 1
  /\ unit_range (SA.arch_resilience a)
  /\ SA.totalComponents a = List.length (SA.components s)
  /\ (SA.activeComponents a <= SA.totalComponents a)%nat.
Proof.
  intros Hnd Hne. cbv zeta.
  rewrite (monitoringCycle_components draws now s Hnd).
  unfold SA.monitoringCycle.
  rewrite (proj2 (detectPerformanceAnomalies_frame _ _)).
  unfold SA.updateArchitecturalState. cbv zeta.
  cbn [SA.architecturalState SA.set_architecturalState SA.synergyLevel
       SA.coherence SA.arch_resilience SA.totalComponents SA.activeComponents].
  rewrite (monitorComponentHealth_result draws s Hnd).
  cbn [SA.components withComponents].
  set (m := map (monitored draws) (SA.components s)).
  assert (Hv : Forall vitals_ok (map_values m)).
  { apply monitored_values. intros d c.
    pose proof (monitorComponent_bounds d c) as B. cbv zeta in B.
    unfold vitals_ok. tauto. }
  assert (Hlen : List.length m = List.length (SA.components s))
    by (unfold m; apply length_map).
  assert (Hpos : (0 < List.length m)%nat).
  { rewrite Hlen. destruct (SA.components s); [contradiction|simpl; lia]. }
  split; [apply monitored_keys|]. split; [exact Hv|].
  split.
  { rewrite (sum_scaled _ (fun c => SA.efficiency (SA.state c)) 0.9).
    - unfold Qdiv. ring.
    - apply monitored_values. intros d c.
      pose proof (monitorComponent_bounds d c) as B. cbv zeta in B. tauto. }
  assert (Hm : 0.5 <= SA.sumOf (fun c => SA.efficiency (SA.state c)) (map_values m)
                       / Qnat (List.length m)
               /\ SA.sumOf (fun c => SA.efficiency (SA.state c)) (map_values m)
                  / Qnat (List.length m) <= 1).
  { assert (Hl : List.length (map_values m) = List.length m)
      by apply length_map.
    apply mean_between; [exact Hpos| |]; rewrite <- Hl;
      apply (sum_between (fun c => SA.efficiency (SA.state c)) 0.5 1);
      (eapply Forall_impl; [|exact Hv]); intros c Hc; unfold vitals_ok in Hc;
      tauto. }
  split; [apply Hm|]. split; [apply Hm|].
  split.
  { split; [apply Q.le_max_l|]. apply Q.max_lub; [lra|].
    match goal with |- 1 - ?v <= 1 => assert (0 <= v) end; [|lra].
    apply quotient_nonneg.
    apply sum_nonneg. intro h. apply square_nonneg. }
  split; [exact Hlen|].
  etransitivity; [apply filter_length|].
  unfold map_values. rewrite length_map. lia.
Qed.

Lemma monitoring_restores_ranges_witness :
  Forall vitals_ok
    (map_values
       (SA.components
          (SA.monitoringCycle stillDraws 5
             (SA.addComponent wildComponent (SA.new 0))))).
Proof.
  refine (proj1 (proj2 (monitoring_restores_ranges stillDraws 5
                          (SA.addComponent wildComponent (SA.new 0)) _ _))).
  - vm_compute. repeat constructor; simpl; intuition discriminate.
  - vm_compute. discriminate.
Defined.

(** *** The ranges of the registry *)

Lemma fold_left_preserves {A S : Type} (P : S -> Prop) (f : S -> A -> S)
  (l : list A) (s : S) :
  (forall s x, P s -> P (f s x)) -> P s -> P (fold_left f l s).
Proof.
  intro Hf. revert s. induction l as [|x l IH]; intros s Hs; simpl; auto.
Qed.

Lemma evaluateEntry_components (s : SA.State) (k : string) :
  SA.components (SA.evaluateEntry s k) = SA.components s.
Proof.
  unfold SA.evaluateEntry. destruct (map_get k _); [|reflexivity].
  cbv zeta. destruct (Qltb _ _); reflexivity.
Qed.

Lemma emergenceCycle_components (draws : nat -> SA.EmergenceDraw) (now : Z)
  (s : SA.State) :
  SA.components (SA.emergenceCycle draws now s) = SA.components s.
Proof.
  unfold SA.emergenceCycle, SA.stabilizeEmergentPatterns,
    SA.evaluateEmergentUtility, SA.detectEmergentBehaviors.
  apply fold_left_preserves.
  { intros s0 b H. destruct (_ && _); [|exact H]. exact H. }
  apply fold_left_preserves.
  { intros s0 k H. now rewrite evaluateEntry_components. }
  apply fold_left_preserves; [|reflexivity].
  intros s0 b H. destruct (_ && _); exact H.
Qed.

Lemma forEach_value_ok {V : Type} (P : V -> Prop) (f : V -> V) (m : jsmap V) :
  (forall v, P v -> P (f v)) ->
  Forall P (map_values m) -> Forall P (map_values (SA.forEach_value f m)).
Proof.
  intros Hf H. unfold map_values, SA.forEach_value in *.
  rewrite map_map. simpl. rewrite Forall_map in *.
  eapply Forall_impl; [|exact H]. intros [k v]. simpl. apply Hf.
Qed.

Lemma min_between (lo hi cap x : Q) :
  lo <= cap -> cap <= hi -> lo <= x ->
  lo <= Qmin cap x /\ Qmin cap x <= hi.
Proof.
  intros H1 H2 H3. split; [now apply Q.min_glb|].
  apply Qle_trans with cap; [apply Q.le_min_l|exact H2].
Qed.

Lemma max_between (lo hi floor x : Q) :
  lo <= floor -> floor <= hi -> x <= hi ->
  lo <= Qmax floor x /\ Qmax floor x <= hi.
Proof.
  intros H1 H2 H3. split; [|now apply Q.max_lub].
  apply Qle_trans with floor; [exact H1|apply Q.le_max_l].
Qed.

Lemma strengthen_ok (c : SA.SynergyConnection) :
  connection_ok c -> connection_ok (SA.strengthen c).
Proof.
  intros (Hs & Hb1 & Hb2 & Hl). unfold SA.strengthen.
  destruct (Qgtb _ _); [|unfold connection_ok; tauto].
  destruct Hs as [Hs0 Hs1].
  unfold connection_ok, unit_range. simpl.
  pose proof (min_between 0 1 1.0 (SA.strength c + 0.05)).
  pose proof (min_between 100 2000 2000 (SA.bandwidth c * 1.1)).
  repeat split; try exact Hl; try (apply H; lra); apply H0; lra.
Qed.

Lemma tune_ok (c : SA.SynergyConnection) :
  connection_ok c -> connection_ok (SA.tune c).
Proof.
  intros (Hs & Hb1 & Hb2 & Hl). unfold SA.tune.
  unfold connection_ok. simpl. split; [exact Hs|].
  pose proof (min_between 100 2000 2000 (SA.bandwidth c * 1.02)).
  pose proof (max_between 100 2000 100 (SA.bandwidth c * 0.98)).
  split; [|split].
  - destruct (Qgtb _ _); [apply H; lra|].
    destruct (Qltb _ _); [apply H0; lra|exact Hb1].
  - destruct (Qgtb _ _); [apply H; lra|].
    destruct (Qltb _ _); [apply H0; lra|exact Hb2].
  - apply Q.le_max_l.
Qed.

Lemma set_connections_ok (f : SA.SynergyConnection -> SA.SynergyConnection)
  (c : SA.SynergyComponent) :
  (forall x, connection_ok x -> connection_ok (f x)) ->
  component_ok c ->
  component_ok (SA.set_connections (map f (SA.connections c)) c).
Proof.
  intros Hf (Hl & He1 & He2 & Ha1 & Ha2 & Hc).
  unfold component_ok. simpl.
  split; [exact Hl|]. do 4 (split; [assumption|]).
  rewrite Forall_map. eapply Forall_impl; [|exact Hc]. exact Hf.
Qed.

Lemma realign_ok (c : SA.SynergyComponent) :
  component_ok c -> component_ok (SA.realign c).
Proof.
  intros (Hl & He1 & He2 & Ha1 & Ha2 & Hc).
  unfold component_ok, SA.realign. simpl.
  pose proof (min_between 0.5 1 1.0 (SA.efficiency (SA.state c) + 0.02)).
  pose proof (max_between 0.05 0.3 0.05
                (SA.adaptationRate (SA.state c) - 0.01)).
  split; [exact Hl|]. split; [apply H; lra|]. split; [apply H; lra|].
  split; [apply H0; lra|]. split; [apply H0; lra|exact Hc].
Qed.

Lemma rebalance_ok (avg : Q) (c : SA.SynergyComponent) :
  component_ok c -> component_ok (SA.rebalance avg c).
Proof.
  intros H. unfold SA.rebalance. destruct (Qgtb _ _); [|exact H].
  destruct H as ([Hl0 Hl1] & He1 & He2 & Ha1 & Ha2 & Hc).
  unfold component_ok, unit_range, SA.set_load. simpl.
  pose proof (max_between 0 1 0.1 (SA.load (SA.state c) - 0.1)).
  split; [apply H; lra|]. tauto.
Qed.

Lemma adapt_ok (c : SA.SynergyComponent) :
  component_ok c -> component_ok (SA.adapt c).
Proof.
  intros H. unfold SA.adapt. cbv zeta.
  pose proof (min_between 0.05 0.3 0.3
                (SA.adaptationRate (SA.state c) + 0.01)) as Hmin.
  pose proof (max_between 0.05 0.3 0.05
                (SA.adaptationRate (SA.state c) - 0.01)) as Hmax.
  destruct (Qgtb _ _); [|destruct (Qltb _ _); [|exact H]];
    destruct H as (Hl & He1 & He2 & Ha1 & Ha2 & Hc);
    unfold component_ok, SA.set_adaptationRate; simpl;
    (split; [exact Hl|]); (split; [exact He1|]); (split; [exact He2|]).
  - split; [apply Hmin; lra|]. split; [apply Hmin; lra|exact Hc].
  - split; [apply Hmax; lra|]. split; [apply Hmax; lra|exact Hc].
Qed.

Lemma monitorComponent_ok (d : SA.Draw) (c : SA.SynergyComponent) :
  component_ok c -> component_ok (SA.monitorComponent d c).
Proof.
  intros (Hl & He1 & He2 & Ha1 & Ha2 & Hc).
  pose proof (monitorComponent_bounds d c) as B. cbv zeta in B.
  destruct B as (B1 & B2 & B3 & _ & _ & B4 & B5).
  unfold component_ok. rewrite B4, B5. tauto.
Qed.

Lemma set_components_bounded (f : SA.SynergyComponent -> SA.SynergyComponent)
  (s : SA.State) :
  (forall c, component_ok c -> component_ok (f c)) ->
  registry_bounded s ->
  registry_bounded
    (SA.set_components (SA.forEach_value f (SA.components s)) s).
Proof.
  intros Hf [Hnd Hok]. split; cbn [SA.components SA.set_components].
  - now rewrite map_keys_forEach_value.
  - now apply forEach_value_ok.
Qed.

Lemma registry_bounded_frame (s s' : SA.State) :
  SA.components s' = SA.components s ->
  registry_bounded s -> registry_bounded s'.
Proof. unfold registry_bounded. intros ->. tauto. Qed.

Lemma evolveArchitecture_bounded (now : Z) (s : SA.State) :
  registry_bounded s -> registry_bounded (SA.evolveArchitecture now s).
Proof.
  intro H. unfold SA.evolveArchitecture.
  destruct (negb _); [exact H|]. cbv zeta.
  destruct (SA.shouldEvolve _); [|exact H].
  eapply registry_bounded_frame
    with (s := SA.applyArchitecturalEvolution
                 (SA.planArchitecturalEvolution s) s); [reflexivity|].
  unfold SA.applyArchitecturalEvolution.
  destruct (SA.evolution_type _).
  - unfold SA.optimizeArchitecture. cbv zeta.
    apply set_components_bounded; [|exact H].
    intros c. apply rebalance_ok.
  - unfold SA.improveSynergy. apply set_components_bounded; [|exact H].
    intros c. apply set_connections_ok. exact strengthen_ok.
  - unfold SA.improveCoherence. apply set_components_bounded; [|exact H].
    exact realign_ok.
Qed.

Lemma architecture_step_bounded (s : SA.State) (o : SA.Op) :
  architecture_op_ok o -> registry_bounded s -> registry_bounded (SA.step s o).
Proof.
  intros Ho H. destruct o as [draws now|now|draws now|b|t|c|i];
    cbn [SA.step].
  - destruct H as [Hnd Hok]. split.
    + rewrite (monitoringCycle_components draws now s Hnd).
      now rewrite monitored_keys.
    + rewrite (monitoringCycle_components draws now s Hnd).
      unfold map_values in *. rewrite map_map. rewrite Forall_map in *.
      eapply Forall_impl; [|exact Hok]. intros [k c]. simpl.
      apply monitorComponent_ok.
  - unfold SA.evolutionCycle, SA.adaptComponentBehavior,
      SA.optimizeConnections.
    apply set_components_bounded; [exact adapt_ok|].
    apply set_components_bounded;
      [intros c; apply set_connections_ok; exact tune_ok|].
    now apply evolveArchitecture_bounded.
  - eapply registry_bounded_frame; [|exact H].
    apply emergenceCycle_components.
  - exact H.
  - exact H.
  - destruct H as [Hnd Hok]. split; cbn [SA.components SA.addComponent SA.emit SA.set_components].
    + now apply map_set_keys_NoDup.
    + apply Forall_map_set; [exact Ho|exact Hok].
  - destruct H as [Hnd Hok]. split; cbn [SA.components SA.removeComponent SA.emit SA.set_components].
    + now apply map_delete_keys_NoDup.
    + now apply Forall_map_delete.
Qed.

Lemma new_bounded (now : Z) : registry_bounded (SA.new now).
Proof.
  split.
  - vm_compute. repeat constructor; simpl; intuition discriminate.
  - repeat constructor;
      try (vm_compute; discriminate).
Qed.

(** X10.  Over any sequence of timer callbacks and public calls on the
    seeded architecture in which the added components are in range, the
    registry has no key twice and every component in it has its load in
    [0, 1], its efficiency in [0.5, 1], its adaptation rate in [0.05, 0.3],
    and connections of strength in [0, 1], bandwidth in [100, 2000] and
    latency at least 1. *)
Theorem registry_stays_bounded (now : Z) (ops : list SA.Op) :
  Forall architecture_op_ok ops ->
  registry_bounded (SA.run (SA.new now) ops).
Proof.
  intro H. unfold SA.run.
  assert (G : forall s, registry_bounded s ->
                        registry_bounded (fold_left SA.step ops s)).
  { induction H as [|o ops Ho _ IH]; intros s Hs; simpl; [exact Hs|].
    apply IH. now apply architecture_step_bounded. }
  apply G. apply new_bounded.
Qed.

Lemma registry_stays_bounded_witness :
  registry_bounded
    (SA.run (SA.new 0)
       [SA.OpMonitoringCycle stillDraws 5; SA.OpEvolutionCycle 30;
        SA.OpAddComponent (SA.adaptiveLearner 31);
        SA.OpRemoveComponent "behavioral_adapter"]).
Proof.
  apply (registry_stays_bounded 0).
  repeat constructor; vm_compute; discriminate.
Defined.

(** *** Evolution *)

Lemma shouldEvolve_plan (s : SA.State) :
  SA.shouldEvolve (SA.planArchitecturalEvolution s)
  = Qltb (SA.synergyLevel (SA.architecturalState s)) (SA.synergyThreshold s)
    || Qltb (SA.coherence (SA.architecturalState s)) 0.7.
Proof.
  unfold SA.planArchitecturalEvolution. cbv zeta.
  destruct (Qltb (SA.synergyLevel _) _), (Qltb (SA.coherence _) _);
    reflexivity.
Qed.

Lemma applyArchitecturalEvolution_frame (e : SA.Evolution) (s : SA.State) :
  let s' := SA.applyArchitecturalEvolution e s in
  SA.architecturalState s' = SA.architecturalState s
  /\ SA.events s' = SA.events s
  /\ SA.autogenesisEnabled s' = SA.autogenesisEnabled s
  /\ SA.synergyThreshold s' = SA.synergyThreshold s
  /\ SA.emergentBehaviors s' = SA.emergentBehaviors s.
Proof.
  cbv zeta. unfold SA.applyArchitecturalEvolution.
  destruct (SA.evolution_type e); repeat split; reflexivity.
Qed.

Lemma evolutionCycle_effect (now : Z) (s : SA.State) :
  let s' := SA.evolutionCycle now s in
  let a := SA.architecturalState s in
  let a' := SA.architecturalState s' in
  SA.synergyLevel a' = SA.synergyLevel a
  /\ SA.coherence a' = SA.coherence a
  /\ SA.autogenesisEnabled s' = SA.autogenesisEnabled s
  /\ SA.synergyThreshold s' = SA.synergyThreshold s
  /\ SA.emergentBehaviors s' = SA.emergentBehaviors s
  /\ if evolutionDue s
     then SA.evolutionCount a' = S (SA.evolutionCount a)
          /\ SA.lastEvolution a' = now
          /\ SA.events s'
             = SA.events s
               ++ [SA.architecture_evolution (SA.planArchitecturalEvolution s) a']
     else a' = a /\ SA.events s' = SA.events s.
Proof.
  cbv zeta. unfold SA.evolutionCycle, SA.adaptComponentBehavior,
    SA.optimizeConnections.
  cbn [SA.architecturalState SA.set_components SA.events
       SA.autogenesisEnabled SA.synergyThreshold SA.emergentBehaviors].
  unfold evolutionDue, SA.evolveArchitecture.
  rewrite <- shouldEvolve_plan.
  destruct (SA.autogenesisEnabled s) eqn:G; cbn [negb andb];
    [|rewrite ?G; repeat split; reflexivity].
  cbv zeta.
  destruct (SA.shouldEvolve _); [|rewrite ?G; repeat split; reflexivity].
  pose proof (applyArchitecturalEvolution_frame
                (SA.planArchitecturalEvolution s) s) as F. cbv zeta in F.
  destruct F as (Fa & Fe & Fg & Ft & Fb).
  cbn [SA.architecturalState SA.set_architecturalState SA.emit SA.events
       SA.synergyLevel SA.coherence SA.evolutionCount SA.lastEvolution
       SA.autogenesisEnabled SA.synergyThreshold SA.emergentBehaviors].
  rewrite Fa, Fe, Fg, Ft, Fb, G. repeat split; reflexivity.
Qed.

(** X11.  The evolution cycle changes neither the synergy level nor the
    coherence of the architectural state, so that the condition under which
    the architecture evolves is the same after the cycle as before: over
    consecutive evolution cycles the evolution count and the event log grow
    by one at every cycle if the condition holds at the first, and not at
    all otherwise. *)
Theorem evolution_repeats (nows : list Z) (s : SA.State) :
  let s' := SA.run s (evolutionCycles nows) in
  let fired := if evolutionDue s then List.length nows else 0%nat in
  SA.evolutionCount (SA.architecturalState s')
  = (SA.evolutionCount (SA.architecturalState s) + fired)%nat
  /\ List.length (SA.events s') = (List.length (SA.events s) + fired)%nat
  /\ SA.synergyLevel (SA.architecturalState s')
     = SA.synergyLevel (SA.architecturalState s)
  /\ SA.coherence (SA.architecturalState s')
     = SA.coherence (SA.architecturalState s)
  /\ evolutionDue s' = evolutionDue s.
Proof.
  cbv zeta. revert s. induction nows as [|now nows IH]; intro s.
  - simpl. destruct (evolutionDue s); repeat split; lia.
  - unfold evolutionCycles. cbn [map SA.run fold_left SA.step].
    specialize (IH (SA.evolutionCycle now s)).
    unfold SA.run, evolutionCycles in IH.
    pose proof (evolutionCycle_effect now s) as E. cbv zeta in E.
    destruct E as (Es & Ec & Eg & Et & _ & E).
    assert (Ed : evolutionDue (SA.evolutionCycle now s) = evolutionDue s).
    { unfold evolutionDue. now rewrite Es, Ec, Eg, Et. }
    rewrite Ed in IH. destruct IH as (I1 & I2 & I3 & I4 & I5).
    rewrite I1, I2, I3, I4, I5, Es, Ec.
    destruct (evolutionDue s).
    + destruct E as (E1 & _ & E3). rewrite E1, E3, length_app.
      cbn [List.length]. repeat split; lia.
    + destruct E as (E1 & E3). rewrite E1, E3. repeat split; lia.
Qed.

(** *** Detected behaviors *)

Lemma strong_utility (b : SA.EmergentBehavior) (s : SA.State) :
  strong b -> 0 <= SA.synergyLevel (SA.architecturalState s) ->
  Qltb (SA.calculateEmergentUtility b s) 0.3 = false.
Proof.
  intros (H1 & H2 & H3) H4. apply Qltb_false.
  unfold SA.calculateEmergentUtility. cbv zeta.
  apply Qle_trans with
    (Qmin 1 (SA.behavior_strength b * 0.3 + SA.stability b * 0.3
             + SA.novelty b * 0.2
             + SA.synergyLevel (SA.architecturalState s) * 0.2));
    [|apply Q.le_max_r].
  apply Q.min_glb; lra.
Qed.

Lemma analyzed_strong (draws : nat -> SA.EmergenceDraw) (s : SA.State)
  (b : SA.EmergentBehavior) :
  In b (SA.analyzePotentialEmergence draws s) ->
  0.8 < SA.behavior_strength b /\ 0.7 < SA.stability b.
Proof.
  unfold SA.analyzePotentialEmergence. cbv zeta. intro H.
  apply in_flat_map in H. destruct H as [[n i] [_ H]]. cbn [snd fst] in H.
  destruct (Qgtb (SA.complexity i) 0.8) eqn:E1; [|destruct H].
  destruct (Qgtb (SA.interaction_stability i) 0.7) eqn:E2; [|destruct H].
  destruct H as [<-|[]]. simpl.
  apply Qgtb_true in E1. apply Qgtb_true in E2. now split.
Qed.

Lemma registry_ok_set (b : SA.EmergentBehavior) (m : jsmap SA.EmergentBehavior) :
  registry_ok m -> registry_ok (map_set (SA.behavior_id b) b m).
Proof.
  intros [Hnd Hid]. split; [now apply map_set_keys_NoDup|].
  clear Hnd. induction m as [|[k v] m IH]; simpl.
  - constructor; [reflexivity|constructor].
  - inversion Hid as [|x l Hx Hl]; subst.
    destruct (String.eqb _ k); constructor; auto.
Qed.

Lemma detect_inv (draws : nat -> SA.EmergenceDraw) (now : Z) (s : SA.State) :
  detection_inv s -> detection_inv (SA.detectEmergentBehaviors draws now s).
Proof.
  intro H. unfold SA.detectEmergentBehaviors.
  pose proof (analyzed_strong draws s) as Ha.
  revert Ha. generalize (SA.analyzePotentialEmergence draws s) as l.
  intro l. revert s H.
  induction l as [|b l IH]; intros s H Ha; simpl; [exact H|].
  apply IH; [|intros b' I; apply Ha; now right].
  destruct (Qgtb (SA.behavior_strength b) 0.7 && Qgtb (SA.novelty b) 0.6)
    eqn:E; [|exact H].
  apply andb_prop in E. destruct E as [_ E]. apply Qgtb_true in E.
  destruct (Ha b (or_introl eq_refl)) as [S1 S2].
  destruct H as (H1 & H2 & H3 & H4 & H5 & H6).
  unfold detection_inv, SA.registerEmergentBehavior.
  cbn [SA.components SA.emit SA.set_emergentBehaviors SA.emergentBehaviors
       SA.architecturalState SA.events].
  repeat split; try assumption.
  - now apply registry_ok_set.
  - now apply registry_ok_set.
  - apply Forall_map_set; [|exact H4]. repeat split; assumption.
  - apply Forall_app. split; [exact H6|]. constructor; [exact I|constructor].
Qed.

Lemma evaluated_strong (s : SA.State) (m : jsmap SA.EmergentBehavior) :
  Forall strong (map_values m) ->
  0 <= SA.synergyLevel (SA.architecturalState s) ->
  flat_map (evaluated s) m
  = SA.forEach_value
      (fun b => SA.set_utility (SA.calculateEmergentUtility b s) b) m
  /\ flat_map (removals s) m = [].
Proof.
  intros H Hs. induction m as [|[k b] m IH]; [split; reflexivity|].
  inversion H as [|x l Hb Hl]; subst. destruct (IH Hl) as [IH1 IH2].
  cbn [flat_map]. rewrite IH1, IH2.
  unfold evaluated, removals. cbn [fst snd]. cbv zeta.
  rewrite (strong_utility b s Hb Hs). split; reflexivity.
Qed.

Lemma evaluate_inv (s : SA.State) :
  detection_inv s -> detection_inv (SA.evaluateEmergentUtility s).
Proof.
  intros (H1 & H2 & H3 & H4 & H5 & H6).
  rewrite (evaluateEmergentUtility_result s H3).
  destruct (evaluated_strong s (SA.emergentBehaviors s) H4 H5) as [E1 E2].
  rewrite E1, E2, app_nil_r.
  unfold detection_inv.
  cbn [SA.components withRegistry SA.emergentBehaviors SA.architecturalState
       SA.events].
  split; [exact H1|]. split; [exact H2|].
  split; [|split; [|split; [exact H5|exact H6]]].
  - destruct H3 as [Hnd Hid]. split.
    + now rewrite map_keys_forEach_value.
    + unfold SA.forEach_value. rewrite Forall_map.
      eapply Forall_impl; [|exact Hid]. intros [k b]. simpl. tauto.
  - apply forEach_value_ok; [|exact H4]. intros b Hb. exact Hb.
Qed.

Lemma stabilize_inv (s : SA.State) :
  detection_inv s -> detection_inv (SA.stabilizeEmergentPatterns s).
Proof.
  unfold SA.stabilizeEmergentPatterns. apply fold_left_preserves.
  intros s0 b H. destruct (_ && _); [|exact H].
  destruct H as (H1 & H2 & H3 & H4 & H5 & H6).
  unfold detection_inv, SA.promoteToArchitecturalPattern. cbv zeta.
  cbn [SA.components SA.emit SA.set_patterns SA.emergentBehaviors
       SA.architecturalState SA.events].
  repeat split; try assumption; try apply H3.
  apply Forall_app. split; [exact H6|]. constructor; [exact I|constructor].
Qed.

Lemma monitoringCycle_events (draws : string -> SA.Draw) (now : Z)
  (s : SA.State) :
  NoDup (map_keys (SA.components s)) ->
  exists emitted,
    SA.events (SA.monitoringCycle draws now s) = SA.events s ++ emitted
    /\ Forall notRemoval emitted.
Proof.
  intro Hnd. unfold SA.monitoringCycle, SA.detectPerformanceAnomalies.
  cbv zeta.
  assert (E : SA.events (SA.updateArchitecturalState
                           (SA.monitorComponentHealth draws s))
              = SA.events s
                ++ map healthEvent (map (monitored draws) (SA.components s))).
  { unfold SA.updateArchitecturalState. cbv zeta.
    cbn [SA.events SA.set_architecturalState].
    now rewrite (monitorComponentHealth_result draws s Hnd). }
  assert (Hh : Forall notRemoval
                 (map healthEvent (map (monitored draws) (SA.components s)))).
  { rewrite Forall_map. apply Forall_forall. intros x _. exact I. }
  destruct (_ <? _)%nat.
  - eexists. cbn [SA.events SA.emit]. rewrite E, <- app_assoc.
    split; [reflexivity|].
    apply Forall_app. split; [exact Hh|]. constructor; [exact I|constructor].
  - eexists. split; [exact E|exact Hh].
Qed.

Lemma monitoringCycle_synergyLevel (draws : string -> SA.Draw) (now : Z)
  (s : SA.State) :
  NoDup (map_keys (SA.components s)) ->
  0 <= SA.synergyLevel (SA.architecturalState (SA.monitoringCycle draws now s)).
Proof.
  intro Hnd. unfold SA.monitoringCycle.
  rewrite (proj2 (detectPerformanceAnomalies_frame _ _)).
  unfold SA.updateArchitecturalState. cbv zeta.
  cbn [SA.architecturalState SA.set_architecturalState SA.synergyLevel].
  rewrite (monitorComponentHealth_result draws s Hnd).
  cbn [SA.components withComponents].
  apply quotient_nonneg.
  match goal with |- 0 <= SA.sumOf ?f ?l =>
    destruct (sum_between f 0 0.9 l) as [L _]; [|lra] end.
  apply monitored_values. intros d c.
  pose proof (monitorComponent_bounds d c) as B. cbv zeta in B.
  destruct B as (_ & B2 & B3 & B4 & _). rewrite B4. split; lra.
Qed.

Lemma monitoring_inv (draws : string -> SA.Draw) (now : Z) (s : SA.State) :
  detection_inv s -> detection_inv (SA.monitoringCycle draws now s).
Proof.
  intros (H1 & H2 & H3 & H4 & H5 & H6).
  destruct (monitoringCycle_events draws now s H1) as (em & E1 & E2).
  assert (Hb : SA.emergentBehaviors (SA.monitoringCycle draws now s)
               = SA.emergentBehaviors s).
  { unfold SA.monitoringCycle, SA.detectPerformanceAnomalies. cbv zeta.
    destruct (_ <? _)%nat;
      unfold SA.updateArchitecturalState; cbv zeta;
      cbn [SA.emergentBehaviors SA.emit SA.set_architecturalState];
      now rewrite (monitorComponentHealth_result draws s H1). }
  unfold detection_inv.
  rewrite Hb, E1, (monitoringCycle_components draws now s H1), monitored_keys.
  split; [exact H1|].
  split; [destruct (SA.components s); [contradiction|discriminate]|].
  split; [exact H3|]. split; [exact H4|].
  split; [now apply monitoringCycle_synergyLevel|].
  apply Forall_app. now split.
Qed.

Lemma evolution_inv (now : Z) (s : SA.State) :
  detection_inv s -> detection_inv (SA.evolutionCycle now s).
Proof.
  intros (H1 & H2 & H3 & H4 & H5 & H6).
  pose proof (evolutionCycle_effect now s) as E. cbv zeta in E.
  destruct E as (Es & _ & _ & _ & Eb & E).
  unfold detection_inv. rewrite Es, Eb.
  assert (K : map_keys (SA.components (SA.evolutionCycle now s))
              = map_keys (SA.components s)).
  { unfold SA.evolutionCycle, SA.adaptComponentBehavior,
      SA.optimizeConnections.
    cbn [SA.components SA.set_components].
    rewrite !map_keys_forEach_value.
    unfold SA.evolveArchitecture. destruct (negb _); [reflexivity|].
    cbv zeta. destruct (SA.shouldEvolve _); [|reflexivity].
    cbn [SA.components SA.emit SA.set_architecturalState].
    unfold SA.applyArchitecturalEvolution.
    destruct (SA.evolution_type _);
      [unfold SA.optimizeArchitecture; cbv zeta
      |unfold SA.improveSynergy|unfold SA.improveCoherence];
      cbn [SA.components SA.set_components];
      apply map_keys_forEach_value. }
  rewrite K. split; [exact H1|].
  split.
  { intro C. rewrite C in K. destruct (SA.components s);
      [contradiction|discriminate]. }
  split; [exact H3|]. split; [exact H4|]. split; [exact H5|].
  destruct (evolutionDue s).
  - destruct E as (_ & _ & ->). apply Forall_app. split; [exact H6|].
    constructor; [exact I|constructor].
  - destruct E as (_ & ->). exact H6.
Qed.

Lemma detection_step (s : SA.State) (o : SA.Op) :
  keeps_components o -> detection_inv s -> detection_inv (SA.step s o).
Proof.
  intros Ho H. destruct o as [draws now|now|draws now|b|t|c|i];
    cbn [SA.step].
  - now apply monitoring_inv.
  - now apply evolution_inv.
  - unfold SA.emergenceCycle.
    now apply stabilize_inv, evaluate_inv, detect_inv.
  - destruct H as (H1 & H2 & H3 & H4 & H5 & H6).
    unfold detection_inv. cbn. repeat split; try assumption; try apply H3.
    apply Forall_app. split; [exact H6|]. constructor; [exact I|constructor].
  - exact H.
  - destruct H as (H1 & H2 & H3 & H4 & H5 & H6).
    unfold detection_inv, SA.addComponent.
    cbn [SA.components SA.emit SA.set_components SA.emergentBehaviors
         SA.architecturalState SA.events].
    split; [now apply map_set_keys_NoDup|].
    split.
    { destruct (SA.components s) as [|[k v] m]; simpl; [discriminate|].
      destruct (String.eqb _ _); discriminate. }
    repeat split; try assumption; try apply H3.
    apply Forall_app. split; [exact H6|]. constructor; [exact I|constructor].
  - destruct Ho.
Qed.

Lemma new_detection_inv (now : Z) : detection_inv (SA.new now).
Proof.
  unfold detection_inv. cbn [SA.new SA.components SA.emergentBehaviors
    SA.architecturalState SA.events SA.synergyLevel
    SA.initialArchitecturalState].
  split; [vm_compute; repeat constructor; simpl; intuition discriminate|].
  split; [vm_compute; discriminate|].
  split; [split; constructor|]. split; [constructor|].
  split; [lra|constructor].
Qed.

(** X12.  As long as no component is removed, no
    [emergent_behavior_removed] event is ever emitted on the seeded
    architecture: every behavior in the registry has strength above 0.8,
    stability above 0.7 and novelty above 0.6, so that its recomputed
    utility is at least 0.57. *)
Theorem detected_behaviors_never_removed (now : Z) (ops : list SA.Op) :
  Forall keeps_components ops ->
  let s := SA.run (SA.new now) ops in
  Forall notRemoval (SA.events s)
  /\ Forall strong (map_values (SA.emergentBehaviors s)).
Proof.
  intro H. cbv zeta.
  assert (G : forall s, detection_inv s ->
                        detection_inv (fold_left SA.step ops s)).
  { induction H as [|o ops Ho _ IH]; intros s Hs; simpl; [exact Hs|].
    apply IH. now apply detection_step. }
  destruct (G (SA.new now) (new_detection_inv now))
    as (_ & _ & _ & H4 & _ & H6).
  split; assumption.
Qed.

Lemma detected_behaviors_never_removed_witness :
  let s :=
    SA.run (SA.new 0)
      [SA.OpMonitoringCycle stillDraws 5;
       SA.OpEmergenceCycle oneEmergence 60000;
       SA.OpEmergenceCycle oneEmergence 120000] in
  Forall notRemoval (SA.events s)
  /\ Forall strong (map_values (SA.emergentBehaviors s)).
Proof.
  apply (detected_behaviors_never_removed 0). repeat constructor.
Defined.

(** *** Promotion *)

Lemma promotedKey_inj (b b' : SA.EmergentBehavior) :
  promotedKey b = promotedKey b' -> SA.behavior_id b = SA.behavior_id b'.
Proof. unfold promotedKey. simpl. intro H. now inversion H. Qed.

Lemma registry_ids (m : jsmap SA.EmergentBehavior) :
  registry_ok m -> NoDup (map SA.behavior_id (map_values m)).
Proof.
  intros [Hnd Hid]. unfold map_values. rewrite map_map.
  unfold map_keys in Hnd.
  erewrite map_ext_in; [exact Hnd|].
  intros kv I. rewrite Forall_forall in Hid. now apply Hid.
Qed.

Lemma promote_fold (l : list SA.EmergentBehavior) (s : SA.State) :
  NoDup (map SA.behavior_id l) ->
  let s' :=
    fold_left
      (fun (s : SA.State) (behavior : SA.EmergentBehavior) =>
         if Qgtb (SA.utility behavior) 0.7 && Qgtb (SA.stability behavior) 0.8
         then SA.promoteToArchitecturalPattern behavior s
         else s) l s in
  SA.emergentBehaviors s' = SA.emergentBehaviors s
  /\ SA.components s' = SA.components s
  /\ SA.architecturalState s' = SA.architecturalState s
  /\ (forall b, In b l -> promotable b = true ->
        exists p,
          map_get (promotedKey b) (SA.patterns s') = Some p
          /\ SA.pattern_id p = promotedKey b
          /\ SA.topology p = SA.emergent_topology
          /\ SA.scalability p = SA.utility b
          /\ SA.resilience p = SA.stability b
          /\ SA.adaptability p = SA.novelty b)
  /\ (forall k,
        (forall b, In b l -> promotable b = true -> k <> promotedKey b) ->
        map_get k (SA.patterns s') = map_get k (SA.patterns s))
  /\ List.length (SA.events s')
     = (List.length (SA.events s) + List.length (filter promotable l))%nat.
Proof.
  cbv zeta. revert s. induction l as [|b l IH]; intros s Hnd.
  - simpl. split; [reflexivity|]. split; [reflexivity|].
    split; [reflexivity|]. split; [intros b []|]. split; [reflexivity|lia].
  - cbn [map] in Hnd. inversion Hnd as [|x xs Hb Hnd']; subst.
    cbn [fold_left filter].
    fold (promotable b).
    set (s1 := if promotable b then SA.promoteToArchitecturalPattern b s
               else s).
    destruct (IH s1 Hnd') as (I1 & I2 & I3 & I4 & I5 & I6).
    assert (F : SA.emergentBehaviors s1 = SA.emergentBehaviors s
                /\ SA.components s1 = SA.components s
                /\ SA.architecturalState s1 = SA.architecturalState s).
    { unfold s1. destruct (promotable b); repeat split; reflexivity. }
    destruct F as (F1 & F2 & F3).
    rewrite I1, I2, I3, I6.
    split; [exact F1|]. split; [exact F2|]. split; [exact F3|].
    split; [|split].
    + intros b' [<-|Hin] Hp.
      * rewrite I5.
        -- unfold s1. rewrite Hp.
           unfold SA.promoteToArchitecturalPattern. cbv zeta.
           cbn [SA.patterns SA.emit SA.set_patterns SA.pattern_id].
           rewrite map_get_set. fold (promotedKey b).
           rewrite String.eqb_refl.
           eexists. split; [reflexivity|]. repeat split; reflexivity.
        -- intros b' Hin' _ E. apply promotedKey_inj in E.
           apply Hb. rewrite E. now apply in_map.
      * now apply I4.
    + intros k Hk. rewrite I5.
      * unfold s1. destruct (promotable b) eqn:Hp; [|reflexivity].
        unfold SA.promoteToArchitecturalPattern. cbv zeta.
        cbn [SA.patterns SA.emit SA.set_patterns SA.pattern_id].
        rewrite map_get_set. fold (promotedKey b).
        assert (N : k <> promotedKey b) by (apply Hk; [now left|exact Hp]).
        apply String.eqb_neq in N. now rewrite N.
      * intros b' Hin Hp. apply Hk; [now right|exact Hp].
    + unfold s1. destruct (promotable b); [|reflexivity].
      unfold SA.promoteToArchitecturalPattern. cbv zeta.
      cbn [SA.events SA.emit SA.set_patterns List.length].
      rewrite length_app. simpl. lia.
Qed.

(** X13.  [stabilizeEmergentPatterns] leaves the registry of behaviors as
    it is.  For every behavior with utility above 0.7 and stability above
    0.8 it stores a pattern of topology [emergent] under the key
    [pattern_<id>], whose scalability, resilience and adaptability are the
    utility, the stability and the novelty of the behavior, and emits one
    event; every other key of the pattern library is as before. *)
Theorem promotion_adds_patterns (s : SA.State) :
  registry_ok (SA.emergentBehaviors s) ->
  let s' := SA.stabilizeEmergentPatterns s in
  let behaviors := map_values (SA.emergentBehaviors s) in
  SA.emergentBehaviors s' = SA.emergentBehaviors s
  /\ (forall b, In b behaviors -> promotable b = true ->
        exists p,
          map_get (promotedKey b) (SA.patterns s') = Some p
          /\ SA.pattern_id p = promotedKey b
          /\ SA.topology p = SA.emergent_topology
          /\ SA.scalability p = SA.utility b
          /\ SA.resilience p = SA.stability b
          /\ SA.adaptability p = SA.novelty b)
  /\ (forall k,
        (forall b, In b behaviors -> promotable b = true ->
                   k <> promotedKey b) ->
        map_get k (SA.patterns s') = map_get k (SA.patterns s))
  /\ List.length (SA.events s')
     = (List.length (SA.events s)
        + List.length (filter promotable behaviors))%nat.
Proof.
  intro H. cbv zeta. unfold SA.stabilizeEmergentPatterns.
  destruct (promote_fold (map_values (SA.emergentBehaviors s)) s
              (registry_ids _ H)) as (P1 & _ & _ & P4 & P5 & P6).
  split; [exact P1|]. split; [exact P4|]. split; [exact P5|exact P6].
Qed.

Lemma promotion_adds_patterns_witness :
  SA.emergentBehaviors (SA.stabilizeEmergentPatterns detectedState)
  = SA.emergentBehaviors detectedState.
Proof.
  refine (proj1 (promotion_adds_patterns detectedState _)).
  split.
  - vm_compute. repeat constructor; simpl; intuition discriminate.
  - vm_compute. repeat constructor.
Defined.

(** *** The agents *)

Lemma backfill_get (k : string) (shared known : jsmap SA.KValue) :
  map_get k (SA.backfill shared known)
  = match map_get k known with
    | Some v => Some v
    | None => map_get k shared
    end.
Proof.
  unfold SA.backfill. revert known.
  induction shared as [|[k' v'] sh IH]; intro known; cbn [fold_left fst snd].
  - simpl. now destruct (map_get k known).
  - rewrite IH. unfold map_has. cbn [map_get].
    destruct (String.eqb k k') eqn:E.
    + apply String.eqb_eq in E. subst k'.
      destruct (map_get k known) eqn:G; [now rewrite G|].
      now rewrite map_get_set, String.eqb_refl.
    + destruct (map_get k' known); [reflexivity|].
      now rewrite map_get_set, E.
Qed.

Lemma publish_get (k : string) (known shared : jsmap SA.KValue) :
  NoDup (map_keys known) ->
  map_get k
    (fold_left
       (fun (sh : jsmap SA.KValue) (kv : string * SA.KValue) =>
          map_set (fst kv) (snd kv) sh) known shared)
  = match map_get k known with
    | Some v => Some v
    | None => map_get k shared
    end.
Proof.
  revert shared. induction known as [|[k' v'] kn IH]; intros shared Hnd;
    cbn [fold_left fst snd]; [reflexivity|].
  inversion Hnd as [|x xs Hk Hnd']; subst.
  rewrite (IH _ Hnd'). cbn [map_get]. rewrite map_get_set.
  destruct (String.eqb k k') eqn:E; [|reflexivity].
  apply String.eqb_eq in E. subst k'.
  now rewrite (map_get_fresh k kn Hk).
Qed.

Lemma sharedKnowledge_get (k : string) (agents : jsmap SA.AutonomousAgent) :
  Forall knowledge_ok (map_values agents) ->
  map_get k (SA.sharedKnowledge agents) = lastKnown k (map_values agents).
Proof.
  unfold SA.sharedKnowledge, lastKnown.
  change (@None SA.KValue) with (map_get k (@nil (string * SA.KValue))).
  generalize (@nil (string * SA.KValue)) as shared.
  induction (map_values agents) as [|a l IH]; intros shared H;
    [reflexivity|].
  inversion H as [|x xs Ha Hl]; subst. cbn [fold_left].
  rewrite (IH _ Hl). f_equal. now apply publish_get.
Qed.

Lemma lastKnown_from (k : string) (l : list SA.AutonomousAgent)
  (found : option SA.KValue) :
  found <> None ->
  fold_left
    (fun (found : option SA.KValue) (a : SA.AutonomousAgent) =>
       match map_get k (SA.knowledge (SA.agent_state a)) with
       | Some v => Some v
       | None => found
       end) l found <> None.
Proof.
  revert found. induction l as [|a l IH]; intros found H; simpl; [exact H|].
  apply IH. now destruct (map_get k _).
Qed.

Lemma lastKnown_some_from (k : string) (l : list SA.AutonomousAgent)
  (a : SA.AutonomousAgent) (found : option SA.KValue) :
  In a l -> map_get k (SA.knowledge (SA.agent_state a)) <> None ->
  fold_left
    (fun (found : option SA.KValue) (a : SA.AutonomousAgent) =>
       match map_get k (SA.knowledge (SA.agent_state a)) with
       | Some v => Some v
       | None => found
       end) l found <> None.
Proof.
  revert found. induction l as [|a' l IH]; intros found I H; [destruct I|].
  destruct I as [->|I]; simpl.
  - apply lastKnown_from. now destruct (map_get k _).
  - now apply IH.
Qed.

Lemma lastKnown_some (k : string) (l : list SA.AutonomousAgent)
  (a : SA.AutonomousAgent) :
  In a l -> map_get k (SA.knowledge (SA.agent_state a)) <> None ->
  lastKnown k l <> None.
Proof. apply lastKnown_some_from. Qed.

Lemma map_get_forEach_value {V : Type} (f : V -> V) (k : string)
  (m : jsmap V) :
  map_get k (SA.forEach_value f m) = option_map f (map_get k m).
Proof.
  induction m as [|[k' v] m IH]; simpl; [reflexivity|].
  now destruct (String.eqb k k').
Qed.

(** X14.  After [coordinateAgentActivities] an agent holds for every key
    the value it held before, and for a key it did not know the value of
    the last agent of the registry that knows it; nothing else of the agent
    changes, and all agents know the same keys. *)
Theorem coordination_shares_knowledge (s : SA.State) (i : string)
  (a : SA.AutonomousAgent) (k : string) :
  Forall knowledge_ok (map_values (SA.autonomousAgents s)) ->
  map_get i (SA.autonomousAgents s) = Some a ->
  exists a',
    map_get i (SA.autonomousAgents (SA.coordinateAgentActivities s)) = Some a'
    /\ a' = SA.set_knowledge (SA.knowledge (SA.agent_state a')) a
    /\ map_get k (SA.knowledge (SA.agent_state a'))
       = match map_get k (SA.knowledge (SA.agent_state a)) with
         | Some v => Some v
         | None => lastKnown k (map_values (SA.autonomousAgents s))
         end
    /\ map_has k (SA.knowledge (SA.agent_state a'))
       = match lastKnown k (map_values (SA.autonomousAgents s)) with
         | Some _ => true
         | None => false
         end.
Proof.
  intros Hok Ha. unfold SA.coordinateAgentActivities. cbv zeta.
  cbn [SA.autonomousAgents SA.set_autonomousAgents].
  rewrite map_get_forEach_value, Ha. cbn [option_map].
  eexists. split; [reflexivity|]. split; [reflexivity|].
  cbn [SA.set_knowledge SA.set_agent_state SA.agent_state SA.knowledge].
  unfold map_has. rewrite backfill_get, (sharedKnowledge_get k _ Hok).
  split; [reflexivity|].
  destruct (map_get k (SA.knowledge (SA.agent_state a))) eqn:G;
    [|reflexivity].
  destruct (lastKnown k (map_values (SA.autonomousAgents s))) eqn:L;
    [reflexivity|].
  exfalso. apply (lastKnown_some k (map_values (SA.autonomousAgents s)) a).
  - eapply map_get_In. exact Ha.
  - rewrite G. discriminate.
  - exact L.
Qed.

Lemma coordination_shares_knowledge_witness :
  exists a',
    map_get "analyzer_agent"
      (SA.autonomousAgents (SA.coordinateAgentActivities (SA.new 0)))
    = Some a'
    /\ a' = SA.set_knowledge (SA.knowledge (SA.agent_state a'))
              SA.analyzerAgent
    /\ map_get "synergy_level" (SA.knowledge (SA.agent_state a'))
       = match map_get "synergy_level"
                 (SA.knowledge (SA.agent_state SA.analyzerAgent)) with
         | Some v => Some v
         | None =>
             lastKnown "synergy_level"
               (map_values (SA.autonomousAgents (SA.new 0)))
         end
    /\ map_has "synergy_level" (SA.knowledge (SA.agent_state a'))
       = match lastKnown "synergy_level"
                 (map_values (SA.autonomousAgents (SA.new 0))) with
         | Some _ => true
         | None => false
         end.
Proof.
  apply (coordination_shares_knowledge (SA.new 0) "analyzer_agent"
           SA.analyzerAgent "synergy_level").
  - vm_compute. repeat constructor; simpl; intuition discriminate.
  - reflexivity.
Defined.

Lemma unhandled_goals (a : SA.AutonomousAgent) :
  handled (SA.role a) (SA.currentGoal (SA.agent_state a)) = false ->
  SA.executeAgentGoals a = a.
Proof.
  unfold handled, SA.executeAgentGoals, SA.executeOrchestratorGoals,
    SA.executeAnalyzerGoals, SA.executeLearnerGoals. cbv zeta.
  destruct (SA.role a); intro H; try reflexivity;
    repeat (apply orb_false_elim in H; destruct H as [H ?]);
    repeat match goal with E : String.eqb _ _ = false |- _ =>
             rewrite E; clear E end; reflexivity.
Qed.

Lemma Qle_bool_false (a b : Q) : Qle_bool a b = false <-> b < a.
Proof.
  split; intro H.
  - apply Qnot_le_lt. intro L. apply Qle_bool_iff in L. congruence.
  - destruct (Qle_bool a b) eqn:E; [|reflexivity].
    apply Qle_bool_iff in E. exfalso. apply (Qlt_not_le _ _ H E).
Qed.

Lemma unhandled_tick (a : SA.AutonomousAgent) :
  handled (SA.role a) (SA.currentGoal (SA.agent_state a)) = false ->
  SA.progress (SA.agent_state a) < 1 ->
  let r := SA.executeAgent a in
  snd r = []
  /\ SA.role (fst r) = SA.role a
  /\ SA.currentGoal (SA.agent_state (fst r)) = SA.currentGoal (SA.agent_state a)
  /\ SA.progress (SA.agent_state (fst r)) = SA.progress (SA.agent_state a)
  /\ SA.knowledge (SA.agent_state (fst r)) = SA.knowledge (SA.agent_state a).
Proof.
  intros H P. cbv zeta. unfold SA.executeAgent.
  destruct (SA.agent_active _); [|repeat split; reflexivity].
  rewrite (unhandled_goals a H). unfold SA.updateAgentProgress. cbv zeta.
  assert (E : Qle_bool 1.0 (SA.progress (SA.agent_state a)) = false).
  { apply Qle_bool_false. lra. }
  rewrite E. repeat split; reflexivity.
Qed.

(** X15.  An agent whose current goal has no case in the [switch] of its
    role, and whose progress is below 1, keeps its goal and its progress
    over any number of ticks, whatever is written to its knowledge between
    them, and emits no event. *)
Theorem unhandled_goal_stalls (a : SA.AutonomousAgent)
  (ks : list (jsmap SA.KValue)) :
  handled (SA.role a) (SA.currentGoal (SA.agent_state a)) = false ->
  SA.progress (SA.agent_state a) < 1 ->
  let a' := agentTicks a ks in
  SA.currentGoal (SA.agent_state a') = SA.currentGoal (SA.agent_state a)
  /\ SA.progress (SA.agent_state a') = SA.progress (SA.agent_state a)
  /\ snd (SA.executeAgent a') = [].
Proof.
  cbv zeta. unfold agentTicks. revert a.
  induction ks as [|k ks IH]; intros a H P.
  - simpl. split; [reflexivity|]. split; [reflexivity|].
    apply (unhandled_tick a H P).
  - cbn [fold_left].
    pose proof (unhandled_tick a H P) as T. cbv zeta in T.
    destruct T as (_ & Tr & Tg & Tp & _).
    set (a1 := SA.set_knowledge k (fst (SA.executeAgent a))).
    assert (R1 : SA.role a1 = SA.role a) by exact Tr.
    assert (G1 : SA.currentGoal (SA.agent_state a1)
                 = SA.currentGoal (SA.agent_state a)) by exact Tg.
    assert (P1 : SA.progress (SA.agent_state a1)
                 = SA.progress (SA.agent_state a)) by exact Tp.
    rewrite <- G1, <- P1. apply IH.
    + now rewrite R1, G1.
    + now rewrite P1.
Qed.

Lemma unhandled_goal_stalls_witness :
  let a' := agentTicks lateAnalyzer [[]; [("system_state", SA.KString "s")]] in
  SA.currentGoal (SA.agent_state a')
  = SA.currentGoal (SA.agent_state lateAnalyzer)
  /\ SA.progress (SA.agent_state a')
     = SA.progress (SA.agent_state lateAnalyzer)
  /\ snd (SA.executeAgent a') = [].
Proof.
  apply (unhandled_goal_stalls lateAnalyzer).
  - vm_compute. reflexivity.
  - vm_compute. reflexivity.
Defined.

Lemma indexOf_nth (l : list string) (i : nat) (g : string) :
  NoDup l -> nth_error l i = Some g -> SA.indexOf g l = Some i.
Proof.
  revert i. induction l as [|y l IH]; intros i Hnd H.
  - destruct i; discriminate.
  - inversion Hnd as [|x xs Hy Hnd']; subst. destruct i as [|i]; simpl in *.
    + injection H as ->. now rewrite String.eqb_refl.
    + destruct (String.eqb g y) eqn:E.
      * apply String.eqb_eq in E. subst y. exfalso. apply Hy.
        eapply nth_error_In. exact H.
      * now rewrite (IH i Hnd' H).
Qed.

Lemma executeAgentGoals_frame (a : SA.AutonomousAgent) :
  let a' := SA.executeAgentGoals a in
  SA.agent_id a' = SA.agent_id a
  /\ SA.goals a' = SA.goals a
  /\ SA.currentGoal (SA.agent_state a') = SA.currentGoal (SA.agent_state a)
  /\ (0 <= SA.progress (SA.agent_state a) ->
      0 <= SA.progress (SA.agent_state a')).
Proof.
  cbv zeta.
  assert (A : forall d x, 0 <= d ->
            0 <= SA.progress (SA.agent_state x) ->
            0 <= SA.progress (SA.agent_state (SA.advance d x))).
  { intros d x Hd Hx. unfold SA.advance. simpl. apply Q.min_glb; lra. }
  unfold SA.executeAgentGoals, SA.executeOrchestratorGoals,
    SA.executeAnalyzerGoals, SA.executeLearnerGoals. cbv zeta.
  destruct (SA.role a);
    repeat match goal with
           | |- context [if ?b then _ else _] => destruct b
           end;
    (split; [reflexivity|]); (split; [reflexivity|]);
    (split; [reflexivity|]); try (intro H; exact H);
    intro H; apply A; try exact H; lra.
Qed.

(** X16.  One tick of an active agent whose goals are pairwise different
    and whose current goal is the [i]-th of them.  If the progress reaches
    1, the agent moves to the next goal, cyclically, with progress 0, and
    one [agent_goal_completed] event names the two goals; otherwise the
    goal stays and no event is emitted.  In both cases the progress after
    the tick is in [0, 1) and the task completion recorded in the
    performance is below 1. *)
Theorem goal_rotation (a : SA.AutonomousAgent) (i : nat) :
  SA.agent_active (SA.agent_state a) = true ->
  NoDup (SA.goals a) ->
  nth_error (SA.goals a) i = Some (SA.currentGoal (SA.agent_state a)) ->
  0 <= SA.progress (SA.agent_state a) ->
  let r := SA.executeAgent a in
  let st := SA.agent_state (fst r) in
  0 <= SA.progress st /\ SA.progress st < 1
  /\ SA.taskCompletion (SA.performance (fst r)) < 1
  /\ if Qle_bool 1.0 (SA.progress (SA.agent_state (SA.executeAgentGoals a)))
     then exists next,
            nth_error (SA.goals a) (S i mod List.length (SA.goals a))
            = Some next
            /\ SA.currentGoal st = next
            /\ SA.progress st = 0
            /\ snd r
               = [SA.agent_goal_completed (SA.agent_id a)
                    (Some (SA.currentGoal (SA.agent_state a))) (Some next)]
     else SA.currentGoal st = SA.currentGoal (SA.agent_state a)
          /\ snd r = [].
Proof.
  intros Ha Hnd Hi Hp. cbv zeta. unfold SA.executeAgent. rewrite Ha.
  pose proof (executeAgentGoals_frame a) as F. cbv zeta in F.
  destruct F as (Fi & Fg & Fc & Fp). specialize (Fp Hp).
  set (a1 := SA.executeAgentGoals a) in *.
  unfold SA.updateAgentProgress. cbv zeta.
  destruct (Qle_bool 1.0 (SA.progress (SA.agent_state a1))) eqn:E.
  - cbn [fst snd SA.evaluateAgentPerformance SA.agent_state SA.progress
         SA.set_agent_state SA.performance SA.taskCompletion SA.currentGoal].
    rewrite Fi, Fg, Fc.
    unfold SA.nextIndex. rewrite (indexOf_nth _ _ _ Hnd Hi), Hi.
    assert (Hlen : (S i mod List.length (SA.goals a)
                    < List.length (SA.goals a))%nat).
    { apply Nat.mod_upper_bound. intro Z0.
      destruct (SA.goals a); [destruct i; discriminate|discriminate]. }
    destruct (nth_error (SA.goals a) (S i mod List.length (SA.goals a)))
      as [next|] eqn:N; [|apply nth_error_None in N; lia].
    split; [lra|]. split; [reflexivity|].
    split; [vm_compute; reflexivity|].
    exists next. repeat split; reflexivity.
  - apply Qle_bool_false in E.
    cbn [fst snd SA.evaluateAgentPerformance SA.agent_state SA.progress
         SA.performance SA.taskCompletion SA.currentGoal].
    split; [exact Fp|]. split; [lra|].
    split; [|split; [exact Fc|reflexivity]].
    apply Qle_lt_trans with (SA.progress (SA.agent_state a1));
      [apply Q.le_min_r|lra].
Qed.

Lemma goal_rotation_witness :
  let r := SA.executeAgent SA.analyzerAgent in
  let st := SA.agent_state (fst r) in
  0 <= SA.progress st /\ SA.progress st < 1
  /\ SA.taskCompletion (SA.performance (fst r)) < 1
  /\ if Qle_bool 1.0
          (SA.progress (SA.agent_state (SA.executeAgentGoals SA.analyzerAgent)))
     then exists next,
            nth_error (SA.goals SA.analyzerAgent)
              (1 mod List.length (SA.goals SA.analyzerAgent))
            = Some next
            /\ SA.currentGoal st = next
            /\ SA.progress st = 0
            /\ snd r
               = [SA.agent_goal_completed (SA.agent_id SA.analyzerAgent)
                    (Some (SA.currentGoal (SA.agent_state SA.analyzerAgent)))
                    (Some next)]
     else SA.currentGoal st = SA.currentGoal (SA.agent_state SA.analyzerAgent)
          /\ snd r = [].
Proof.
  apply (goal_rotation SA.analyzerAgent 0).
  - reflexivity.
  - repeat constructor; simpl; intuition discriminate.
  - reflexivity.
  - vm_compute. discriminate.
Defined.

(** *** Statistics and the event log of a monitoring cycle *)

Lemma map_delete_length {V : Type} (k : string) (m : jsmap V) :
  NoDup (map_keys m) ->
  List.length (map_delete k m)
  = if map_has k m then pred (List.length m) else List.length m.
Proof.
  unfold map_has. induction m as [|[k0 v0] m IH]; intro Hnd; [reflexivity|].
  inversion Hnd as [|x xs Hk Hnd']; subst. simpl.
  destruct (String.eqb k k0) eqn:E.
  - apply String.eqb_eq in E. subst k0. now rewrite map_delete_fresh.
  - simpl. rewrite (IH Hnd').
    destruct (map_get k m) eqn:G; [|reflexivity].
    destruct m; [discriminate|reflexivity].
Qed.

Lemma anomalies_nonempty (m : jsmap SA.SynergyComponent) :
  (0 <? List.length (flat_map SA.anomaliesOf m))%nat
  = existsb anomalous (map_values m).
Proof.
  induction m as [|[k c] m IH]; [reflexivity|].
  cbn [flat_map map_values map existsb snd]. rewrite length_app.
  fold (map_values m). rewrite <- IH.
  unfold SA.anomaliesOf at 1, anomalous. cbv zeta. cbn [snd fst].
  destruct (Qgtb _ _); [reflexivity|].
  destruct (Qltb _ _); [reflexivity|].
  destruct (_ <? _)%Z; reflexivity.
Qed.

(** X17.  A monitoring cycle appends one [component_health] event per
    component, in the order of the registry and with the values the
    component has at the end of the cycle, and after them one
    [performance_anomaly] event if and only if some component then has a
    load above 0.9, an efficiency below 0.6 or more than 5 errors. *)
Theorem monitoring_event_log (draws : string -> SA.Draw) (now : Z)
  (s : SA.State) :
  NoDup (map_keys (SA.components s)) ->
  let s' := SA.monitoringCycle draws now s in
  exists emitted,
    SA.events s' = SA.events s ++ emitted
    /\ map isAnomaly emitted
       = repeat false (List.length (SA.components s))
         ++ (if existsb anomalous (map_values (SA.components s'))
             then [true] else [])
    /\ firstn (List.length (SA.components s)) emitted
       = map healthEvent (SA.components s').
Proof.
  intro Hnd. cbv zeta.
  rewrite (monitoringCycle_components draws now s Hnd).
  unfold SA.monitoringCycle, SA.detectPerformanceAnomalies. cbv zeta.
  assert (C : SA.components (SA.updateArchitecturalState
                               (SA.monitorComponentHealth draws s))
              = map (monitored draws) (SA.components s)).
  { unfold SA.updateArchitecturalState. cbv zeta.
    cbn [SA.components SA.set_architecturalState].
    now rewrite (monitorComponentHealth_result draws s Hnd). }
  assert (E : SA.events (SA.updateArchitecturalState
                           (SA.monitorComponentHealth draws s))
              = SA.events s
                ++ map healthEvent (map (monitored draws) (SA.components s))).
  { unfold SA.updateArchitecturalState. cbv zeta.
    cbn [SA.events SA.set_architecturalState].
    now rewrite (monitorComponentHealth_result draws s Hnd). }
  rewrite C, anomalies_nonempty.
  set (m := map (monitored draws) (SA.components s)) in *.
  assert (Hlen : List.length (map healthEvent m)
                 = List.length (SA.components s)).
  { unfold m. now rewrite !length_map. }
  assert (Hh : map isAnomaly (map healthEvent m)
               = repeat false (List.length (SA.components s))).
  { rewrite <- Hlen. clear. induction m as [|x m IH]; [reflexivity|].
    simpl. now rewrite IH. }
  destruct (existsb anomalous (map_values m)).
  - eexists. cbn [SA.events SA.emit]. rewrite E, <- app_assoc.
    split; [reflexivity|]. rewrite map_app, Hh. split; [reflexivity|].
    rewrite <- Hlen, firstn_app, Nat.sub_diag, firstn_all. simpl.
    now rewrite app_nil_r.
  - eexists. split; [exact E|]. rewrite Hh, app_nil_r. split; [reflexivity|].
    rewrite <- Hlen. apply firstn_all.
Qed.

Lemma monitoring_event_log_witness :
  let s := SA.addComponent wildComponent (SA.new 0) in
  let s' := SA.monitoringCycle stillDraws 5 s in
  exists emitted,
    SA.events s' = SA.events s ++ emitted
    /\ map isAnomaly emitted
       = repeat false (List.length (SA.components s))
         ++ (if existsb anomalous (map_values (SA.components s'))
             then [true] else [])
    /\ firstn (List.length (SA.components s)) emitted
       = map healthEvent (SA.components s').
Proof.
  apply (monitoring_event_log stillDraws 5
           (SA.addComponent wildComponent (SA.new 0))).
  vm_compute. repeat constructor; simpl; intuition discriminate.
Defined.

Lemma active_count (draws : string -> SA.Draw)
  (m : jsmap SA.SynergyComponent) :
  List.length
    (filter (fun c => SA.active (SA.state c))
       (map_values (map (monitored draws) m)))
  = List.length
      (filter (fun c => SA.active (SA.state c)) (map_values m)).
Proof.
  unfold map_values. induction m as [|[k c] m IH]; [reflexivity|].
  cbn [map filter snd fst monitored].
  change (SA.active (SA.state (SA.monitorComponent (draws k) c)))
    with (SA.active (SA.state c)).
  destruct (SA.active (SA.state c)); cbn [List.length]; now rewrite IH.
Qed.

(** X18.  In the statistics the total of components follows the registry
    ([addComponent] adds one unless the id is known, [removeComponent]
    takes one unless the id is unknown), while the count of active
    components is that of the last monitoring cycle: neither call changes
    it, and a monitoring cycle sets it to the number of components whose
    [active] flag is set. *)
Theorem statistics_staleness (draws : string -> SA.Draw) (now : Z)
  (s : SA.State) (c : SA.SynergyComponent) (k : string) :
  NoDup (map_keys (SA.components s)) ->
  let size := List.length (SA.components s) in
  let stats := SA.getArchitecturalStatistics s in
  let added := SA.getArchitecturalStatistics (SA.addComponent c s) in
  let removed := SA.getArchitecturalStatistics (SA.removeComponent k s) in
  let monitored := SA.getArchitecturalStatistics (SA.monitoringCycle draws now s) in
  SA.stat_totalComponents added
  = (if map_has (SA.id c) (SA.components s) then size else S size)
  /\ SA.stat_activeComponents added = SA.stat_activeComponents stats
  /\ SA.stat_totalComponents removed
     = (if map_has k (SA.components s) then pred size else size)
  /\ SA.stat_activeComponents removed = SA.stat_activeComponents stats
  /\ SA.stat_totalComponents monitored = size
  /\ SA.stat_activeComponents monitored
     = List.length
         (filter (fun c => SA.active (SA.state c))
            (map_values (SA.components s))).
Proof.
  intro Hnd. cbv zeta. unfold SA.getArchitecturalStatistics.
  cbn [SA.stat_totalComponents SA.stat_activeComponents].
  split; [apply map_set_length|]. split; [reflexivity|].
  split; [now apply map_delete_length|]. split; [reflexivity|].
  rewrite (monitoringCycle_components draws now s Hnd).
  split; [apply length_map|].
  unfold SA.monitoringCycle.
  rewrite (proj2 (detectPerformanceAnomalies_frame _ _)).
  unfold SA.updateArchitecturalState. cbv zeta.
  cbn [SA.architecturalState SA.set_architecturalState SA.activeComponents].
  rewrite (monitorComponentHealth_result draws s Hnd).
  cbn [SA.components withComponents].
  apply active_count.
Qed.

Lemma statistics_staleness_witness :
  SA.stat_activeComponents
    (SA.getArchitecturalStatistics
       (SA.addComponent wildComponent (SA.new 0)))
  = SA.stat_activeComponents (SA.getArchitecturalStatistics (SA.new 0)).
Proof.
  refine (proj1 (proj2 (statistics_staleness stillDraws 5 (SA.new 0)
                          wildComponent "adaptive_learner" _))).
  vm_compute. repeat constructor; simpl; intuition discriminate.
Defined.
